(** * Azure VM creator: configuration validation and provisioning walk

    A shallow embedding of [script/create_vm.py]: the [VMConfig] class
    (defaults and [validate]) and the [AzureVMCreator] class (the seven
    creation methods, [get_vm_info] and [create_complete_vm]).

    Conventions of the embedding.
    - A Python [str] is a [string] read as a sequence of code points below
      256 (one [ascii] per code point); [len] is [String.length].
    - The configuration dictionary is a record whose fields are the keys
      of the dictionary; a field is [None] when the key is missing, so
      [d.get(k)] is the field itself and [d.get(k, v)] is [default v].
    - The Azure SDK clients are an oracle [remote] over an abstract cloud
      state; every call is recorded, with its outcome, in a trace.
    - [datetime.now().isoformat()] reads a clock, an oracle too. *)

From Stdlib Require Import Ascii.
From stdpp Require Import base strings list gmap pretty.

Open Scope string_scope.
Open Scope list_scope.

(** ** Python values and exceptions *)

Inductive exn_class :=
  | ResourceNotFoundError   (* azure.core.exceptions, an AzureError *)
  | HttpResponseError       (* azure.core.exceptions, an AzureError *)
  | ServiceRequestError     (* azure.core.exceptions, an AzureError *)
  | KeyError
  | RuntimeError.

Record exn := Exn { exn_cls : exn_class; exn_msg : string }.

(** [isinstance(e, AzureError)] *)
Definition is_azure_error (e : exn) : bool :=
  match exn_cls e with
  | ResourceNotFoundError | HttpResponseError | ServiceRequestError => true
  | KeyError | RuntimeError => false
  end.

Inductive result (A : Type) :=
  | Ok (a : A)
  | Raise (e : exn).
Arguments Ok {A} a.
Arguments Raise {A} e.

Inductive pyval :=
  | PyNone
  | PyStr (s : string).

Definition pyval_of (o : option string) : pyval :=
  match o with Some s => PyStr s | None => PyNone end.

(** ** Strings *)

Module PyStr.

Definition code (a : ascii) : N := Ascii.N_of_ascii a.

Definition between (lo hi : N) (a : ascii) : bool :=
  (lo <=? code a)%N && (code a <=? hi)%N.

(** [c.isalnum()] for one code point below 256, as CPython classifies
    them: the ASCII digits and letters, and in the upper half the
    letters and the numeric characters of the Latin-1 block. *)
Definition isalnum_char (a : ascii) : bool :=
  between 48 57 a || between 65 90 a || between 97 122 a
  || between 170 170 a || between 178 179 a || between 181 181 a
  || between 185 186 a || between 188 190 a
  || between 192 214 a || between 216 246 a || between 248 255 a.

(** The characters the regular expression [[A-Za-z0-9]] accepts. *)
Definition is_ascii_alnum (a : ascii) : bool :=
  between 48 57 a || between 65 90 a || between 97 122 a.

Fixpoint all_chars (p : ascii -> bool) (s : string) : bool :=
  match s with
  | EmptyString => true
  | String a r => p a && all_chars p r
  end.

Fixpoint any_char (p : ascii -> bool) (s : string) : bool :=
  match s with
  | EmptyString => false
  | String a r => p a || any_char p r
  end.

(** [s.isalnum()]: every character is alphanumeric and there is at
    least one character. *)
Definition isalnum (s : string) : bool :=
  match s with
  | EmptyString => false
  | String _ _ => all_chars isalnum_char s
  end.

(** [s.replace(old, new)] for a one-character [old]. *)
Fixpoint replace (old : ascii) (new : string) (s : string) : string :=
  match s with
  | EmptyString => EmptyString
  | String a r =>
      if Ascii.eqb a old then new +:+ replace old new r
      else String a (replace old new r)
  end.

Definition len (s : string) : nat := String.length s.


(** [c.isspace()] for one code point below 256. *)
Definition isspace_char (a : ascii) : bool :=
  between 9 13 a || between 28 32 a || between 133 133 a || between 160 160 a.

(** [s.lstrip()] *)
Fixpoint lstrip (s : string) : string :=
  match s with
  | EmptyString => EmptyString
  | String a r => if isspace_char a then lstrip r else s
  end.

(** [s.rstrip()] *)
Fixpoint rstrip (s : string) : string :=
  match s with
  | EmptyString => EmptyString
  | String a r =>
      match rstrip r with
      | EmptyString => if isspace_char a then EmptyString else String a EmptyString
      | String b t => String a (String b t)
      end
  end.

(** [s.strip()] *)
Definition strip (s : string) : string := rstrip (lstrip s).

(** [c.lower()] for one code point below 256: the ASCII capitals and
    the capitals of the Latin-1 block move 32 places up. *)
Definition lower_char (a : ascii) : ascii :=
  if between 65 90 a || between 192 214 a || between 216 222 a
  then Ascii.ascii_of_N (code a + 32) else a.

(** [s.lower()] *)
Fixpoint lower (s : string) : string :=
  match s with
  | EmptyString => EmptyString
  | String a r => String (lower_char a) (lower r)
  end.

End PyStr.

(** Truthiness of the value of [d.get(k)] for a string-valued key:
    [None] and the empty string are falsy. *)
Definition truthy (v : option string) : bool :=
  match v with
  | None => false
  | Some s => negb (String.eqb s EmptyString)
  end.

(** ** The configuration dictionary *)

Record image_config := {
  publisher : option string;
  offer : option string;
  sku : option string;
  version : option string }.

Record network_config := {
  vnet_name : option string;
  vnet_address_space : option string;
  subnet_name : option string;
  subnet_address_prefix : option string;
  public_ip_name : option string;
  nsg_name : option string;
  nic_name : option string }.

Record disk_config := {
  os_disk_size_gb : option Z;
  storage_account_type : option string }.

Record security_config := {
  ssh_port : option Z;
  allowed_ssh_sources : option (list string) }.

Record config := {
  vm_name : option string;
  resource_group : option string;
  location : option string;
  vm_size : option string;
  admin_username : option string;
  admin_password : option string;
  os_type : option string;
  image : option image_config;
  network : option network_config;
  disk : option disk_config;
  security : option security_config;
  tags : option (gmap string string) }.

(** [VMConfig._default_config] *)
Definition _default_config : config := {|
  vm_name := Some "azure-vm-prod";
  resource_group := Some "rg-azure-vm";
  location := Some "East US";
  vm_size := Some "Standard_B2s";
  admin_username := Some "azureuser";
  admin_password := None;
  os_type := Some "linux";
  image := Some {|
    publisher := Some "Canonical";
    offer := Some "0001-com-ubuntu-server-focal";
    sku := Some "20_04-lts-gen2";
    version := Some "latest" |};
  network := Some {|
    vnet_name := Some "vnet-azure-vm";
    vnet_address_space := Some "10.0.0.0/16";
    subnet_name := Some "subnet-default";
    subnet_address_prefix := Some "10.0.0.0/24";
    public_ip_name := Some "ip-azure-vm";
    nsg_name := Some "nsg-azure-vm";
    nic_name := Some "nic-azure-vm" |};
  disk := Some {|
    os_disk_size_gb := Some 30%Z;
    storage_account_type := Some "Premium_LRS" |};
  security := Some {|
    ssh_port := Some 22%Z;
    allowed_ssh_sources := Some ["*"] |};
  tags := Some (<["Environment" := "Production"]>
               (<["CreatedBy" := "AzureVMCreator"]>
               (<["Project" := "Infrastructure"]> ∅))) |}.

(** [self.config.get(field)] for the string-valued top-level keys. *)
Definition get_str (c : config) (field : string) : option string :=
  if decide (field = "vm_name") then vm_name c
  else if decide (field = "resource_group") then resource_group c
  else if decide (field = "location") then location c
  else if decide (field = "vm_size") then vm_size c
  else if decide (field = "admin_username") then admin_username c
  else if decide (field = "admin_password") then admin_password c
  else if decide (field = "os_type") then os_type c
  else None.

(** ** Log records

    The logger calls, kept as structured records: one constructor per
    message of the source, carrying the values the message interpolates. *)

Inductive node :=
  | ResourceGroup
  | VirtualNetwork
  | Subnet
  | PublicIP
  | NetworkSecurityGroup
  | NetworkInterface
  | VirtualMachine.

Global Instance node_eq_dec : EqDecision node.
Proof. solve_decision. Defined.

Inductive log_record :=
  | ErrMissingField (field : string)   (* error: "Campo requerido faltante" *)
  | ErrInvalidVmName                   (* error: "Nombre de VM invalido ..." *)
  | InfoValidated                      (* info: "Configuracion validada" *)
  | InfoCreating (k : node) (name : option string)
  | InfoCreatingGroup (name location : option string)
                                       (* info: "Creando grupo de recursos: ... en ..." *)
  | InfoExists (name : option string)  (* info: the resource group exists *)
  | InfoCreated (k : node) (name : string)
  | ErrCreate (k : node) (e : exn)     (* error: "Error al crear ..." *)
  | ErrVmInfo (e : exn)                (* error: get_vm_info failed *)
  | InfoStart
  | InfoDone
  | InfoSummary (label : string) (v : pyval)
  | ErrRun (cause : string).           (* error: create_complete_vm failed *)

(** ** [VMConfig.validate] *)

Definition required_fields : list string :=
  ["vm_name"; "resource_group"; "location"; "admin_username"].

(** The loop over [required_fields]: the first field whose value is
    falsy, if there is one. *)
Fixpoint first_missing (c : config) (fields : list string) : option string :=
  match fields with
  | [] => None
  | field :: rest =>
      if truthy (get_str c field) then first_missing c rest else Some field
  end.

(** [1 <= len(vm_name) <= 64 and
     vm_name.replace('-', '').replace('_', '').isalnum()] *)
Definition vm_name_ok (name : string) : bool :=
  (1 <=? PyStr.len name)%nat && (PyStr.len name <=? 64)%nat
  && PyStr.isalnum (PyStr.replace "_" EmptyString (PyStr.replace "-" EmptyString name)).

(** Returns the value returned (or the exception raised) and the records
    logged. [self.config['vm_name']] raises [KeyError] on a missing key. *)
Definition validate (c : config) : result bool * list log_record :=
  match first_missing c required_fields with
  | Some field => (Ok false, [ErrMissingField field])
  | None =>
      match vm_name c with
      | None => (Raise (Exn KeyError "vm_name"), [])
      | Some name =>
          if vm_name_ok name then (Ok true, [InfoValidated])
          else (Ok false, [ErrInvalidVmName])
      end
  end.


(** ** The naming rule, character by character *)

Definition is_hyphen_or_underscore (a : ascii) : bool :=
  Ascii.eqb a "-" || Ascii.eqb a "_".

(** A character a VM name may hold, as the code sees it. *)
Definition name_char (a : ascii) : bool :=
  PyStr.isalnum_char a || is_hyphen_or_underscore a.

(** The naming rule in the words of the specification: the regular
    expression [^[A-Za-z0-9_-]{1,64}$]. *)
Definition matches_name_regex (s : string) : bool :=
  (1 <=? PyStr.len s)%nat && (PyStr.len s <=? 64)%nat
  && PyStr.all_chars (fun a => PyStr.is_ascii_alnum a || is_hyphen_or_underscore a) s.

(** The name without its hyphens and underscores. *)
Definition strip (s : string) : string :=
  PyStr.replace "_" EmptyString (PyStr.replace "-" EmptyString s).

(** The four values [validate] reads. *)
Definition validated_fields (c : config) :=
  (vm_name c, resource_group c, location c, admin_username c).

(** ** Requests sent to the Azure clients

    A request body is the [params] dictionary of the source: the fields
    each method writes, and the ['tags'] key that [_add_tags] may add. *)

Record params (A : Type) := Params {
  fields : A;
  params_tags : option (gmap string string) }.
Arguments Params {A} fields params_tags.
Arguments fields {A} p.
Arguments params_tags {A} p.

Record rg_fields := { rg_location : option string }.

Record vnet_fields := {
  vnet_location : option string;
  address_prefixes : list string }.

Record subnet_fields := { address_prefix : string }.

Record public_ip_fields := {
  pip_location : option string;
  public_ip_allocation_method : string;
  pip_sku_name : string }.

Record security_rule := {
  rule_name : string;
  protocol : string;
  source_port_range : string;
  destination_port_range : string;
  source_address_prefix : string;
  destination_address_prefix : string;
  access : string;
  priority : Z;
  direction : string }.

Record nsg_fields := {
  nsg_location : option string;
  security_rules : list security_rule }.

Record nic_fields := {
  nic_location : option string;
  ip_configuration_name : string;
  subnet_id : string;
  public_ip_address_id : string;
  private_ip_allocation_method : string;
  network_security_group_id : string }.

Record vm_fields := {
  vm_location : option string;
  computer_name : option string;
  os_admin_username : option string;
  os_admin_password : option string;
  disable_password_authentication : bool;
  hardware_vm_size : string;
  image_publisher : string;
  image_offer : string;
  image_sku : string;
  image_version : string;
  os_disk_caching : string;
  os_disk_storage_account_type : string;
  os_disk_name : string;
  os_disk_create_option : string;
  os_disk_size : Z;
  network_interfaces : list string }.

Inductive call :=
  | RGGet (name : option string)
  | RGCreateOrUpdate (name : option string) (p : params rg_fields)
  | VNetCreateOrUpdate (rg name : option string) (p : params vnet_fields)
  | SubnetCreateOrUpdate (rg vnet name : option string) (p : params subnet_fields)
  | PublicIPCreateOrUpdate (rg name : option string) (p : params public_ip_fields)
  | NSGCreateOrUpdate (rg name : option string) (p : params nsg_fields)
  | NICCreateOrUpdate (rg name : option string) (p : params nic_fields)
  | VMCreateOrUpdate (rg name : option string) (p : params vm_fields)
  | VMGet (rg name : option string)
  | PublicIPGet (rg : option string) (name : string).

(** The object a client call returns, with the attributes the source
    reads from it. *)
Record resource := {
  res_name : string;
  res_id : string;
  res_location : string;
  res_vm_id : string;
  res_vm_size : string;
  res_provisioning_state : string;
  ip_address : option string }.

Record event := Ev { ev_call : call; ev_result : result resource }.

(** The node a creation call creates; [None] for the read-only calls. *)
Definition created_node (c : call) : option node :=
  match c with
  | RGCreateOrUpdate _ _ => Some ResourceGroup
  | VNetCreateOrUpdate _ _ _ => Some VirtualNetwork
  | SubnetCreateOrUpdate _ _ _ _ => Some Subnet
  | PublicIPCreateOrUpdate _ _ _ => Some PublicIP
  | NSGCreateOrUpdate _ _ _ => Some NetworkSecurityGroup
  | NICCreateOrUpdate _ _ _ => Some NetworkInterface
  | VMCreateOrUpdate _ _ _ => Some VirtualMachine
  | RGGet _ | VMGet _ _ | PublicIPGet _ _ => None
  end.

(** The tags a call carries, when it is a creation call. *)
Definition call_tags (c : call) : option (gmap string string) :=
  match c with
  | RGCreateOrUpdate _ p => params_tags p
  | VNetCreateOrUpdate _ _ p => params_tags p
  | SubnetCreateOrUpdate _ _ _ p => params_tags p
  | PublicIPCreateOrUpdate _ _ p => params_tags p
  | NSGCreateOrUpdate _ _ p => params_tags p
  | NICCreateOrUpdate _ _ p => params_tags p
  | VMCreateOrUpdate _ _ p => params_tags p
  | RGGet _ | VMGet _ _ | PublicIPGet _ _ => None
  end.

(** ** The security rules of [create_network_security_group] *)

Definition ssh_rule (i : nat) (source : string) (ssh_port : Z) : security_rule := {|
  rule_name := "SSH_" +:+ pretty (i + 1)%nat;
  protocol := "Tcp";
  source_port_range := "*";
  destination_port_range := pretty ssh_port;
  source_address_prefix := source;
  destination_address_prefix := "*";
  access := "Allow";
  priority := 1000 + Z.of_nat i;
  direction := "Inbound" |}.

Definition deny_all_inbound : security_rule := {|
  rule_name := "DenyAllInbound";
  protocol := "*";
  source_port_range := "*";
  destination_port_range := "*";
  source_address_prefix := "*";
  destination_address_prefix := "*";
  access := "Deny";
  priority := 4096;
  direction := "Inbound" |}.

(** The loop [for i, source in enumerate(allowed_sources)], from index
    [i] on, appending to [security_rules]. *)
Fixpoint append_ssh_rules (i : nat) (allowed_sources : list string)
    (ssh_port : Z) (security_rules : list security_rule) : list security_rule :=
  match allowed_sources with
  | [] => security_rules
  | source :: rest =>
      append_ssh_rules (S i) rest ssh_port
        (security_rules ++ [ssh_rule i source ssh_port])
  end.

(** The list [security_rules] the method builds from the configuration. *)
Definition build_security_rules (c : config) : list security_rule :=
  let security_config := security c in
  let port := default 22%Z (security_config ≫= ssh_port) in
  let allowed_sources := default ["*"] (security_config ≫= allowed_ssh_sources) in
  append_ssh_rules 0 allowed_sources port [] ++ [deny_all_inbound].


(** ** Updates of the configuration, and small helpers *)

(** [with_security c sec] is the configuration [c] with [c['security']]
    bound to [sec] (removed when [sec] is [None]). *)
Definition with_security (c : config) (sec : option security_config) : config := {|
  vm_name := vm_name c;
  resource_group := resource_group c;
  location := location c;
  vm_size := vm_size c;
  admin_username := admin_username c;
  admin_password := admin_password c;
  os_type := os_type c;
  image := image c;
  network := network c;
  disk := disk c;
  security := sec;
  tags := tags c |}.

(** [with_tags c t] is the configuration [c] after [c['tags']] has been
    bound to [t]. *)
Definition with_tags (c : config) (t : option (gmap string string)) : config := {|
  vm_name := vm_name c;
  resource_group := resource_group c;
  location := location c;
  vm_size := vm_size c;
  admin_username := admin_username c;
  admin_password := admin_password c;
  os_type := os_type c;
  image := image c;
  network := network c;
  disk := disk c;
  security := security c;
  tags := t |}.

(** [str(x)] of a value that may be [None]. *)
Definition str_of (o : option string) : string := default "None" o.

(** [x or d] for a string-valued [x]. *)
Definition or_else (o : option string) (d : string) : string :=
  if truthy o then default d o else d.

(** ** Clouds to run the code against *)

Module Demo.

(** A handle named after the request. *)
Definition handle (kind : string) (name : option string) : resource := {|
  res_name := str_of name;
  res_id := "/" +:+ kind +:+ "/" +:+ str_of name;
  res_location := "East US";
  res_vm_id := "vm-0001";
  res_vm_size := "Standard_B2s";
  res_provisioning_state := "Succeeded";
  ip_address := None |}.

Definition answer (c : call) : resource :=
  match c with
  | RGGet name | RGCreateOrUpdate name _ => handle "resourceGroups" name
  | VNetCreateOrUpdate _ name _ => handle "virtualNetworks" name
  | SubnetCreateOrUpdate _ _ name _ => handle "subnets" name
  | PublicIPCreateOrUpdate _ name _ => handle "publicIPAddresses" name
  | NSGCreateOrUpdate _ name _ => handle "networkSecurityGroups" name
  | NICCreateOrUpdate _ name _ => handle "networkInterfaces" name
  | VMCreateOrUpdate _ name _ | VMGet _ name => handle "virtualMachines" name
  | PublicIPGet _ name => handle "publicIPAddresses" (Some name)
  end.

(** The state of this cloud is the list of the resource groups that
    exist. A probe finds a group exactly when it is listed, creating a
    group lists it, and every other call succeeds unless [broken] says
    it fails. *)
Definition cloud (broken : call -> option exn) (c : call)
    (groups : list (option string)) : result resource * list (option string) :=
  match broken c with
  | Some e => (Raise e, groups)
  | None =>
      match c with
      | RGGet name =>
          if decide (name ∈ groups) then (Ok (answer c), groups)
          else (Raise (Exn ResourceNotFoundError "ResourceGroupNotFound"), groups)
      | RGCreateOrUpdate name _ => (Ok (answer c), name :: groups)
      | _ => (Ok (answer c), groups)
      end
  end.

Definition healthy : call -> option exn := fun _ => None.

(** The creation of node [k] fails. *)
Definition fails_at (k : node) (e : exn) : call -> option exn := fun c =>
  if decide (created_node c = Some k) then Some e else None.

(** The lookup of the public IP fails. *)
Definition lookup_fails (e : exn) : call -> option exn := fun c =>
  match c with PublicIPGet _ _ => Some e | _ => None end.

(** The probe of the resource group fails, whether the group exists
    or not. *)
Definition probe_fails (e : exn) : call -> option exn := fun c =>
  match c with RGGet _ => Some e | _ => None end.

Definition clock (k : nat) : string := "2025-06-06T12:00:" +:+ pretty k.

Definition make (name password : option string)
    (sec : option security_config) (t : option (gmap string string)) : config := {|
  vm_name := name;
  resource_group := Some "rg-web";
  location := Some "East US";
  vm_size := None;
  admin_username := Some "azureuser";
  admin_password := password;
  os_type := None;
  image := None;
  network := network _default_config;
  disk := None;
  security := sec;
  tags := t |}.

Definition ssh_from (sources : list string) : option security_config :=
  Some {| ssh_port := Some 22%Z; allowed_ssh_sources := Some sources |}.

Definition project_tags : gmap string string := <["Project" := "Infrastructure"]> ∅.

(** The configuration of the scenario of the specification. *)
Definition config : config :=
  make (Some "web01") (Some "Str0ngPass!") (ssh_from ["10.0.0.0/8"]) (Some project_tags).

Definition boom : exn := Exn HttpResponseError "boom".

Definition forbidden : exn := Exn HttpResponseError "AuthorizationFailed".

(** The name made of the one character U+00E9. *)
Definition e_acute : string := String (Ascii.ascii_of_nat 233) EmptyString.

End Demo.

(** ** The console, the files and the process

    The functions that talk to the user read the lines typed at the
    keyboard ([input] and [getpass.getpass], in the order they are
    called) and emit messages: what they [print], and the records that
    [main] and [VMConfig._load_config] hand to their loggers (which of
    these a handler displays is a matter of the logging set-up, which is
    not modelled). Consecutive [print] calls that always run together
    are one message, and the prompts of [input] are left out. [sys.exit]
    ends a computation with a status. The records of
    [AzureVMCreator.__init__] are kept with the messages of [main]. *)

(** The exceptions of this layer. *)
Inductive failure :=
  | EOFError                       (* [input] at the end of the input *)
  | IndexError
  | JSONDecodeError
  | TypeError                      (* item assignment on a value that is no dictionary *)
  | AttributeError                 (* [.get] or [.update] on such a value *)
  | OtherError (what : string)     (* any other exception of a file operation *)
  | Raised (e : exn).              (* an exception of [VMConfig] or [AzureVMCreator] *)

(** What a configuration file may hold once parsed: an object, with
    the keys and the types of values that the program works with, or a
    JSON value of another kind (a list, a string, a number, [null]). *)
Inductive document :=
  | Object (c : config)
  | NotObject.

Inductive shown :=
  | ShowUsageError                (* argparse: the usage and the error *)
  | ShowHelpOrVersion             (* argparse: --help, --version *)
  | ShowBanner                    (* print_banner *)
  | ShowMenu                      (* show_menu: the options *)
  | ShowOutOfRange                (* show_menu: not between 1 and 7 *)
  | ShowNotANumber                (* show_menu: ValueError *)
  | ShowDialogueHeader            (* interactive_vm_creation: the title *)
  | ShowInvalidName
  | ShowLocations
  | ShowInvalidSelection
  | ShowSizes
  | ShowShortPassword
  | ShowStartDefault              (* interactive_menu_mode, choice 1 *)
  | ShowStartCustom               (* choice 2 *)
  | ShowPreview                   (* choice 4 *)
  | ShowExamples                  (* show_examples *)
  | ShowHelp                      (* show_help *)
  | ShowGoodbye                   (* choice 7 *)
  | ShowGenerated (filename : string)       (* generate_config_file *)
  | ShowLoaded (filename : string)          (* _load_config: info *)
  | ShowFileMissing (filename : string)     (* _load_config: warning *)
  | ShowJsonError (filename : string)       (* _load_config: error *)
  | ShowPasswordRequired
  | ShowDryRun (doc : document)   (* the log line and the JSON dump *)
  | ShowVersion                   (* "=== Azure VM Creator v2.0.0 ===" *)
  | ShowInvalidConfig
  | ShowSubscriptionRequired
  | ShowSubscription (id : string)
  | ShowPlan (c : config)         (* the summary of the configuration *)
  | ShowCancelled
  | ShowClientsReady              (* AzureVMCreator.__init__: info *)
  | ShowClientsFailed (e : exn)   (* AzureVMCreator.__init__: error *)
  | ShowStarting
  | ShowSuccess
  | ShowFailure
  | ShowUnexpected (f : failure). (* except Exception as e *)

Inductive outcome (A : Type) :=
  | Done (a : A)
  | Exit (status : Z)              (* sys.exit(status) *)
  | Uncaught (f : failure).
Arguments Done {A} a.
Arguments Exit {A} status.
Arguments Uncaught {A} f.

Record console := Console {
  typed : list string;             (* the lines not read yet *)
  screen : list shown;             (* what was shown, oldest first *)
  written : list (string * config) (* the configuration files written *) }.

(** What [open] and [json.load] give for a configuration file. *)
Inductive load_result :=
  | Loaded (doc : document)
  | FileNotFound
  | BadJson
  | LoadFails (f : failure).       (* any other exception *)

(** The value of [parse_arguments]. *)
Record arguments := {
  arg_config : option string;
  arg_subscription_id : option string;
  arg_vm_name : option string;
  arg_resource_group : option string;
  arg_location : option string;
  arg_vm_size : option string;
  arg_admin_user : option string;
  arg_admin_password : option string;
  arg_log_level : string;
  arg_dry_run : bool;
  arg_generate_config : option string }.

(** How [parse_arguments] ends: [parser.parse_args()] returns the
    arguments, or leaves the program, with status 2 when it refuses the
    command line and with status 0 after [--help] or [--version]. *)
Inductive parsed :=
  | Parsed (args : arguments)
  | UsageError
  | HelpOrVersion.

(** What the program takes from its host: [int] applied to a string
    ([None] for [ValueError]), the file system, the environment, the
    command line and the construction of the SDK clients. *)
Record host := Host {
  int_of : string -> option Z;
  read_json : string -> load_result;
  write_error : string -> option failure;  (* [open(filename, 'w')] raising *)
  env_subscription_id : option string;   (* os.environ.get('AZURE_SUBSCRIPTION_ID') *)
  parse_arguments : parsed;              (* argparse on sys.argv *)
  no_arguments : bool;                   (* len(sys.argv) == 1 *)
  connect : string -> option exn }.      (* the three clients of __init__ *)

(** [base.update(overlay)] on the string-valued keys the program
    updates: a key of [overlay] replaces the key of [base]. *)
Definition update (base overlay : config) : config := {|
  vm_name := from_option Some (vm_name base) (vm_name overlay);
  resource_group := from_option Some (resource_group base) (resource_group overlay);
  location := from_option Some (location base) (location overlay);
  vm_size := from_option Some (vm_size base) (vm_size overlay);
  admin_username := from_option Some (admin_username base) (admin_username overlay);
  admin_password := from_option Some (admin_password base) (admin_password overlay);
  os_type := from_option Some (os_type base) (os_type overlay);
  image := from_option Some (image base) (image overlay);
  network := from_option Some (network base) (network overlay);
  disk := from_option Some (disk base) (disk overlay);
  security := from_option Some (security base) (security overlay);
  tags := from_option Some (tags base) (tags overlay) |}.

(** The dictionary with the given string-valued keys and no other. *)
Definition only_keys (name group loc size user password : option string) : config := {|
  vm_name := name;
  resource_group := group;
  location := loc;
  vm_size := size;
  admin_username := user;
  admin_password := password;
  os_type := None;
  image := None;
  network := None;
  disk := None;
  security := None;
  tags := None |}.

(** The console after one more message. *)
Definition say (r : shown) (con : console) : console :=
  Console (typed con) (screen con ++ [r]) (written con).

(** [value if value else None], as the tests [if args.x:] of [main]
    read an argument. *)
Definition given (arg : option string) : option string :=
  if truthy arg then arg else None.

(** The condition of the name loop of [interactive_vm_creation]:
    [vm_name and len(vm_name) <= 64 and
     vm_name.replace('-', '').replace('_', '').isalnum()] *)
Definition dialogue_name_ok (name : string) : bool :=
  negb (String.eqb name EmptyString)
  && (PyStr.len name <=? 64)%nat
  && PyStr.isalnum (PyStr.replace "_" EmptyString (PyStr.replace "-" EmptyString name)).

Definition locations : list string :=
  ["East US"; "West US"; "West Europe"; "North Europe";
   "Southeast Asia"; "East Asia"; "Brazil South"; "Australia East"].

(** The sizes and their descriptions; the accented letters are U+00E1
    and U+00F3. *)
Definition vm_sizes : list (string * string) :=
  [("Standard_B1s", "1 vCPU, 1GB RAM - B" +:+ String (Ascii.ascii_of_nat 225) "sico");
   ("Standard_B2s", "2 vCPU, 4GB RAM - Est" +:+ String (Ascii.ascii_of_nat 225) "ndar");
   ("Standard_D2s_v3",
    "2 vCPU, 8GB RAM - Prop" +:+ String (Ascii.ascii_of_nat 243) "sito general");
   ("Standard_D4s_v3", "4 vCPU, 16GB RAM - Alto rendimiento")].

(** The answers that confirm the creation. The third is [s] followed
    by U+00ED. *)
Definition confirmations : list string :=
  ["s"; "si"; String "s" (String (Ascii.ascii_of_nat 237) EmptyString); "y"; "yes"].

(** What the dialogue of [interactive_vm_creation] makes: the six keys,
    each with a value that the dialogue lets through. *)
Definition dialogue_made (custom : config) : Prop :=
  exists name group loc size user password,
    custom = only_keys (Some name) (Some group) (Some loc) (Some size)
               (Some user) (Some password)
    /\ vm_name_ok name = true
    /\ group <> EmptyString
    /\ loc ∈ locations
    /\ size ∈ (fst <$> vm_sizes)
    /\ user <> EmptyString
    /\ 8 <= PyStr.len password.

Section Console.

Variable h : host.

Definition IO (A : Type) : Type := console -> outcome A * console.

Definition io_ret {A} (a : A) : IO A := fun con => (Done a, con).

Definition io_bind {A B} (m : IO A) (k : A -> IO B) : IO B := fun con =>
  match m con with
  | (Done a, con') => k a con'
  | (Exit status, con') => (Exit status, con')
  | (Uncaught f, con') => (Uncaught f, con')
  end.

Notation "x <- m ; k" := (io_bind m (fun x => k))
  (at level 100, m at next level, right associativity, only parsing).
Notation "m ;; k" := (io_bind m (fun _ => k))
  (at level 100, right associativity, only parsing).

(** [print(...)] *)
Definition show (r : shown) : IO unit := fun con => (Done tt, say r con).

(** [input(...)] and [getpass.getpass(...)]: the next line typed. *)
Definition input : IO string := fun con =>
  match typed con with
  | [] => (Uncaught EOFError, con)
  | line :: rest => (Done line, Console rest (screen con) (written con))
  end.

(** [sys.exit(status)] *)
Definition sys_exit {A} (status : Z) : IO A := fun con => (Exit status, con).

Definition raise {A} (f : failure) : IO A := fun con => (Uncaught f, con).

(** The loop of [show_menu], over the lines typed. *)
Fixpoint show_menu_loop (lines : list string) (seen : list shown)
    (files : list (string * config)) : outcome Z * console :=
  match lines with
  | [] => (Uncaught EOFError, Console [] seen files)
  | line :: rest =>
      match int_of h line with
      | Some choice =>
          if ((1 <=? choice) && (choice <=? 7))%Z
          then (Done choice, Console rest seen files)
          else show_menu_loop rest (seen ++ [ShowOutOfRange]) files
      | None => show_menu_loop rest (seen ++ [ShowNotANumber]) files
      end
  end.

(** [show_menu] *)
Definition show_menu : IO Z :=
  show ShowMenu;;
  (fun con => show_menu_loop (typed con) (screen con) (written con)).

(** The name loop of [interactive_vm_creation]. *)
Fixpoint name_loop (lines : list string) (seen : list shown)
    (files : list (string * config)) : outcome string * console :=
  match lines with
  | [] => (Uncaught EOFError, Console [] seen files)
  | line :: rest =>
      let vm_name := PyStr.strip line in
      if dialogue_name_ok vm_name then (Done vm_name, Console rest seen files)
      else name_loop rest (seen ++ [ShowInvalidName]) files
  end.

(** A loop that asks for a number between 1 and [bound], [fallback]
    standing for an empty line: the two selection loops of
    [interactive_vm_creation]. *)
Fixpoint selection_loop (fallback : string) (bound : Z) (lines : list string)
    (seen : list shown) (files : list (string * config)) : outcome Z * console :=
  match lines with
  | [] => (Uncaught EOFError, Console [] seen files)
  | line :: rest =>
      let text := if String.eqb line EmptyString then fallback else line in
      match int_of h text with
      | Some choice =>
          if ((1 <=? choice) && (choice <=? bound))%Z
          then (Done choice, Console rest seen files)
          else selection_loop fallback bound rest (seen ++ [ShowInvalidSelection]) files
      | None => selection_loop fallback bound rest (seen ++ [ShowInvalidSelection]) files
      end
  end.

(** The password loop of [interactive_vm_creation]. *)
Fixpoint password_loop (lines : list string) (seen : list shown)
    (files : list (string * config)) : outcome string * console :=
  match lines with
  | [] => (Uncaught EOFError, Console [] seen files)
  | password :: rest =>
      if (8 <=? PyStr.len password)%nat then (Done password, Console rest seen files)
      else password_loop rest (seen ++ [ShowShortPassword]) files
  end.

(** [xs[i - 1]]: a negative index counts from the end of the list, and
    an index out of range raises. *)
Definition item {A} (xs : list A) (i : Z) : IO A :=
  let index := (i - 1)%Z in
  let index := if (index <? 0)%Z then (Z.of_nat (length xs) + index)%Z else index in
  if (index <? 0)%Z then raise IndexError
  else
    match xs !! Z.to_nat index with
    | Some x => io_ret x
    | None => raise IndexError
    end.

(** [interactive_vm_creation]; the dictionary it returns has the six
    keys it sets. *)
Definition interactive_vm_creation : IO config :=
  show ShowDialogueHeader;;
  vm_name <- (fun con => name_loop (typed con) (screen con) (written con));
  rg_name <- input;
  let rg_name := PyStr.strip rg_name in
  let resource_group :=
    if String.eqb rg_name EmptyString then "rg-" +:+ vm_name else rg_name in
  show ShowLocations;;
  loc_choice <- (fun con =>
    selection_loop "1" (Z.of_nat (length locations))
      (typed con) (screen con) (written con));
  location <- item locations loc_choice;
  show ShowSizes;;
  size_choice <- (fun con =>
    selection_loop "2" (Z.of_nat (length vm_sizes))
      (typed con) (screen con) (written con));
  size <- item vm_sizes size_choice;
  admin_user <- input;
  let admin_user := PyStr.strip admin_user in
  let admin_username :=
    if String.eqb admin_user EmptyString then "azureuser" else admin_user in
  password <- (fun con => password_loop (typed con) (screen con) (written con));
  io_ret (only_keys (Some vm_name) (Some resource_group) (Some location)
            (Some size.1) (Some admin_username) (Some password)).

(** [generate_config_file]: the default configuration is written. *)
Definition generate_config_file (filename : string) : IO unit := fun con =>
  match write_error h filename with
  | Some f => (Uncaught f, con)
  | None =>
      (Done tt,
       Console (typed con) (screen con ++ [ShowGenerated filename])
         (written con ++ [(filename, _default_config)]))
  end.

(** What [interactive_menu_mode] returns. *)
Inductive menu_result :=
  | CreateDefault                  (* 'create_default' *)
  | CreateCustom (custom : config) (* ('create_custom', custom_config) *)
  | DryRun.                        (* 'dry_run' *)

(** The loop of [interactive_menu_mode]; every turn reads at least one
    line, and [fuel] bounds the number of turns ([None] when it runs
    out). *)
Fixpoint menu_loop (fuel : nat) (con : console)
    : option (outcome menu_result * console) :=
  match fuel with
  | 0 => None
  | S fuel =>
      match show_menu con with
      | (Done choice, con) =>
          if (choice =? 1)%Z then
            Some ((show ShowStartDefault;; io_ret CreateDefault) con)
          else if (choice =? 2)%Z then
            Some ((show ShowStartCustom;;
                   custom_config <- interactive_vm_creation;
                   io_ret (CreateCustom custom_config)) con)
          else if (choice =? 3)%Z then
            match (filename <- input;
                   let filename := PyStr.strip filename in
                   let filename :=
                     if String.eqb filename EmptyString then "config.json"
                     else filename in
                   generate_config_file filename;;
                   input) con with
            | (Done _, con) => menu_loop fuel con
            | (Exit status, con) => Some (Exit status, con)
            | (Uncaught f, con) => Some (Uncaught f, con)
            end
          else if (choice =? 4)%Z then
            Some ((show ShowPreview;; io_ret DryRun) con)
          else if (choice =? 5)%Z then
            match (show ShowExamples;; input) con with
            | (Done _, con) => menu_loop fuel con
            | (Exit status, con) => Some (Exit status, con)
            | (Uncaught f, con) => Some (Uncaught f, con)
            end
          else if (choice =? 6)%Z then
            match (show ShowHelp;; input) con with
            | (Done _, con) => menu_loop fuel con
            | (Exit status, con) => Some (Exit status, con)
            | (Uncaught f, con) => Some (Uncaught f, con)
            end
          else if (choice =? 7)%Z then
            Some ((show ShowGoodbye;; sys_exit 0) con)
          else menu_loop fuel con
      | (Exit status, con) => Some (Exit status, con)
      | (Uncaught f, con) => Some (Uncaught f, con)
      end
  end.

(** [interactive_menu_mode], with the fuel that is always enough: one
    turn for each line typed, and one more. *)
Definition interactive_menu_mode (con : console)
    : option (outcome menu_result * console) :=
  menu_loop (S (length (typed con)))
    (say ShowBanner con).

(** [VMConfig._load_config]: what the file holds is returned as it is,
    a dictionary or not. *)
Definition _load_config (config_file : string) : IO document :=
  match read_json h config_file with
  | Loaded doc => show (ShowLoaded config_file);; io_ret doc
  | FileNotFound => show (ShowFileMissing config_file);; io_ret (Object _default_config)
  | BadJson => show (ShowJsonError config_file);; raise JSONDecodeError
  | LoadFails f => raise f
  end.

(** [VMConfig(config_file)]: the value of [self.config] in the new
    object. *)
Definition VMConfig (config_file : option string) : IO document :=
  if truthy config_file then _load_config (default EmptyString config_file)
  else io_ret (Object _default_config).

(** The use of [self.config] as a dictionary: [f] is raised when it is
    not one ([TypeError] by an item assignment, [AttributeError] by
    [.get] and [.update]). *)
Definition as_dict (doc : document) (f : failure) : IO config :=
  match doc with
  | Object c => io_ret c
  | NotObject => raise f
  end.

(** The password prompt of [main]: an empty password ends the program
    with status 1. *)
Definition ask_password : IO string :=
  password <- input;
  if String.eqb password EmptyString
  then show ShowPasswordRequired;; sys_exit 1
  else io_ret password.

(** The first part of [main], up to the configuration of logging: the
    configuration to use, or [None] when [main] returns before. *)
Definition main_configure (args : arguments)
    : console -> option (outcome (option config) * console) := fun con =>
  if no_arguments h then
    match interactive_menu_mode con with
    | None => None
    | Some (Done CreateDefault, con) =>
        Some ((doc <- VMConfig None;
               password <- ask_password;
               config <- as_dict doc TypeError;
               io_ret (Some (update config
                               (only_keys None None None None None (Some password))))) con)
    | Some (Done (CreateCustom custom), con) =>
        Some ((doc <- VMConfig None;
               config <- as_dict doc AttributeError;
               io_ret (Some (update config custom))) con)
    | Some (Done DryRun, con) =>
        Some ((doc <- VMConfig None;
               show (ShowDryRun doc);;
               io_ret None) con)
    | Some (Exit status, con) => Some (Exit status, con)
    | Some (Uncaught f, con) => Some (Uncaught f, con)
    end
  else
    Some (
      (if truthy (arg_generate_config args) then
         generate_config_file (default EmptyString (arg_generate_config args));;
         io_ret None
       else
         doc <- VMConfig (arg_config args);
         doc <-
           (if existsb truthy
                 [arg_vm_name args; arg_resource_group args; arg_location args;
                  arg_vm_size args; arg_admin_user args]
            then
              config <- as_dict doc TypeError;
              io_ret (Object
                (update config
                   (only_keys (given (arg_vm_name args)) (given (arg_resource_group args))
                      (given (arg_location args)) (given (arg_vm_size args))
                      (given (arg_admin_user args)) None)))
            else io_ret doc);
         config <-
           (if truthy (arg_admin_password args) then
              config <- as_dict doc TypeError;
              io_ret (update config
                        (only_keys None None None None None (arg_admin_password args)))
            else
              config <- as_dict doc AttributeError;
              if negb (truthy (admin_password config)) then
                password <- ask_password;
                io_ret (update config
                          (only_keys None None None None None (Some password)))
              else io_ret config);
         if arg_dry_run args then show (ShowDryRun (Object config));; io_ret None
         else io_ret (Some config)) con).

End Console.

Arguments Done {A} a.

(** ** A host to run the program on *)

Module DemoHost.

(** [int] on the one-digit decimal numerals, enough for the menus. *)
Definition digit (s : string) : option Z :=
  match s with
  | String a EmptyString =>
      if PyStr.between 48 57 a then Some (Z.of_N (PyStr.code a) - 48)%Z else None
  | _ => None
  end.

Definition no_args : arguments := {|
  arg_config := None;
  arg_subscription_id := None;
  arg_vm_name := None;
  arg_resource_group := None;
  arg_location := None;
  arg_vm_size := None;
  arg_admin_user := None;
  arg_admin_password := None;
  arg_log_level := "INFO";
  arg_dry_run := false;
  arg_generate_config := None |}.

Definition keyboard (lines : list string) : console := Console lines [] [].

(** [--dry-run --admin-password ...] *)
Definition preview_args : arguments := {|
  arg_config := None;
  arg_subscription_id := None;
  arg_vm_name := None;
  arg_resource_group := None;
  arg_location := None;
  arg_vm_size := None;
  arg_admin_user := None;
  arg_admin_password := Some "Str0ngPass!";
  arg_log_level := "INFO";
  arg_dry_run := true;
  arg_generate_config := None |}.

(** The command line was parsed into [args]; no configuration file
    exists, the subscription is in the environment, and the clients can
    be built. *)
Definition make (interactive : bool) (args : arguments) : host := {|
  int_of := digit;
  read_json := fun _ => FileNotFound;
  write_error := fun _ => None;
  env_subscription_id := Some "00000000-0000-0000-0000-000000000000";
  parse_arguments := Parsed args;
  no_arguments := interactive;
  connect := fun _ => None |}.

(** The program started with no argument. *)
Definition interactive : host := make true no_args.

(** The program started with [--dry-run --admin-password ...]. *)
Definition preview : host := make false preview_args.

(** Choice 1 of the menu, a password, and the confirmation. *)
Definition default_session : console :=
  keyboard ["1"; "Str0ngPass!"; "s"].

(** Choice 2 of the menu, the dialogue answered with a name, four empty
    lines and a password, and the confirmation. *)
Definition custom_session : console :=
  keyboard ["2"; "web01"; EmptyString; EmptyString; EmptyString; EmptyString;
            "Str0ngPass!"; " SI "].

End DemoHost.

(** ** Reading a trace *)

(** The fixed order of the walk. *)
Definition creation_order : list node :=
  [ResourceGroup; VirtualNetwork; Subnet; PublicIP;
   NetworkSecurityGroup; NetworkInterface; VirtualMachine].

(** The step a call belongs to: the probe of the resource group belongs
    to the resource-group step; the two reads of [get_vm_info] belong to
    no creation step. *)
Definition step_of (c : call) : option node :=
  match c with
  | RGGet _ => Some ResourceGroup
  | VMGet _ _ | PublicIPGet _ _ => None
  | _ => created_node c
  end.

(** Adjacent repetitions merged. *)
Fixpoint squash (l : list node) : list node :=
  match l with
  | [] => []
  | k :: rest =>
      match squash rest with
      | [] => [k]
      | k' :: tl => if decide (k = k') then k' :: tl else k :: k' :: tl
      end
  end.

(** The steps that made a call, in the order of their calls. *)
Definition attempted (evs : list event) : list node :=
  squash (omap (fun ev => step_of (ev_call ev)) evs).

(** The creation of node [k] returned the handle [h] in [evs]. *)
Definition returned (k : node) (h : resource) (evs : list event) : Prop :=
  exists c, created_node c = Some k /\ Ev c (Ok h) ∈ evs.

(** What a call needs from the calls made before it. *)
Definition ready (before : list event) (c : call) : Prop :=
  match c with
  | NICCreateOrUpdate _ _ p =>
      exists subnet public_ip nsg,
        subnet_id (fields p) = res_id subnet
        /\ public_ip_address_id (fields p) = res_id public_ip
        /\ network_security_group_id (fields p) = res_id nsg
        /\ returned Subnet subnet before
        /\ returned PublicIP public_ip before
        /\ returned NetworkSecurityGroup nsg before
  | VMCreateOrUpdate _ _ p =>
      exists nic,
        network_interfaces (fields p) = [res_id nic]
        /\ returned NetworkInterface nic before
  | _ => True
  end.

Fixpoint dependencies_met (before evs : list event) : Prop :=
  match evs with
  | [] => True
  | ev :: rest => ready before (ev_call ev) /\ dependencies_met (before ++ [ev]) rest
  end.

(** The exception a failed creation call raised. *)
Definition creation_failure (ev : event) : option exn :=
  match created_node (ev_call ev), ev_result ev with
  | Some _, Raise e => Some e
  | _, _ => None
  end.

Definition first_failure (evs : list event) : option exn :=
  head (omap creation_failure evs).

Fixpoint failure_is_last (evs : list event) : Prop :=
  match evs with
  | [] => True
  | ev :: rest => (is_Some (creation_failure ev) -> rest = []) /\ failure_is_last rest
  end.

(** The handle the creation of node [k] returned, if [ev] is that. *)
Definition handle_of (k : node) (ev : event) : option resource :=
  match created_node (ev_call ev), ev_result ev with
  | Some k', Ok h => if decide (k' = k) then Some h else None
  | _, _ => None
  end.

Definition vm_created (evs : list event) : option resource :=
  head (omap (handle_of VirtualMachine) evs).

(** The place of a node in [creation_order]. *)
Definition node_index (k : node) : nat :=
  match k with
  | ResourceGroup => 0
  | VirtualNetwork => 1
  | Subnet => 2
  | PublicIP => 3
  | NetworkSecurityGroup => 4
  | NetworkInterface => 5
  | VirtualMachine => 6
  end.

(** The node whose creation failed, when the last call of the trace is
    a failed creation. *)
Definition failed_node (evs : list event) : option node :=
  match last evs with
  | Some ev =>
      match creation_failure ev with
      | Some _ => created_node (ev_call ev)
      | None => None
      end
  | None => None
  end.

(** The number of creation calls for node [k] in a trace. *)
Definition creations (k : node) (evs : list event) : nat :=
  length (filter (fun ev => created_node (ev_call ev) = Some k) evs).

(** The nodes of the creation calls of a trace, in order. *)
Definition created_nodes (evs : list event) : list node :=
  omap (fun ev => created_node (ev_call ev)) evs.

(** The number of creation calls that tag their request: all but the
    subnet's. *)
Definition tagged_creations (evs : list event) : nat :=
  length (filter (fun k => k <> Subnet) (created_nodes evs)).

(** The two configurations agree on every key but ['tags']. *)
Definition same_but_tags (c c' : config) : Prop :=
  vm_name c = vm_name c' /\ resource_group c = resource_group c'
  /\ location c = location c' /\ vm_size c = vm_size c'
  /\ admin_username c = admin_username c' /\ admin_password c = admin_password c'
  /\ os_type c = os_type c' /\ image c = image c' /\ network c = network c'
  /\ disk c = disk c' /\ security c = security c'.

(** ** The state of a run and its monad *)

Section Creator.

(** The cloud: its state, and what each client call does to it and
    returns. *)
Context {W : Type}.
Variable remote : call -> W -> result resource * W.

(** [clock k] is what the [k]-th evaluation of
    [datetime.now().isoformat()] returns. *)
Variable clock : nat -> string.

Record state := State {
  cfg : config;          (* self.config.config, a mutable dictionary *)
  cloud : W;
  trace : list event;    (* client calls so far, oldest first *)
  log : list log_record; (* records logged so far, oldest first *)
  ticks : nat }.         (* clock readings so far *)

Definition M (A : Type) : Type := state -> result A * state.

Definition ret {A} (a : A) : M A := fun s => (Ok a, s).

Definition bind {A B} (m : M A) (k : A -> M B) : M B := fun s =>
  match m s with
  | (Ok a, s') => k a s'
  | (Raise e, s') => (Raise e, s')
  end.

Notation "x <- m ; k" := (bind m (fun x => k))
  (at level 100, m at next level, right associativity, only parsing).
Notation "m ;; k" := (bind m (fun _ => k))
  (at level 100, right associativity, only parsing).

(** [try: m  except: ...] with a handler that catches everything: the
    outcome of [m] is handed to the continuation. *)
Definition attempt {A} (m : M A) : M (result A) := fun s =>
  let '(r, s') := m s in (Ok r, s').

Definition info (r : log_record) : M unit := fun s =>
  (Ok tt, State (cfg s) (cloud s) (trace s) (log s ++ [r]) (ticks s)).

(** [try: m  except AzureError as e: logger.error(...); raise] *)
Definition except_azure {A} (k : node) (m : M A) : M A := fun s =>
  match m s with
  | (Raise e, s') =>
      if is_azure_error e then
        let '(_, s'') := info (ErrCreate k e) s' in (Raise e, s'')
      else (Raise e, s')
  | ok => ok
  end.

(** One blocking client call ([begin_create_or_update(...).result()],
    or [get]). *)
Definition client (c : call) : M resource := fun s =>
  let '(r, w) := remote c (cloud s) in
  (r, State (cfg s) w (trace s ++ [Ev c r]) (log s) (ticks s)).

Definition config_get {A} (f : config -> A) : M A := fun s => (Ok (f (cfg s)), s).

Definition now_isoformat : M string := fun s =>
  (Ok (clock (ticks s)), State (cfg s) (cloud s) (trace s) (log s) (S (ticks s))).

(** A reference to a dictionary of tags: the one the configuration
    holds under ['tags'], or one nobody else holds. *)
Inductive tags_ref :=
  | StoredTags
  | FreshTags (t : gmap string string).

(** [self.config.get('tags', {})] *)
Definition get_tags : M tags_ref := fun s =>
  match tags (cfg s) with
  | Some _ => (Ok StoredTags, s)
  | None => (Ok (FreshTags ∅), s)
  end.

(** [tags[key] = value] *)
Definition setitem (r : tags_ref) (key value : string) : M tags_ref := fun s =>
  match r with
  | StoredTags =>
      let t := <[key := value]> (default ∅ (tags (cfg s))) in
      (Ok StoredTags,
       State (with_tags (cfg s) (Some t)) (cloud s) (trace s) (log s) (ticks s))
  | FreshTags t => (Ok (FreshTags (<[key := value]> t)), s)
  end.

(** The dictionary a reference points to, now. *)
Definition deref (r : tags_ref) : M (gmap string string) := fun s =>
  match r with
  | StoredTags => (Ok (default ∅ (tags (cfg s))), s)
  | FreshTags t => (Ok t, s)
  end.

(** [AzureVMCreator._add_tags]. The request body is serialised by the
    client call that follows, with no write to the tags in between, so
    [params['tags']] is kept as the dictionary's content here. *)
Definition _add_tags {A} (p : params A) : M (params A) :=
  r <- get_tags;
  now <- now_isoformat;
  r <- setitem r "CreatedAt" now;
  t <- deref r;
  if decide (t = ∅) then ret p else ret (Params (fields p) (Some t)).

(** [AzureVMCreator.create_resource_group] *)
Definition create_resource_group
    (resource_group_name location : option string) : M resource :=
  info (InfoCreatingGroup resource_group_name location);;
  except_azure ResourceGroup (
    probe <- attempt (client (RGGet resource_group_name));
    match probe with
    | Ok existing_rg =>
        info (InfoExists resource_group_name);;
        ret existing_rg
    | Raise _ =>
        rg_params <- _add_tags (Params {| rg_location := location |} None);
        rg_result <- client (RGCreateOrUpdate resource_group_name rg_params);
        info (InfoCreated ResourceGroup (res_name rg_result));;
        ret rg_result
    end).

(** [AzureVMCreator.create_virtual_network] *)
Definition create_virtual_network
    (resource_group_name vnet_name location : option string) : M resource :=
  info (InfoCreating VirtualNetwork vnet_name);;
  except_azure VirtualNetwork (
    network_config <- config_get network;
    vnet_params <- _add_tags (Params {|
      vnet_location := location;
      address_prefixes :=
        [default "10.0.0.0/16" (network_config ≫= vnet_address_space)] |} None);
    vnet_result <- client (VNetCreateOrUpdate resource_group_name vnet_name vnet_params);
    info (InfoCreated VirtualNetwork (res_name vnet_result));;
    ret vnet_result).

(** [AzureVMCreator.create_subnet] *)
Definition create_subnet
    (resource_group_name vnet_name subnet_name : option string) : M resource :=
  info (InfoCreating Subnet subnet_name);;
  except_azure Subnet (
    network_config <- config_get network;
    let subnet_params := Params {|
      address_prefix :=
        default "10.0.0.0/24" (network_config ≫= subnet_address_prefix) |} None in
    subnet_result <-
      client (SubnetCreateOrUpdate resource_group_name vnet_name subnet_name subnet_params);
    info (InfoCreated Subnet (res_name subnet_result));;
    ret subnet_result).

(** [AzureVMCreator.create_public_ip] *)
Definition create_public_ip
    (resource_group_name ip_name location : option string) : M resource :=
  info (InfoCreating PublicIP ip_name);;
  except_azure PublicIP (
    public_ip_params <- _add_tags (Params {|
      pip_location := location;
      public_ip_allocation_method := "Static";
      pip_sku_name := "Standard" |} None);
    ip_result <- client (PublicIPCreateOrUpdate resource_group_name ip_name public_ip_params);
    info (InfoCreated PublicIP (res_name ip_result));;
    ret ip_result).

(** [AzureVMCreator.create_network_security_group] *)
Definition create_network_security_group
    (resource_group_name nsg_name location : option string) : M resource :=
  info (InfoCreating NetworkSecurityGroup nsg_name);;
  except_azure NetworkSecurityGroup (
    rules <- config_get build_security_rules;
    nsg_params <- _add_tags (Params {|
      nsg_location := location;
      security_rules := rules |} None);
    nsg_result <- client (NSGCreateOrUpdate resource_group_name nsg_name nsg_params);
    info (InfoCreated NetworkSecurityGroup (res_name nsg_result));;
    ret nsg_result).

(** [AzureVMCreator.create_network_interface] *)
Definition create_network_interface
    (resource_group_name nic_name location : option string)
    (subnet_id public_ip_id nsg_id : string) : M resource :=
  info (InfoCreating NetworkInterface nic_name);;
  except_azure NetworkInterface (
    nic_params <- _add_tags (Params {|
      nic_location := location;
      ip_configuration_name := "default";
      subnet_id := subnet_id;
      public_ip_address_id := public_ip_id;
      private_ip_allocation_method := "Dynamic";
      network_security_group_id := nsg_id |} None);
    nic_result <- client (NICCreateOrUpdate resource_group_name nic_name nic_params);
    info (InfoCreated NetworkInterface (res_name nic_result));;
    ret nic_result).

(** [AzureVMCreator.create_virtual_machine] *)
Definition create_virtual_machine
    (resource_group_name vm_name location : option string) (nic_id : string)
    (admin_username admin_password : option string) : M resource :=
  info (InfoCreating VirtualMachine vm_name);;
  except_azure VirtualMachine (
    image_config <- config_get image;
    disk_config <- config_get disk;
    size <- config_get vm_size;
    vm_params <- _add_tags (Params {|
      vm_location := location;
      computer_name := vm_name;
      os_admin_username := admin_username;
      os_admin_password := admin_password;
      disable_password_authentication := false;
      hardware_vm_size := default "Standard_B2s" size;
      image_publisher := default "Canonical" (image_config ≫= publisher);
      image_offer := default "0001-com-ubuntu-server-focal" (image_config ≫= offer);
      image_sku := default "20_04-lts-gen2" (image_config ≫= sku);
      image_version := default "latest" (image_config ≫= version);
      os_disk_caching := "ReadWrite";
      os_disk_storage_account_type :=
        default "Premium_LRS" (disk_config ≫= storage_account_type);
      os_disk_name := str_of vm_name +:+ "-osdisk";
      os_disk_create_option := "FromImage";
      os_disk_size := default 30%Z (disk_config ≫= os_disk_size_gb);
      network_interfaces := [nic_id] |} None);
    vm_result <- client (VMCreateOrUpdate resource_group_name vm_name vm_params);
    info (InfoCreated VirtualMachine (res_name vm_result));;
    ret vm_result).

(** The lookup of the public IP inside [get_vm_info]: the inner
    [try ... except: pass] around the client call. *)
Definition lookup_public_ip
    (resource_group_name public_ip_name : option string) : M string :=
  if truthy public_ip_name then
    found <- attempt (client (PublicIPGet resource_group_name
                                (default EmptyString public_ip_name)));
    match found with
    | Ok public_ip => ret (or_else (ip_address public_ip) "Pendiente")
    | Raise _ => ret "No asignada"
    end
  else ret "No asignada".

(** [AzureVMCreator.get_vm_info]; the dictionary it returns. *)
Definition get_vm_info
    (resource_group_name vm_name : option string) : M (gmap string pyval) :=
  outcome <- attempt (
    vm <- client (VMGet resource_group_name vm_name);
    network_config <- config_get network;
    public_ip_address <-
      lookup_public_ip resource_group_name (network_config ≫= public_ip_name);
    admin <- config_get admin_username;
    ret (<["vm_name" := PyStr (res_name vm)]>
        (<["vm_id" := PyStr (res_vm_id vm)]>
        (<["location" := PyStr (res_location vm)]>
        (<["vm_size" := PyStr (res_vm_size vm)]>
        (<["provisioning_state" := PyStr (res_provisioning_state vm)]>
        (<["public_ip" := PyStr public_ip_address]>
        (<["admin_username" := pyval_of admin]> (∅ : gmap string pyval)))))))));
  match outcome with
  | Ok vm_info => ret vm_info
  | Raise e => info (ErrVmInfo e);; ret ∅
  end.

(** [vm_info.get(key)] as the final log lines print it. *)
Definition summary_line (vm_info : gmap string pyval) (label key : string) : M unit :=
  info (InfoSummary label (default PyNone (vm_info !! key))).

(** [AzureVMCreator.create_complete_vm]: the VM object, or [None]. *)
Definition create_complete_vm : M (option resource) :=
  outcome <- attempt (
    vm_name <- config_get vm_name;
    resource_group <- config_get resource_group;
    location <- config_get location;
    admin_username <- config_get admin_username;
    admin_password <- config_get admin_password;
    network_config <- config_get network;
    info InfoStart;;
    create_resource_group resource_group location;;
    create_virtual_network resource_group (network_config ≫= vnet_name) location;;
    subnet <- create_subnet resource_group
                (network_config ≫= vnet_name) (network_config ≫= subnet_name);
    public_ip <- create_public_ip resource_group
                   (network_config ≫= public_ip_name) location;
    nsg <- create_network_security_group resource_group
             (network_config ≫= nsg_name) location;
    nic <- create_network_interface resource_group
             (network_config ≫= nic_name) location
             (res_id subnet) (res_id public_ip) (res_id nsg);
    vm <- create_virtual_machine resource_group vm_name location
            (res_id nic) admin_username admin_password;
    vm_info <- get_vm_info resource_group vm_name;
    info InfoDone;;
    summary_line vm_info "VM Name" "vm_name";;
    summary_line vm_info "VM ID" "vm_id";;
    summary_line vm_info "Location" "location";;
    summary_line vm_info "Size" "vm_size";;
    summary_line vm_info "Public IP" "public_ip";;
    summary_line vm_info "Admin User" "admin_username";;
    ret vm);
  match outcome with
  | Ok vm => ret (Some vm)
  | Raise e => info (ErrRun (exn_msg e));; ret None
  end.

Implicit Types s : state.

(** *** Closed forms of the steps *)

(** The tags of a request built when the configuration is [c] and the
    clock has been read [k] times. *)
Definition stamped (c : config) (k : nat) : gmap string string :=
  <["CreatedAt" := clock k]> (default ∅ (tags c)).

(** The configuration [c] once [_add_tags] has run, at reading [k] of
    the clock. *)
Definition stamped_cfg (c : config) (k : nat) : config :=
  match tags c with
  | Some _ => with_tags c (Some (stamped c k))
  | None => c
  end.

(** The record a step logs first: what it creates, and for the
    resource group also where. *)
Definition announcement (k : node) (name location : option string) : log_record :=
  match k with
  | ResourceGroup => InfoCreatingGroup name location
  | _ => InfoCreating k name
  end.

(** The records one creation step logs, after announcing itself with
    [a], given how its call ended. *)
Definition step_log (k : node) (a : log_record) (r : result resource) :=
  a ::
  match r with
  | Ok h => [InfoCreated k (res_name h)]
  | Raise e => if is_azure_error e then [ErrCreate k e] else []
  end.

(** The shape shared by the steps that tag their request: read the
    configuration, tag the body, call the client. *)
Definition tagged_step {A} (k : node) (name : option string)
    (body : config -> A) (mk : params A -> call) : M resource :=
  bind (info (InfoCreating k name)) (fun _ =>
  except_azure k (
    bind (config_get body) (fun f =>
    bind (_add_tags (Params f None)) (fun p =>
    bind (client (mk p)) (fun r =>
    bind (info (InfoCreated k (res_name r))) (fun _ => ret r)))))).

Definition tagged_call {A} (body : config -> A) (mk : params A -> call)
    (c : config) (k : nat) : call :=
  mk (Params (body c) (Some (stamped c k))).

(** The outcome of a step that sends [c] from state [s]: the call is
    recorded with its result, and the step's records are logged; a
    step that tags its request has also stamped the tags. *)
Definition step_result (tagging : bool) (k : node) (a : log_record)
    (c : call) s : result resource * state :=
  let '(r, w) := remote c (cloud s) in
  (r, State (if tagging then stamped_cfg (cfg s) (ticks s) else cfg s) w
        (trace s ++ [Ev c r]) (log s ++ step_log k a r)
        (if tagging then S (ticks s) else ticks s)).

Definition vnet_call (rg name loc : option string) (c : config) (k : nat) : call :=
  VNetCreateOrUpdate rg name (Params {|
    vnet_location := loc;
    address_prefixes :=
      [default "10.0.0.0/16" (network c ≫= vnet_address_space)] |}
    (Some (stamped c k))).

Definition subnet_call (rg vnet name : option string) (c : config) : call :=
  SubnetCreateOrUpdate rg vnet name (Params {|
    address_prefix :=
      default "10.0.0.0/24" (network c ≫= subnet_address_prefix) |} None).

Definition public_ip_call (rg name loc : option string) (c : config) (k : nat) : call :=
  PublicIPCreateOrUpdate rg name (Params {|
    pip_location := loc;
    public_ip_allocation_method := "Static";
    pip_sku_name := "Standard" |} (Some (stamped c k))).

Definition nsg_call (rg name loc : option string) (c : config) (k : nat) : call :=
  NSGCreateOrUpdate rg name (Params {|
    nsg_location := loc;
    security_rules := build_security_rules c |} (Some (stamped c k))).

Definition nic_call (rg name loc : option string) (sid pid nid : string)
    (c : config) (k : nat) : call :=
  NICCreateOrUpdate rg name (Params {|
    nic_location := loc;
    ip_configuration_name := "default";
    subnet_id := sid;
    public_ip_address_id := pid;
    private_ip_allocation_method := "Dynamic";
    network_security_group_id := nid |} (Some (stamped c k))).

Definition vm_body (name loc : option string) (nic : string)
    (user password : option string) (c : config) : vm_fields := {|
  vm_location := loc;
  computer_name := name;
  os_admin_username := user;
  os_admin_password := password;
  disable_password_authentication := false;
  hardware_vm_size := default "Standard_B2s" (vm_size c);
  image_publisher := default "Canonical" (image c ≫= publisher);
  image_offer := default "0001-com-ubuntu-server-focal" (image c ≫= offer);
  image_sku := default "20_04-lts-gen2" (image c ≫= sku);
  image_version := default "latest" (image c ≫= version);
  os_disk_caching := "ReadWrite";
  os_disk_storage_account_type :=
    default "Premium_LRS" (disk c ≫= storage_account_type);
  os_disk_name := str_of name +:+ "-osdisk";
  os_disk_create_option := "FromImage";
  os_disk_size := default 30%Z (disk c ≫= os_disk_size_gb);
  network_interfaces := [nic] |}.

Definition vm_call (rg name loc : option string) (nic : string)
    (user password : option string) (c : config) (k : nat) : call :=
  VMCreateOrUpdate rg name
    (Params (vm_body name loc nic user password c) (Some (stamped c k))).

(** The resource-group step: the probe, then the creation when the
    probe raised. *)
Definition rg_call (name loc : option string) (c : config) (k : nat) : call :=
  RGCreateOrUpdate name (Params {| rg_location := loc |} (Some (stamped c k))).

(** The dictionary [get_vm_info] returns when the VM was fetched. *)
Definition vm_summary (vm : resource) (public_ip_address : string)
    (admin : option string) : gmap string pyval :=
  <["vm_name" := PyStr (res_name vm)]>
  (<["vm_id" := PyStr (res_vm_id vm)]>
  (<["location" := PyStr (res_location vm)]>
  (<["vm_size" := PyStr (res_vm_size vm)]>
  (<["provisioning_state" := PyStr (res_provisioning_state vm)]>
  (<["public_ip" := PyStr public_ip_address]>
  (<["admin_username" := pyval_of admin]> ∅)))))).

(** What the summary reports for the public IP, given how the lookup
    ended. *)
Definition reported_ip (found : result resource) : string :=
  match found with
  | Ok public_ip => or_else (ip_address public_ip) "Pendiente"
  | Raise _ => "No asignada"
  end.

(** Every creation call of [evs] but the subnet's carries the tags of
    the configuration [c0] and its own reading of the clock, the
    readings starting at [k]; the subnet's carries no tags. *)
Fixpoint tags_stamped (c0 : config) (k : nat) (evs : list event) : Prop :=
  match evs with
  | [] => True
  | ev :: rest =>
      match created_node (ev_call ev) with
      | None => tags_stamped c0 k rest
      | Some Subnet => call_tags (ev_call ev) = None /\ tags_stamped c0 k rest
      | Some _ =>
          call_tags (ev_call ev) = Some (stamped c0 k) /\ tags_stamped c0 (S k) rest
      end
  end.

(** The state a run starts from. *)
Definition init (c : config) (w : W) : state := State c w [] [] 0.

(** *** The program *)

(** How [main] ends: its outcome, the console, and the state of the
    creator (the configuration validated, the records logged by
    [validate] and by the creator, the client calls made; with no call
    when no creator was built). *)
Definition main_end : Type := outcome unit * console * state.

(** [except Exception as e] of [main]: the message, then status 1. *)
Definition unexpected (f : failure) (con : console) (st : state) : main_end :=
  (Exit 1, say (ShowUnexpected f) con, st).

(** The end of the [try] block of [main]: the creator is built, the run
    is made and its result reported. *)
Definition main_create (h : host) (subscription_id : string) (idle : state)
    (con : console) : main_end :=
  match connect h subscription_id with
  | Some e => unexpected (Raised e) (say (ShowClientsFailed e) con) idle
  | None =>
      let con := say ShowStarting (say ShowClientsReady con) in
      let '(result, st) := create_complete_vm idle in
      match result with
      | Ok (Some _) => (Done tt, say ShowSuccess con, st)
      | Ok None => (Exit 1, say ShowFailure con, st)
      | Raise e => unexpected (Raised e) con st
      end
  end.

(** [getattr(args, 'subscription_id', None) or
     os.environ.get('AZURE_SUBSCRIPTION_ID')] *)
Definition subscription_id (h : host) (args : arguments) : option string :=
  if truthy (arg_subscription_id args) then arg_subscription_id args
  else env_subscription_id h.

(** The second part of [main]: the [try] block, run on the
    configuration that the first part built. *)
Definition main_provision (h : host) (args : arguments) (config : config)
    (w : W) (con : console) : main_end :=
  let con := say ShowVersion con in
  let '(valid, records) := validate config in
  let idle := State config w [] records 0 in
  match valid with
  | Raise e => unexpected (Raised e) con idle
  | Ok false => (Exit 1, say ShowInvalidConfig con, idle)
  | Ok true =>
      match given (subscription_id h args) with
      | None => (Exit 1, say ShowSubscriptionRequired con, idle)
      | Some id =>
          let con := say (ShowPlan config) (say (ShowSubscription id) con) in
          if no_arguments h then
            match input con with
            | (Done confirm, con) =>
                if bool_decide (PyStr.lower (PyStr.strip confirm) ∈ confirmations)
                then main_create h id idle con
                else (Exit 0, say ShowCancelled con, idle)
            | (Exit status, con) => (Exit status, con, idle)
            | (Uncaught f, con) => unexpected f con idle
            end
          else main_create h id idle con
      end
  end.

(** [main] once [parse_arguments] has returned [args]: [None] stands
    for a menu loop out of fuel, which does not happen; the state is
    [None] when [main] ends before the [try] block. *)
Definition main_with (h : host) (args : arguments) (w : W) (con : console)
    : option (outcome unit * console * option state) :=
  match main_configure h args con with
  | None => None
  | Some (Done (Some config), con) =>
      let '(end_, con, st) := main_provision h args config w con in
      Some (end_, con, Some st)
  | Some (Done None, con) => Some (Done tt, con, None)
  | Some (Exit status, con) => Some (Exit status, con, None)
  | Some (Uncaught f, con) => Some (Uncaught f, con, None)
  end.

(** [main]: the command line is parsed first, and argparse leaves the
    program by itself when it refuses it or was asked for the help or
    the version. *)
Definition main (h : host) (w : W) (con : console)
    : option (outcome unit * console * option state) :=
  match parse_arguments h with
  | Parsed args => main_with h args w con
  | UsageError => Some (Exit 2, say ShowUsageError con, None)
  | HelpOrVersion => Some (Exit 0, say ShowHelpOrVersion con, None)
  end.

(** ** How one step runs *)

Lemma _add_tags_run {A} (p : params A) s :
  _add_tags p s =
    (Ok (Params (fields p) (Some (stamped (cfg s) (ticks s)))),
     State (stamped_cfg (cfg s) (ticks s)) (cloud s) (trace s) (log s) (S (ticks s))).
Proof.
  unfold _add_tags, bind, get_tags, now_isoformat, setitem, deref, stamped_cfg, stamped.
  destruct (tags (cfg s)) as [t|] eqn:Ht; cbn; rewrite ?Ht; cbn.
  - rewrite decide_False by apply insert_non_empty. reflexivity.
  - rewrite decide_False by apply insert_non_empty. reflexivity.
Qed.

Lemma tagged_step_run {A} k name (body : config -> A) mk s :
  tagged_step k name body mk s =
    let c := tagged_call body mk (cfg s) (ticks s) in
    let '(r, w) := remote c (cloud s) in
    (r, State (stamped_cfg (cfg s) (ticks s)) w (trace s ++ [Ev c r])
          (log s ++ step_log k (InfoCreating k name) r) (S (ticks s))).
Proof.
  unfold tagged_step, tagged_call, except_azure, bind at 1 2 3, info, config_get.
  cbn [cfg cloud trace log ticks].
  rewrite _add_tags_run. cbn [cfg cloud trace log ticks fields].
  unfold bind, client, info, ret. cbn [cfg cloud trace log ticks].
  unfold stamped_cfg, stamped, step_log. cbn [cfg cloud trace log ticks].
  destruct (remote _ (cloud s)) as [[h|e] w]; cbn.
  - by rewrite <- app_assoc.
  - destruct (is_azure_error e); cbn; rewrite <- ?app_assoc; reflexivity.
Qed.

Lemma create_virtual_network_run rg name loc s :
  create_virtual_network rg name loc s =
    step_result true VirtualNetwork (InfoCreating VirtualNetwork name) (vnet_call rg name loc (cfg s) (ticks s)) s.
Proof.
  exact (tagged_step_run VirtualNetwork name
           (fun c => {| vnet_location := loc;
                        address_prefixes :=
                          [default "10.0.0.0/16" (network c ≫= vnet_address_space)] |})
           (VNetCreateOrUpdate rg name) s).
Qed.

Lemma create_public_ip_run rg name loc s :
  create_public_ip rg name loc s =
    step_result true PublicIP (InfoCreating PublicIP name) (public_ip_call rg name loc (cfg s) (ticks s)) s.
Proof.
  exact (tagged_step_run PublicIP name
           (fun _ => {| pip_location := loc;
                        public_ip_allocation_method := "Static";
                        pip_sku_name := "Standard" |})
           (PublicIPCreateOrUpdate rg name) s).
Qed.

Lemma create_network_security_group_run rg name loc s :
  create_network_security_group rg name loc s =
    step_result true NetworkSecurityGroup (InfoCreating NetworkSecurityGroup name) (nsg_call rg name loc (cfg s) (ticks s)) s.
Proof.
  exact (tagged_step_run NetworkSecurityGroup name
           (fun c => {| nsg_location := loc;
                        security_rules := build_security_rules c |})
           (NSGCreateOrUpdate rg name) s).
Qed.

Lemma create_network_interface_run rg name loc sid pid nid s :
  create_network_interface rg name loc sid pid nid s =
    step_result true NetworkInterface (InfoCreating NetworkInterface name)
      (nic_call rg name loc sid pid nid (cfg s) (ticks s)) s.
Proof.
  exact (tagged_step_run NetworkInterface name
           (fun _ => {| nic_location := loc;
                        ip_configuration_name := "default";
                        subnet_id := sid;
                        public_ip_address_id := pid;
                        private_ip_allocation_method := "Dynamic";
                        network_security_group_id := nid |})
           (NICCreateOrUpdate rg name) s).
Qed.

Lemma create_virtual_machine_run rg name loc nic user password s :
  create_virtual_machine rg name loc nic user password s =
    step_result true VirtualMachine (InfoCreating VirtualMachine name)
      (vm_call rg name loc nic user password (cfg s) (ticks s)) s.
Proof.
  exact (tagged_step_run VirtualMachine name
           (vm_body name loc nic user password) (VMCreateOrUpdate rg name) s).
Qed.

Lemma create_subnet_run rg vnet name s :
  create_subnet rg vnet name s =
    step_result false Subnet (InfoCreating Subnet name) (subnet_call rg vnet name (cfg s)) s.
Proof.
  unfold create_subnet, step_result, subnet_call, except_azure, bind, info,
    config_get, client, ret, step_log.
  cbn [cfg cloud trace log ticks].
  destruct (remote _ (cloud s)) as [[h|e] w]; cbn.
  - by rewrite <- app_assoc.
  - destruct (is_azure_error e); cbn; rewrite <- ?app_assoc; reflexivity.
Qed.

Lemma create_resource_group_run name loc s :
  create_resource_group name loc s =
    match remote (RGGet name) (cloud s) with
    | (Ok existing_rg, w) =>
        (Ok existing_rg,
         State (cfg s) w (trace s ++ [Ev (RGGet name) (Ok existing_rg)])
           (log s ++ [InfoCreatingGroup name loc; InfoExists name]) (ticks s))
    | (Raise e, w) =>
        step_result true ResourceGroup (InfoCreatingGroup name loc)
          (rg_call name loc (cfg s) (ticks s))
          (State (cfg s) w (trace s ++ [Ev (RGGet name) (Raise e)]) (log s) (ticks s))
    end.
Proof.
  unfold create_resource_group, except_azure, bind at 1 2, attempt, info, client.
  cbn [cfg cloud trace log ticks].
  destruct (remote (RGGet name) (cloud s)) as [[h|e] w]; cbn [cfg cloud trace log ticks].
  - unfold bind, info, ret. cbn. by rewrite <- app_assoc.
  - unfold bind at 1. rewrite _add_tags_run.
    unfold step_result, rg_call, stamped_cfg, stamped, step_log, bind, client, info, ret.
    cbn [cfg cloud trace log ticks fields].
    destruct (remote _ w) as [[h|e'] w']; cbn.
    + by rewrite <- (app_assoc (log s)).
    + destruct (is_azure_error e'); cbn; rewrite <- ?(app_assoc (log s)); reflexivity.
Qed.

(** The one call of the security-group step carries the rules built
    from the configuration. *)
Lemma nsg_step_sends rg name loc s :
  exists p,
    security_rules (fields p) = build_security_rules (cfg s)
    /\ trace (create_network_security_group rg name loc s).2 =
         trace s ++ [Ev (NSGCreateOrUpdate rg name p)
                       (create_network_security_group rg name loc s).1].
Proof.
  rewrite create_network_security_group_run. unfold step_result, nsg_call.
  exists (Params {| nsg_location := loc;
                    security_rules := build_security_rules (cfg s) |}
                 (Some (stamped (cfg s) (ticks s)))).
  split; [reflexivity|].
  by destruct (remote _ (cloud s)) as [r w].
Qed.

Lemma lookup_public_ip_run rg name s :
  lookup_public_ip rg name s =
    if truthy name then
      let c := PublicIPGet rg (default EmptyString name) in
      let '(r, w) := remote c (cloud s) in
      (Ok (reported_ip r), State (cfg s) w (trace s ++ [Ev c r]) (log s) (ticks s))
    else (Ok "No asignada", s).
Proof.
  unfold lookup_public_ip, reported_ip. destruct (truthy name); [|reflexivity].
  unfold bind, attempt, client, ret.
  by destruct (remote _ (cloud s)) as [[h|e] w].
Qed.

Lemma get_vm_info_run rg name s :
  get_vm_info rg name s =
    match remote (VMGet rg name) (cloud s) with
    | (Ok vm, w) =>
        let '(ip, s') :=
          lookup_public_ip rg (network (cfg s) ≫= public_ip_name)
            (State (cfg s) w (trace s ++ [Ev (VMGet rg name) (Ok vm)]) (log s) (ticks s)) in
        (match ip with
         | Ok ip => Ok (vm_summary vm ip (admin_username (cfg s)))
         | Raise _ => Ok ∅
         end, s')
    | (Raise e, w) =>
        (Ok ∅, State (cfg s) w (trace s ++ [Ev (VMGet rg name) (Raise e)])
                 (log s ++ [ErrVmInfo e]) (ticks s))
    end.
Proof.
  unfold get_vm_info, bind at 1, attempt, bind at 1, client.
  destruct (remote (VMGet rg name) (cloud s)) as [[vm|e] w]; [|reflexivity].
  unfold bind at 1, config_get. cbn [cfg cloud trace log ticks].
  unfold bind at 1. rewrite lookup_public_ip_run.
  destruct (truthy _); [|reflexivity].
  cbn [cfg cloud trace log ticks].
  by destruct (remote (PublicIPGet _ _) w) as [[h|e] w'].
Qed.


(** ** Reading a trace: what the checks on a whole trace say about each
    of its events *)

Lemma dependencies_met_split before evs pre ev post :
  dependencies_met before evs ->
  evs = pre ++ ev :: post ->
  ready (before ++ pre) (ev_call ev).
Proof.
  revert before evs. induction pre as [|a pre IH]; intros before evs H ->.
  - rewrite app_nil_r. exact (proj1 H).
  - destruct H as [_ H]. specialize (IH _ _ H eq_refl).
    by rewrite <- app_assoc in IH.
Qed.

Lemma failure_is_last_split pre ev post e :
  failure_is_last (pre ++ ev :: post) ->
  creation_failure ev = Some e ->
  post = [] /\ first_failure (pre ++ ev :: post) = Some e.
Proof.
  intros H He. induction pre as [|a pre IH].
  - destruct H as [H _]. split.
    + apply H. rewrite He. by eexists.
    + unfold first_failure. cbn. by rewrite He.
  - destruct H as [Ha H]. destruct (IH H) as [Hpost Hfirst]. split; [done|].
    destruct (creation_failure a) as [e'|] eqn:Hfa.
    + exfalso. assert (is_Some (Some e')) as Hs by by eexists.
      specialize (Ha Hs). by destruct pre.
    + unfold first_failure in *. cbn. by rewrite Hfa.
Qed.

Lemma first_failure_None evs :
  (forall ev, ev ∈ evs -> creation_failure ev = None) ->
  first_failure evs = None.
Proof.
  induction evs as [|a evs IH]; intros H; [reflexivity|].
  unfold first_failure in *. cbn.
  rewrite (H a) by apply list_elem_of_here.
  apply IH. intros ev Hev. apply H. by apply list_elem_of_further.
Qed.

(** ** The whole walk *)

Lemma stamped_stamped_cfg c k k' : stamped (stamped_cfg c k) k' = stamped c k'.
Proof.
  unfold stamped_cfg, stamped. destruct (tags c) as [t|] eqn:Ht.
  - cbn [with_tags tags default from_option id]. by rewrite insert_insert_eq.
  - by rewrite Ht.
Qed.

(** One move of the symbolic run: split on the outcome of the next
    client call, or on the test of [lookup_public_ip], or replace the
    next step by its closed form. *)
Ltac run_step :=
  first
    [ match goal with
      | |- context [remote ?x ?y] => destruct (remote x y) as [[?h|?e] ?w]
      end
    | match goal with
      | |- context [if truthy ?x then _ else _] => destruct (truthy x) eqn:?
      end
    | rewrite create_resource_group_run
    | rewrite create_virtual_network_run
    | rewrite create_subnet_run
    | rewrite create_public_ip_run
    | rewrite create_network_security_group_run
    | rewrite create_network_interface_run
    | rewrite create_virtual_machine_run
    | rewrite get_vm_info_run
    | rewrite lookup_public_ip_run ];
  unfold step_result; cbn [cfg cloud trace log ticks fst snd].

Ltac solve_returned :=
  unfold returned; eexists; split;
  [ | apply list_elem_of_In; cbn [In]; eauto 15 ]; reflexivity.

(** Every run of [create_complete_vm], whatever the cloud answers. *)
Lemma walk s :
  exists evs,
    trace (create_complete_vm s).2 = trace s ++ evs
    /\ (create_complete_vm s).1 = Ok (vm_created evs)
    /\ (exists n, attempted evs = take n creation_order)
    /\ dependencies_met [] evs
    /\ failure_is_last evs
    /\ tags_stamped (cfg s) (ticks s) evs
    /\ match failed_node evs with
       | Some k => attempted evs = take (S (node_index k)) creation_order
       | None => True
       end
    /\ match first_failure evs with
       | Some e =>
           vm_created evs = None
           /\ last (log (create_complete_vm s).2) = Some (ErrRun (exn_msg e))
       | None => is_Some (vm_created evs)
       end.
Proof.
  unfold create_complete_vm, summary_line, bind, attempt, config_get, info, ret.
  cbn [cfg cloud trace log ticks].
  repeat run_step.
  all: rewrite <- ?app_assoc; cbn [app].
  all: eexists; split; [reflexivity|].
  all: split; [reflexivity|].
  all: split; [first [by exists 1|by exists 2|by exists 3|by exists 4
                     |by exists 5|by exists 6|by exists 7]|].
  all: unfold rg_call, vnet_call, subnet_call, public_ip_call, nsg_call, nic_call,
         vm_call, vm_body.
  all: split; [cbn [dependencies_met ready ev_call app fields]; repeat split;
               try solve [ eexists _, _, _; repeat split; try reflexivity; solve_returned
                         | eexists; repeat split; try reflexivity; solve_returned ] |].
  all: split; [cbn [failure_is_last creation_failure created_node ev_call ev_result];
               repeat split; try reflexivity; intros [x Hx]; discriminate |].
  all: split; [cbn [tags_stamped created_node ev_call call_tags params_tags];
               rewrite ?stamped_stamped_cfg; repeat split; reflexivity |].
  all: split; [cbn [failed_node last creation_failure created_node ev_call ev_result];
               first [exact I | reflexivity] |].
  all: match goal with
       | |- match ?x with _ => _ end =>
           let y := eval cbn in x in change x with y; cbv beta iota
       end.
  all: first [ split; [reflexivity|];
               repeat (rewrite last_app || rewrite last_cons); reflexivity
             | eexists; reflexivity ].
Qed.

(** Every run of [create_complete_vm]: how far along the fixed order
    it goes. *)
Lemma walk_order s :
  exists evs,
    trace (create_complete_vm s).2 = trace s ++ evs
    /\ match first_failure evs with
       | None => attempted evs = creation_order
       | Some _ =>
           exists k,
             failed_node evs = Some k
             /\ attempted evs = take (S (node_index k)) creation_order
       end.
Proof.
  unfold create_complete_vm, summary_line, bind, attempt, config_get, info, ret.
  cbn [cfg cloud trace log ticks].
  repeat run_step.
  all: eexists; split; [rewrite <- ?app_assoc; reflexivity|].
  all: unfold rg_call, vnet_call, subnet_call, public_ip_call, nsg_call, nic_call,
         vm_call, vm_body.
  all: repeat match goal with
       | |- match ?x with _ => _ end =>
           let y := eval cbn in x in change x with y; cbv beta iota
       end.
  all: first [reflexivity | eexists; split; reflexivity].
Qed.

(** C5. In every run the steps make their calls in the fixed order
    ResourceGroup, VirtualNetwork, Subnet, PublicIP, NetworkSecurityGroup,
    NetworkInterface, VirtualMachine: all seven of them, one after the
    other, when no creation call fails, and otherwise those up to the
    step whose creation call failed, which is the last call of the run.
    Whenever a call is made, what it depends on has returned before: the
    network-interface call comes after the subnet, the public IP and the
    security group have each returned a handle, whose ids it carries,
    and the virtual-machine call comes after the network interface has
    returned a handle, whose id it carries. *)
Theorem creation_steps_in_order s :
  exists evs,
    trace (create_complete_vm s).2 = trace s ++ evs
    /\ (exists n, attempted evs = take n creation_order)
    /\ match first_failure evs with
       | None => attempted evs = creation_order
       | Some _ =>
           exists k,
             failed_node evs = Some k
             /\ attempted evs = take (S (node_index k)) creation_order
       end
    /\ (forall pre ev post, evs = pre ++ ev :: post -> ready pre (ev_call ev)).
Proof.
  destruct (walk s) as (evs & Htrace & _ & Horder & Hdeps & _).
  destruct (walk_order s) as (evs' & Htrace' & Hall).
  rewrite Htrace in Htrace'. apply app_inv_head in Htrace'. subst evs'.
  exists evs. split; [done|]. split; [done|]. split; [done|].
  intros pre ev post Hsplit.
  exact (dependencies_met_split [] evs pre ev post Hdeps Hsplit).
Qed.

(** C2, as amended. When a creation call fails, it is the last client
    call of the run: no later creation is attempted, and the steps that
    made a call are those of the fixed order up to the failed node; the
    operation returns [None], which names neither the failed node nor
    the cause nor the resources created so far; the message of the cause
    goes to the error log, as the last record of the run. *)
Theorem failed_creation_ends_run s :
  exists evs,
    trace (create_complete_vm s).2 = trace s ++ evs
    /\ (forall pre ev post e k,
          evs = pre ++ ev :: post ->
          creation_failure ev = Some e ->
          created_node (ev_call ev) = Some k ->
          post = []
          /\ attempted evs = take (S (node_index k)) creation_order
          /\ (create_complete_vm s).1 = Ok None
          /\ last (log (create_complete_vm s).2) = Some (ErrRun (exn_msg e))).
Proof.
  destruct (walk s) as (evs & Htrace & Hres & _ & _ & Hlast & _ & Hnode & Hfail).
  exists evs. split; [done|].
  intros pre ev post e k -> He Hk.
  destruct (failure_is_last_split pre ev post e Hlast He) as [-> Hfirst].
  rewrite Hfirst in Hfail. destruct Hfail as [Hvm Hlog].
  unfold failed_node in Hnode. rewrite last_snoc, He, Hk in Hnode.
  rewrite Hres, Hvm. done.
Qed.

(** What the resource-group step does: the probe comes first; a group
    that is found is returned and nothing else is called; when the probe
    raises, whatever it raises, the group is created. *)
Lemma resource_group_step name loc s :
  match remote (RGGet name) (cloud s) with
  | (Ok existing_rg, _) =>
      (create_resource_group name loc s).1 = Ok existing_rg
      /\ trace (create_resource_group name loc s).2 =
           trace s ++ [Ev (RGGet name) (Ok existing_rg)]
  | (Raise e, _) =>
      exists p,
        trace (create_resource_group name loc s).2 =
          trace s ++ [Ev (RGGet name) (Raise e);
                      Ev (RGCreateOrUpdate name p) (create_resource_group name loc s).1]
  end.
Proof.
  rewrite create_resource_group_run.
  destruct (remote (RGGet name) (cloud s)) as [[h|e] w]; [done|].
  unfold step_result, rg_call. cbn [cfg cloud trace log ticks].
  eexists. destruct (remote _ w) as [r w']. cbn. by rewrite <- app_assoc.
Qed.

(** What [_add_tags] does to a configuration that has a ['tags'] key:
    the stored dictionary receives the time stamp. *)
Lemma _add_tags_writes_config {A} (p : params A) s t :
  tags (cfg s) = Some t ->
  tags (cfg (_add_tags p s).2) = Some (<["CreatedAt" := clock (ticks s)]> t).
Proof.
  intros Ht. rewrite _add_tags_run. cbn. unfold stamped_cfg, stamped.
  by rewrite Ht.
Qed.

(** The tags of the creation calls of a run: each call but the subnet's
    carries the tags the configuration had at the start and the clock
    reading made for that call; the subnet's carries none. *)
Lemma creation_calls_tagged s :
  exists evs,
    trace (create_complete_vm s).2 = trace s ++ evs
    /\ tags_stamped (cfg s) (ticks s) evs.
Proof.
  destruct (walk s) as (evs & Htrace & _ & _ & _ & _ & Htags & _). by exists evs.
Qed.

(** C6, as amended. [get_vm_info] never raises. When the VM is fetched
    and a public IP name is configured, the summary reports, under
    [public_ip], ["No asignada"] when the lookup of the address raises,
    ["Pendiente"] when the address fetched has no [ip_address] yet, and
    the address otherwise. A run all of whose creation calls succeeded
    returns the VM handle, whatever the two reads of [get_vm_info] did. *)
Theorem read_back_never_escalates s :
  (forall rg name, exists vm_info, (get_vm_info rg name s).1 = Ok vm_info)
  /\ (forall rg name vm w ip_name r w',
        remote (VMGet rg name) (cloud s) = (Ok vm, w) ->
        network (cfg s) ≫= public_ip_name = Some ip_name ->
        ip_name <> EmptyString ->
        remote (PublicIPGet rg ip_name) w = (r, w') ->
        exists vm_info,
          (get_vm_info rg name s).1 = Ok vm_info
          /\ vm_info !! "public_ip" =
               Some (PyStr match r with
                           | Raise _ => "No asignada"
                           | Ok public_ip => or_else (ip_address public_ip) "Pendiente"
                           end))
  /\ (forall rg name vm w,
        remote (VMGet rg name) (cloud s) = (Ok vm, w) ->
        truthy (network (cfg s) ≫= public_ip_name) = false ->
        exists vm_info,
          (get_vm_info rg name s).1 = Ok vm_info
          /\ vm_info !! "public_ip" = Some (PyStr "No asignada"))
  /\ (forall evs,
        trace (create_complete_vm s).2 = trace s ++ evs ->
        (forall ev, ev ∈ evs -> creation_failure ev = None) ->
        exists vm, (create_complete_vm s).1 = Ok (Some vm)).
Proof.
  split; [|split; [|split]].
  - intros rg name. rewrite get_vm_info_run.
    destruct (remote (VMGet rg name) (cloud s)) as [[vm|e] w]; [|by eexists].
    rewrite lookup_public_ip_run. destruct (truthy _); [|by eexists].
    cbn [cfg cloud trace log ticks].
    destruct (remote (PublicIPGet _ _) w) as [r w']. by eexists.
  - intros rg name vm w ip_name r w' Hvm Hname Hne Hip.
    rewrite get_vm_info_run, Hvm, lookup_public_ip_run, Hname.
    assert (truthy (Some ip_name) = true) as ->.
    { cbn. apply negb_true_iff, String.eqb_neq. done. }
    cbn [cfg cloud trace log ticks default from_option id]. rewrite Hip.
    eexists. split; [reflexivity|].
    unfold vm_summary, reported_ip. by destruct r.
  - intros rg name vm w Hvm Hname.
    rewrite get_vm_info_run, Hvm, lookup_public_ip_run, Hname.
    eexists. split; reflexivity.
  - intros evs Htrace Hok.
    destruct (walk s) as (evs' & Htrace' & Hres & _ & _ & _ & _ & _ & Hfail).
    rewrite Htrace in Htrace'. apply app_inv_head in Htrace'. subst evs'.
    rewrite (first_failure_None evs Hok) in Hfail.
    destruct Hfail as [vm Hvm]. exists vm. by rewrite Hres, Hvm.
Qed.

(** ** More on the whole walk: the state it leaves *)

Lemma stamped_cfg_idem c k k' : stamped_cfg (stamped_cfg c k) k' = stamped_cfg c k'.
Proof.
  unfold stamped_cfg, stamped.
  destruct (tags c) as [t|] eqn:Ht; [|by rewrite Ht].
  unfold with_tags. cbn. by rewrite insert_insert_eq.
Qed.

Lemma same_but_tags_stamped c k : same_but_tags c (stamped_cfg c k).
Proof. unfold stamped_cfg. by destruct (tags c). Qed.

(** Every run of [create_complete_vm]: the calls it counts, the
    configuration and the clock it leaves, and the end of its log when a
    creation fails. *)
Lemma walk_state s :
  exists evs,
    trace (create_complete_vm s).2 = trace s ++ evs
    /\ (exists r, head evs = Some (Ev (RGGet (resource_group (cfg s))) r))
    /\ length evs <= 10
    /\ NoDup (created_nodes evs)
    /\ ticks (create_complete_vm s).2 = tagged_creations evs + ticks s
    /\ cfg (create_complete_vm s).2 =
         match tagged_creations evs with
         | 0 => cfg s
         | S n => stamped_cfg (cfg s) (n + ticks s)
         end
    /\ match failed_node evs, first_failure evs with
       | Some k, Some e =>
           exists l name,
             log (create_complete_vm s).2 =
               l ++ step_log k (announcement k name (location (cfg s))) (Raise e)
                 ++ [ErrRun (exn_msg e)]
       | _, _ => True
       end.
Proof.
  unfold create_complete_vm, summary_line, bind, attempt, config_get, info, ret.
  cbn [cfg cloud trace log ticks].
  repeat run_step.
  all: eexists; split; [rewrite <- ?app_assoc; reflexivity|].
  all: unfold rg_call, vnet_call, subnet_call, public_ip_call, nsg_call, nic_call,
         vm_call, vm_body.
  all: split; [by eexists|].
  all: split; [cbn; lia|].
  all: split; [apply (bool_decide_unpack _); vm_compute; exact I|].
  all: split; [reflexivity|].
  all: split; [rewrite ?stamped_cfg_idem; reflexivity|].
  all: repeat match goal with
       | |- match ?x with _ => _ end =>
           let y := eval cbn in x in change x with y; cbv beta iota
       end.
  all: first [exact I | eexists _, _; rewrite <- app_assoc; reflexivity].
Qed.

Lemma same_but_tags_refl c : same_but_tags c c.
Proof. by repeat split. Qed.

Lemma stamped_lookup c k key :
  stamped c k !! key =
    if decide (key = "CreatedAt") then Some (clock k) else default ∅ (tags c) !! key.
Proof.
  unfold stamped. destruct (decide (key = "CreatedAt")) as [->|Hne].
  - apply lookup_insert_eq.
  - by apply lookup_insert_ne.
Qed.

(** [_add_tags] always tags the request: the guard [if tags:] never
    fails, because the stamp has just been written. The tags are the
    configured ones, with [CreatedAt] set to the clock reading made by
    this call (an older [CreatedAt] is overwritten). Nothing but the
    stored tags and the clock changes. *)
Theorem _add_tags_always_tags {A} (p : params A) s :
  exists t,
    (_add_tags p s).1 = Ok (Params (fields p) (Some t))
    /\ t !! "CreatedAt" = Some (clock (ticks s))
    /\ (forall key, key <> "CreatedAt" -> t !! key = default ∅ (tags (cfg s)) !! key)
    /\ same_but_tags (cfg s) (cfg (_add_tags p s).2)
    /\ (tags (cfg s) = None -> cfg (_add_tags p s).2 = cfg s)
    /\ ticks (_add_tags p s).2 = S (ticks s)
    /\ trace (_add_tags p s).2 = trace s
    /\ log (_add_tags p s).2 = log s.
Proof.
  rewrite _add_tags_run. exists (stamped (cfg s) (ticks s)). cbn.
  split; [done|]. split; [by rewrite stamped_lookup|].
  split; [intros key Hkey; rewrite stamped_lookup; by rewrite decide_False|].
  split; [apply same_but_tags_stamped|].
  split; [|done]. intros Hnone. unfold stamped_cfg. by rewrite Hnone.
Qed.

(** A run changes no key of the configuration but ['tags'], and not
    even that one when the configuration has no ['tags'] key; it reads
    the clock once for each creation call other than the subnet's. *)
Theorem run_changes_only_tags s :
  same_but_tags (cfg s) (cfg (create_complete_vm s).2)
  /\ (tags (cfg s) = None -> cfg (create_complete_vm s).2 = cfg s)
  /\ exists evs,
       trace (create_complete_vm s).2 = trace s ++ evs
       /\ ticks (create_complete_vm s).2 = tagged_creations evs + ticks s.
Proof.
  destruct (walk_state s) as (evs & Htrace & _ & _ & _ & Hticks & Hcfg & _).
  rewrite Hcfg. split; [|split].
  - destruct (tagged_creations evs); [apply same_but_tags_refl|apply same_but_tags_stamped].
  - intros Hnone. destruct (tagged_creations evs); [done|].
    unfold stamped_cfg. by rewrite Hnone.
  - by exists evs.
Qed.

(** A run starts with the probe of the resource group, makes at most
    ten client calls, and never creates the same kind of resource
    twice. *)
Theorem run_calls_bounded s :
  exists evs,
    trace (create_complete_vm s).2 = trace s ++ evs
    /\ (exists r, head evs = Some (Ev (RGGet (resource_group (cfg s))) r))
    /\ length evs <= 10
    /\ NoDup (created_nodes evs).
Proof.
  destruct (walk_state s) as (evs & Htrace & Hhead & Hlen & Hnodup & _).
  by exists evs.
Qed.

Lemma vm_created_returned evs vm :
  vm_created evs = Some vm -> returned VirtualMachine vm evs.
Proof.
  unfold vm_created, returned. induction evs as [|[c r] evs IH]; [done|].
  cbn. unfold handle_of at 1. cbn [ev_call ev_result].
  destruct (created_node c) as [k|] eqn:Hk; cbn.
  - destruct r as [h|e]; cbn.
    + destruct (decide (k = VirtualMachine)) as [->|Hne]; cbn.
      * intros [= ->]. exists c. split; [done|apply list_elem_of_here].
      * intros H. destruct (IH H) as (c' & Hc' & Hin).
        exists c'. split; [done|by apply list_elem_of_further].
    + intros H. destruct (IH H) as (c' & Hc' & Hin).
      exists c'. split; [done|by apply list_elem_of_further].
  - intros H. destruct (IH H) as (c' & Hc' & Hin).
    exists c'. split; [done|by apply list_elem_of_further].
Qed.

Lemma created_nodes_elem c r evs k :
  Ev c r ∈ evs -> created_node c = Some k -> k ∈ created_nodes evs.
Proof.
  intros Hin Hk. unfold created_nodes. apply list_elem_of_omap.
  exists (Ev c r). by split.
Qed.

Lemma returned_vm_created evs vm :
  NoDup (created_nodes evs) ->
  returned VirtualMachine vm evs ->
  vm_created evs = Some vm.
Proof.
  intros Hnodup (c & Hc & Hin). unfold vm_created.
  induction evs as [|[c' r'] evs IH]; [by apply elem_of_nil in Hin|].
  cbn. unfold handle_of at 1. cbn [ev_call ev_result].
  apply elem_of_cons in Hin as [[= <- <-]|Hin].
  - rewrite Hc. cbn. by rewrite decide_True.
  - unfold created_nodes in Hnodup. cbn in Hnodup.
    destruct (created_node c') as [k|] eqn:Hk; cbn in *.
    + apply NoDup_cons in Hnodup as [Hnotin Hnodup].
      assert (k <> VirtualMachine) as Hne.
      { intros ->. apply Hnotin. by eapply created_nodes_elem. }
      destruct r'; cbn; [rewrite decide_False by done|]; cbn; by apply IH.
    + by apply IH.
Qed.

(** [create_complete_vm] never raises. What it returns is the object
    the creation call of the virtual machine returned, and [None] when
    that call did not return one; the object fetched afterwards by
    [get_vm_info] is only used for the log. *)
Theorem run_returns_created_vm s :
  exists evs r,
    trace (create_complete_vm s).2 = trace s ++ evs
    /\ (create_complete_vm s).1 = Ok r
    /\ (forall vm, r = Some vm <-> returned VirtualMachine vm evs).
Proof.
  destruct (walk s) as (evs & Htrace & Hres & _).
  destruct (walk_state s) as (evs' & Htrace' & _ & _ & Hnodup & _).
  rewrite Htrace in Htrace'. apply app_inv_head in Htrace'. subst evs'.
  exists evs, (vm_created evs). split; [done|]. split; [done|].
  intros vm. split; [apply vm_created_returned|by apply returned_vm_created].
Qed.

(** When a creation call fails, the step that made it logs the failure
    only if it is an [AzureError]: the log of the run then ends with the
    error record of the step and the error record of the run; for any
    other exception it ends with the announcement of the step (which,
    for the resource group, tells the configured location) and the error
    record of the run. *)
Theorem failure_logging s :
  exists evs,
    trace (create_complete_vm s).2 = trace s ++ evs
    /\ forall pre ev e k,
         evs = pre ++ [ev] ->
         creation_failure ev = Some e ->
         created_node (ev_call ev) = Some k ->
         exists l name,
           log (create_complete_vm s).2 =
             l ++ [announcement k name (location (cfg s))]
               ++ (if is_azure_error e then [ErrCreate k e] else [])
               ++ [ErrRun (exn_msg e)].
Proof.
  destruct (walk s) as (evs & Htrace & _ & _ & _ & Hlast & _).
  destruct (walk_state s) as (evs' & Htrace' & _ & _ & _ & _ & _ & Hlog).
  rewrite Htrace in Htrace'. apply app_inv_head in Htrace'. subst evs'.
  exists evs. split; [done|].
  intros pre ev e k -> He Hk.
  destruct (failure_is_last_split pre ev [] e Hlast He) as [_ Hfirst].
  unfold failed_node in Hlog. rewrite last_snoc, He, Hk, Hfirst in Hlog.
  destruct Hlog as (l & name & Hlog). exists l, name. by rewrite Hlog.
Qed.

(** When the probe finds the resource group, the step returns it and
    does nothing else: no other call, no clock reading, no change to the
    configuration. The location asked for is told in the announcement
    that the step logs, and plays no other part. *)
Theorem existing_group_reused name loc s existing_rg w :
  remote (RGGet name) (cloud s) = (Ok existing_rg, w) ->
  (create_resource_group name loc s).1 = Ok existing_rg
  /\ trace (create_resource_group name loc s).2 =
       trace s ++ [Ev (RGGet name) (Ok existing_rg)]
  /\ cloud (create_resource_group name loc s).2 = w
  /\ cfg (create_resource_group name loc s).2 = cfg s
  /\ ticks (create_resource_group name loc s).2 = ticks s
  /\ log (create_resource_group name loc s).2 =
       log s ++ [InfoCreatingGroup name loc; InfoExists name].
Proof.
  intros Hget. rewrite create_resource_group_run, Hget. by repeat split.
Qed.

(** [get_vm_info] only reads: it makes one or two calls, none of them
    a creation, never raises, and leaves configuration and clock as they
    were. When the virtual machine cannot be fetched it makes no second
    call, logs the error and returns the empty dictionary. *)
Theorem get_vm_info_reads_only rg name s :
  cfg (get_vm_info rg name s).2 = cfg s
  /\ ticks (get_vm_info rg name s).2 = ticks s
  /\ exists evs vm_info,
       trace (get_vm_info rg name s).2 = trace s ++ evs
       /\ (get_vm_info rg name s).1 = Ok vm_info
       /\ 1 <= length evs <= 2
       /\ created_nodes evs = []
       /\ forall e w,
            remote (VMGet rg name) (cloud s) = (Raise e, w) ->
            vm_info = ∅
            /\ evs = [Ev (VMGet rg name) (Raise e)]
            /\ log (get_vm_info rg name s).2 = log s ++ [ErrVmInfo e].
Proof.
  rewrite get_vm_info_run.
  destruct (remote (VMGet rg name) (cloud s)) as [[vm|e] w] eqn:Hvm.
  - rewrite lookup_public_ip_run. destruct (truthy _).
    + cbn [cfg cloud trace log ticks].
      destruct (remote (PublicIPGet _ _) w) as [r w'].
      cbn. split; [done|]. split; [done|]. eexists _, _.
      split; [by rewrite <- app_assoc|]. split; [done|].
      split; [cbn; lia|]. split; [done|]. intros e w0 [=].
    + cbn. split; [done|]. split; [done|]. eexists _, _.
      split; [done|]. split; [done|].
      split; [cbn; lia|]. split; [done|]. intros e w0 [=].
  - cbn. split; [done|]. split; [done|]. eexists _, _.
    split; [done|]. split; [done|].
    split; [cbn; lia|]. split; [done|]. by intros e' w0 [= <- <-].
Qed.

Lemma tagged_creations_cons a evs :
  tagged_creations (a :: evs) =
    match created_node (ev_call a) with
    | Some k => if decide (k = Subnet) then tagged_creations evs
                else S (tagged_creations evs)
    | None => tagged_creations evs
    end.
Proof.
  unfold tagged_creations, created_nodes. cbn [omap list_omap].
  destruct (created_node (ev_call a)) as [k|]; [|done].
  rewrite filter_cons.
  destruct (decide (k = Subnet)) as [->|Hne].
  - by rewrite decide_False by (by intros ?).
  - by rewrite decide_True.
Qed.

Lemma tags_stamped_split c0 evs : forall k pre ev post,
  tags_stamped c0 k evs ->
  evs = pre ++ ev :: post ->
  match created_node (ev_call ev) with
  | None => True
  | Some node =>
      call_tags (ev_call ev) =
        if decide (node = Subnet) then None
        else Some (stamped c0 (tagged_creations pre + k))
  end.
Proof.
  intros k pre. revert k evs.
  induction pre as [|a pre IH]; intros k evs ev post H ->.
  - cbn in H. destruct (created_node (ev_call ev)) as [[]|]; cbn; tauto.
  - cbn in H. rewrite tagged_creations_cons.
    destruct (created_node (ev_call a)) as [node|].
    + destruct node; cbn [decide_rel]; try (destruct H as [_ H]);
        specialize (IH _ _ ev post H eq_refl);
        destruct (created_node (ev_call ev)); try done;
        rewrite ?decide_False in * by done; rewrite ?decide_True in * by done;
        by rewrite ?Nat.add_succ_r in IH.
    + exact (IH _ _ ev post H eq_refl).
Qed.

(** In a run, the request of the subnet carries no tags; every other
    creation request carries the tags the configuration had when the run
    started, with [CreatedAt] set to a clock reading of its own: the
    [n]-th tagged request carries the [n]-th reading of the run. *)
Theorem run_requests_tagged s :
  exists evs,
    trace (create_complete_vm s).2 = trace s ++ evs
    /\ forall pre ev post node,
         evs = pre ++ ev :: post ->
         created_node (ev_call ev) = Some node ->
         if decide (node = Subnet) then call_tags (ev_call ev) = None
         else exists t,
           call_tags (ev_call ev) = Some t
           /\ t !! "CreatedAt" = Some (clock (tagged_creations pre + ticks s))
           /\ forall key, key <> "CreatedAt" ->
                t !! key = default ∅ (tags (cfg s)) !! key.
Proof.
  destruct (walk s) as (evs & Htrace & _ & _ & _ & _ & Htags & _).
  exists evs. split; [done|].
  intros pre ev post node Hsplit Hnode.
  pose proof (tags_stamped_split _ _ _ pre ev post Htags Hsplit) as H.
  rewrite Hnode in H. destruct (decide (node = Subnet)); [done|].
  eexists. split; [exact H|]. split; [by rewrite stamped_lookup|].
  intros key Hkey. rewrite stamped_lookup. by rewrite decide_False.
Qed.

End Creator.

Arguments State {W} cfg cloud trace log ticks.
Arguments cfg {W} s.
Arguments cloud {W} s.
Arguments trace {W} s.
Arguments log {W} s.
Arguments ticks {W} s.

(** * Validation *)

Section Validation.

Implicit Types (c : config) (s : string) (a : ascii).

Example validate_default :
  validate _default_config = (Ok true, [InfoValidated]).
Proof. reflexivity. Qed.

Lemma strip_cons a s :
  strip (String a s) =
    if is_hyphen_or_underscore a then strip s else String a (strip s).
Proof.
  unfold strip, is_hyphen_or_underscore. cbn [PyStr.replace].
  destruct (Ascii.eqb a "-") eqn:Hh; cbn [orb String.append].
  - reflexivity.
  - cbn [PyStr.replace]. by destruct (Ascii.eqb a "_").
Qed.

Lemma hyphen_or_underscore_not_alnum a :
  is_hyphen_or_underscore a = true -> PyStr.isalnum_char a = false.
Proof.
  unfold is_hyphen_or_underscore. intros H.
  apply orb_true_iff in H as [H|H]; apply Ascii.eqb_eq in H; by subst.
Qed.

Lemma all_chars_strip s :
  PyStr.all_chars PyStr.isalnum_char (strip s) = PyStr.all_chars name_char s.
Proof.
  induction s as [|a s IH]; [reflexivity|].
  rewrite strip_cons. cbn [PyStr.all_chars]. unfold name_char at 1.
  destruct (is_hyphen_or_underscore a) eqn:Ha.
  - by rewrite orb_true_r.
  - cbn [PyStr.all_chars]. by rewrite IH, orb_false_r.
Qed.

Lemma strip_empty s :
  strip s = EmptyString <->
    PyStr.any_char (fun a => negb (is_hyphen_or_underscore a)) s = false.
Proof.
  induction s as [|a s IH]; [done|].
  rewrite strip_cons. cbn [PyStr.any_char].
  destruct (is_hyphen_or_underscore a); cbn [negb orb]; [exact IH|done].
Qed.

Lemma isalnum_strip s :
  PyStr.isalnum (strip s) =
    PyStr.all_chars name_char s
    && PyStr.any_char (fun a => negb (is_hyphen_or_underscore a)) s.
Proof.
  rewrite <- all_chars_strip.
  destruct (PyStr.any_char _ s) eqn:Hany.
  - rewrite andb_true_r. unfold PyStr.isalnum.
    destruct (strip s) eqn:Hs; [|reflexivity].
    apply strip_empty in Hs. congruence.
  - apply strip_empty in Hany. by rewrite Hany.
Qed.

(** What the name check of the code accepts, character by character. *)
Lemma vm_name_ok_spec s :
  vm_name_ok s = true <->
    (1 <= PyStr.len s <= 64)%nat
    /\ PyStr.all_chars name_char s = true
    /\ PyStr.any_char (fun a => negb (is_hyphen_or_underscore a)) s = true.
Proof.
  unfold vm_name_ok. fold (strip s). rewrite isalnum_strip.
  rewrite !andb_true_iff, !Nat.leb_le. tauto.
Qed.

Lemma first_missing_app c before rest :
  Forall (fun f => truthy (get_str c f) = true) before ->
  first_missing c (before ++ rest) = first_missing c rest.
Proof.
  induction 1 as [|f before Hf _ IH]; [reflexivity|].
  cbn [app first_missing]. by rewrite Hf.
Qed.

Lemma first_missing_None c fields :
  first_missing c fields = None <->
    Forall (fun f => truthy (get_str c f) = true) fields.
Proof.
  induction fields as [|f fields IH]; cbn [first_missing].
  - split; [constructor|done].
  - destruct (truthy (get_str c f)) eqn:Hf.
    + rewrite IH. split; [by constructor|by inversion 1].
    + split; [done|]. inversion 1; congruence.
Qed.

(** The loop of [validate], unrolled over [required_fields]. *)
Lemma first_missing_required c :
  first_missing c required_fields =
    if truthy (vm_name c) then
      if truthy (resource_group c) then
        if truthy (location c) then
          if truthy (admin_username c) then None else Some "admin_username"
        else Some "location"
      else Some "resource_group"
    else Some "vm_name".
Proof. reflexivity. Qed.

Lemma first_missing_fields c c' :
  validated_fields c = validated_fields c' ->
  first_missing c required_fields = first_missing c' required_fields.
Proof.
  unfold validated_fields. intros [= Hn Hg Hl Hu].
  rewrite !first_missing_required. by rewrite Hn, Hg, Hl, Hu.
Qed.

Lemma validate_fields c c' :
  validated_fields c = validated_fields c' -> validate c = validate c'.
Proof.
  intros H. unfold validate. rewrite (first_missing_fields c c' H).
  unfold validated_fields in H. injection H as Hn _ _ _. by rewrite Hn.
Qed.

Lemma validate_accepts c :
  (validate c).1 =
    Ok (truthy (vm_name c) && truthy (resource_group c) && truthy (location c)
        && truthy (admin_username c) && vm_name_ok (default EmptyString (vm_name c))).
Proof.
  unfold validate. rewrite first_missing_required.
  destruct (vm_name c) as [name|] eqn:Hn; cbn; [|reflexivity].
  destruct (String.eqb name EmptyString); cbn; [reflexivity|].
  destruct (truthy (resource_group c)); cbn; [|reflexivity].
  destruct (truthy (location c)); cbn; [|reflexivity].
  destruct (truthy (admin_username c)); cbn; [|reflexivity].
  by destruct (vm_name_ok name).
Qed.

End Validation.

(** * The security rules *)

Section Rules.

Lemma append_ssh_rules_imap i sources port acc :
  append_ssh_rules i sources port acc =
    acc ++ imap (fun j source => ssh_rule (i + j) source port) sources.
Proof.
  revert i acc. induction sources as [|source rest IH]; intros i acc.
  - cbn. by rewrite app_nil_r.
  - cbn [append_ssh_rules imap]. rewrite IH, <- app_assoc. cbn [app].
    rewrite Nat.add_0_r. do 2 f_equal.
    apply imap_ext. intros j x _. cbn. f_equal. lia.
Qed.

(** The list the method builds: one SSH rule per source, in input
    order, then the deny rule. *)
Lemma build_security_rules_eq c :
  build_security_rules c =
    imap (fun i source => ssh_rule i source (default 22%Z (security c ≫= ssh_port)))
         (default ["*"] (security c ≫= allowed_ssh_sources))
    ++ [deny_all_inbound].
Proof.
  unfold build_security_rules. by rewrite append_ssh_rules_imap.
Qed.

End Rules.

(** * The claims on validation *)

(** C3, as amended. [validate] never raises, and it checks, in this
    order, that [vm_name], [resource_group], [location] and
    [admin_username] are present and non-empty, then the name check on
    [vm_name]; the first check that fails decides the error logged, and
    the configuration is accepted exactly when all of them pass. Nothing
    else is read: [admin_password], the CIDR fields of [network] and
    [ssh_port] have no part in the outcome. *)
Theorem validate_rules c :
  (validate c).1 =
    Ok (truthy (vm_name c) && truthy (resource_group c) && truthy (location c)
        && truthy (admin_username c) && vm_name_ok (default EmptyString (vm_name c)))
  /\ (forall before field after,
        required_fields = before ++ field :: after ->
        Forall (fun f => truthy (get_str c f) = true) before ->
        truthy (get_str c field) = false ->
        validate c = (Ok false, [ErrMissingField field]))
  /\ (Forall (fun f => truthy (get_str c f) = true) required_fields ->
      validate c =
        if vm_name_ok (default EmptyString (vm_name c)) then (Ok true, [InfoValidated])
        else (Ok false, [ErrInvalidVmName]))
  /\ (forall c', validated_fields c' = validated_fields c -> validate c' = validate c).
Proof.
  split; [apply validate_accepts|]. split; [|split].
  - intros before field after Hfields Hbefore Hfield.
    unfold validate. rewrite Hfields, (first_missing_app c before _ Hbefore).
    cbn [first_missing]. by rewrite Hfield.
  - intros Hall. unfold validate.
    rewrite (proj2 (first_missing_None c required_fields) Hall).
    apply Forall_cons in Hall as [Hname _].
    change (get_str c "vm_name") with (vm_name c) in Hname.
    by destruct (vm_name c).
  - intros c' Hc'. by apply validate_fields.
Qed.

Lemma validate_rules_witness :
  validate (Demo.make None (Some "Str0ngPass!") None None) =
    (Ok false, [ErrMissingField "vm_name"])
  /\ validate (Demo.make (Some "web01") None (Demo.ssh_from []) None) =
       validate Demo.config.
Proof.
  split.
  - exact (proj1 (proj2 (validate_rules (Demo.make None (Some "Str0ngPass!") None None)))
             [] "vm_name" ["resource_group"; "location"; "admin_username"]
             eq_refl (Forall_nil_2 _) eq_refl).
  - exact (proj2 (proj2 (proj2 (validate_rules Demo.config)))
             (Demo.make (Some "web01") None (Demo.ssh_from []) None) eq_refl).
Defined.

(** C3 fails as stated: a configuration with no [admin_password], one
    with a three-character password and one with [ssh_port] 70000 are
    all accepted. *)
Lemma validate_accepts_bad_password_and_port :
  let no_password := Demo.make (Some "web01") None (Demo.ssh_from ["10.0.0.0/8"]) None in
  let short_password :=
    Demo.make (Some "web01") (Some "abc") (Demo.ssh_from ["10.0.0.0/8"]) None in
  let bad_port :=
    Demo.make (Some "web01") (Some "Str0ngPass!")
      (Some {| ssh_port := Some 70000%Z; allowed_ssh_sources := Some ["10.0.0.0/8"] |})
      None in
  admin_password no_password = None
  /\ validate no_password = (Ok true, [InfoValidated])
  /\ validate short_password = (Ok true, [InfoValidated])
  /\ validate bad_port = (Ok true, [InfoValidated]).
Proof. repeat split. Qed.

(** C8, as amended. For a name with at least one character other than
    the hyphen and the underscore, in a configuration whose other
    required fields are present, validation accepts the name exactly when
    it is 1 to 64 characters long and each of its characters is
    alphanumeric in the sense of [str.isalnum] (which admits letters and
    digits outside ASCII), a hyphen or an underscore. *)
Theorem vm_name_accepted c name :
  vm_name c = Some name ->
  truthy (resource_group c) = true ->
  truthy (location c) = true ->
  truthy (admin_username c) = true ->
  PyStr.any_char (fun a => negb (is_hyphen_or_underscore a)) name = true ->
  (validate c).1 = Ok true <->
    (1 <= PyStr.len name <= 64)%nat /\ PyStr.all_chars name_char name = true.
Proof.
  intros Hname Hg Hl Hu Hother.
  rewrite validate_accepts, Hname, Hg, Hl, Hu. cbn [default from_option id].
  assert (truthy (Some name) = true) as ->.
  { destruct name; [done|reflexivity]. }
  cbn [andb]. split.
  - intros [= H]. apply vm_name_ok_spec in H. tauto.
  - intros [Hlen Hall]. f_equal. apply vm_name_ok_spec. tauto.
Qed.

Lemma vm_name_accepted_witness :
  (validate (Demo.make (Some "web-01_a") None None None)).1 = Ok true.
Proof.
  apply (vm_name_accepted (Demo.make (Some "web-01_a") None None None) "web-01_a"
           eq_refl eq_refl eq_refl eq_refl eq_refl).
  split; [cbn; lia|reflexivity].
Defined.

(** C8 fails as stated: a name the regular expression does not match is
    accepted. *)
Lemma non_ascii_name_accepted :
  matches_name_regex Demo.e_acute = false
  /\ validate (Demo.make (Some Demo.e_acute) None None None) = (Ok true, [InfoValidated]).
Proof. split; reflexivity. Qed.

(** A name made only of hyphens and underscores is rejected, although
    the regular expression matches it. *)
Example hyphen_name_rejected :
  matches_name_regex "-" = true
  /\ validate (Demo.make (Some "-") None None None) = (Ok false, [ErrInvalidVmName]).
Proof. split; reflexivity. Qed.

(** C9, as amended. Validation does not read the [security] section:
    whatever [allowed_ssh_sources] is, the empty list included, the
    outcome of [validate] is the same. With an empty list the rules the
    security-group step sends are the deny rule alone. *)
Theorem validate_ignores_ssh_sources c sec :
  validate (with_security c sec) = validate c
  /\ (sec ≫= allowed_ssh_sources = Some [] ->
      build_security_rules (with_security c sec) = [deny_all_inbound]
      /\ forall W (remote : call -> W -> result resource * W) clock rg name loc s,
           cfg s = with_security c sec ->
           exists p,
             security_rules (fields p) = [deny_all_inbound]
             /\ trace (create_network_security_group remote clock rg name loc s).2 =
                  trace s ++
                  [Ev (NSGCreateOrUpdate rg name p)
                      (create_network_security_group remote clock rg name loc s).1]).
Proof.
  split; [by apply validate_fields|].
  intros Hsources.
  assert (build_security_rules (with_security c sec) = [deny_all_inbound]) as Hrules.
  { unfold build_security_rules. cbn [with_security security]. by rewrite Hsources. }
  split; [done|].
  intros W remote clock rg name loc s Hc.
  destruct (nsg_step_sends remote clock rg name loc s) as (p & Hp & Htrace).
  exists p. by rewrite Hp, Hc, Hrules.
Qed.

Lemma validate_ignores_ssh_sources_witness :
  build_security_rules (with_security Demo.config (Demo.ssh_from [])) = [deny_all_inbound].
Proof.
  exact (proj1 (proj2 (validate_ignores_ssh_sources Demo.config (Demo.ssh_from []))
                  eq_refl)).
Defined.

(** C9 fails as stated: a configuration whose [allowed_ssh_sources] is
    empty is accepted, and the run that follows makes its calls. *)
Lemma empty_ssh_sources_accepted :
  let c := Demo.make (Some "web01") (Some "Str0ngPass!") (Demo.ssh_from [])
             (Some Demo.project_tags) in
  security c ≫= allowed_ssh_sources = Some []
  /\ validate c = (Ok true, [InfoValidated])
  /\ attempted (trace (create_complete_vm (Demo.cloud Demo.healthy) Demo.clock
                         (init c [])).2) = creation_order.
Proof. repeat split; vm_compute; reflexivity. Qed.

(** * The claims on the security rules *)

(** C1. With [allowed_ssh_sources] of length [n] and [ssh_port] [p], the
    rule list of the security-group step is [n] rules followed by one:
    the [i]-th is Allow, Inbound, Tcp, from the [i]-th source, to port
    [p], at priority [1000 + i]; the last is Deny, Inbound, protocol [*],
    at priority 4096. It is the list the one call of the step carries. *)
Theorem nsg_rules_from_sources c sec sources port :
  security c = Some sec ->
  allowed_ssh_sources sec = Some sources ->
  ssh_port sec = Some port ->
  build_security_rules c =
    imap (fun i source => ssh_rule i source port) sources ++ [deny_all_inbound]
  /\ length (build_security_rules c) = S (length sources)
  /\ (forall i source,
        sources !! i = Some source ->
        exists r,
          build_security_rules c !! i = Some r
          /\ access r = "Allow" /\ direction r = "Inbound" /\ protocol r = "Tcp"
          /\ source_address_prefix r = source
          /\ destination_port_range r = pretty port
          /\ priority r = (1000 + Z.of_nat i)%Z)
  /\ (exists r,
        build_security_rules c !! length sources = Some r
        /\ access r = "Deny" /\ direction r = "Inbound" /\ protocol r = "*"
        /\ priority r = 4096%Z)
  /\ (forall W (remote : call -> W -> result resource * W) clock rg name loc s,
        cfg s = c ->
        exists p,
          security_rules (fields p) = build_security_rules c
          /\ trace (create_network_security_group remote clock rg name loc s).2 =
               trace s ++
               [Ev (NSGCreateOrUpdate rg name p)
                   (create_network_security_group remote clock rg name loc s).1]).
Proof.
  intros Hsec Hsources Hport.
  assert (build_security_rules c =
            imap (fun i source => ssh_rule i source port) sources ++ [deny_all_inbound])
    as Hrules.
  { rewrite build_security_rules_eq, Hsec. cbn. by rewrite Hsources, Hport. }
  rewrite Hrules. split; [done|]. split; [|split; [|split]].
  - rewrite length_app, length_imap. cbn. lia.
  - intros i source Hi. exists (ssh_rule i source port).
    split; [|done].
    rewrite lookup_app_l by (rewrite length_imap; by eapply lookup_lt_Some).
    by rewrite list_lookup_imap, Hi.
  - exists deny_all_inbound. split; [|done].
    rewrite lookup_app_r by (by rewrite length_imap).
    by rewrite length_imap, Nat.sub_diag.
  - intros W remote clock rg name loc s Hc.
    destruct (nsg_step_sends remote clock rg name loc s) as (p & Hp & Htrace).
    exists p. by rewrite Hp, Hc, Hrules.
Qed.

Lemma nsg_rules_from_sources_witness :
  build_security_rules Demo.config = [ssh_rule 0 "10.0.0.0/8" 22; deny_all_inbound].
Proof.
  exact (proj1 (nsg_rules_from_sources Demo.config
                  {| ssh_port := Some 22%Z; allowed_ssh_sources := Some ["10.0.0.0/8"] |}
                  ["10.0.0.0/8"] 22 eq_refl eq_refl eq_refl)).
Defined.

(** C10. A missing [security] section, or a missing key in it, is read
    as [ssh_port] 22 and [allowed_ssh_sources] [['*']]: with both missing
    the rule list is one Allow, Inbound, Tcp rule from [*] to port [22]
    at priority 1000, then the deny rule. It is the list the one call
    of the step carries, and the list of the default configuration. *)
Theorem nsg_default_rules c :
  build_security_rules c =
    imap (fun i source => ssh_rule i source (default 22%Z (security c ≫= ssh_port)))
         (default ["*"] (security c ≫= allowed_ssh_sources))
    ++ [deny_all_inbound]
  /\ (security c ≫= allowed_ssh_sources = None ->
      security c ≫= ssh_port = None ->
      build_security_rules c = [ssh_rule 0 "*" 22; deny_all_inbound]
      /\ exists r,
           build_security_rules c !! 0 = Some r
           /\ access r = "Allow" /\ direction r = "Inbound" /\ protocol r = "Tcp"
           /\ source_address_prefix r = "*"
           /\ destination_port_range r = "22"
           /\ priority r = 1000%Z)
  /\ (security c = None ->
      build_security_rules c = [ssh_rule 0 "*" 22; deny_all_inbound])
  /\ build_security_rules _default_config = [ssh_rule 0 "*" 22; deny_all_inbound]
  /\ (forall W (remote : call -> W -> result resource * W) clock rg name loc s,
        cfg s = c ->
        exists p,
          security_rules (fields p) = build_security_rules c
          /\ trace (create_network_security_group remote clock rg name loc s).2 =
               trace s ++
               [Ev (NSGCreateOrUpdate rg name p)
                   (create_network_security_group remote clock rg name loc s).1]).
Proof.
  split; [apply build_security_rules_eq|]. split; [|split; [|split]].
  - intros Hsources Hport. unfold build_security_rules. rewrite Hsources, Hport.
    split; [reflexivity|]. by exists (ssh_rule 0 "*" 22).
  - intros Hsec. unfold build_security_rules. by rewrite Hsec.
  - reflexivity.
  - intros W remote clock rg name loc s Hc.
    destruct (nsg_step_sends remote clock rg name loc s) as (p & Hp & Htrace).
    exists p. by rewrite Hp, Hc.
Qed.

Lemma nsg_default_rules_witness :
  build_security_rules (Demo.make (Some "web01") None None None) =
    [ssh_rule 0 "*" 22; deny_all_inbound].
Proof.
  exact (proj1 (proj2 (proj2 (nsg_default_rules (Demo.make (Some "web01") None None None))))
           eq_refl).
Defined.

(** * The claims on the walk *)

Lemma creation_steps_in_order_witness :
  attempted (trace (create_complete_vm (Demo.cloud Demo.healthy) Demo.clock
                      (init Demo.config [])).2) = creation_order.
Proof.
  destruct (creation_steps_in_order (Demo.cloud Demo.healthy) Demo.clock
              (init Demo.config [])) as (evs & Htrace & _ & Hall & _).
  change (init Demo.config []).(trace) with (@nil event) in Htrace.
  cbn [app] in Htrace. subst evs.
  assert (first_failure
            (trace (create_complete_vm (Demo.cloud Demo.healthy) Demo.clock
                      (init Demo.config [])).2) = None) as Hnone
    by (vm_compute; reflexivity).
  rewrite Hnone in Hall. exact Hall.
Defined.

Lemma failed_creation_ends_run_witness :
  (create_complete_vm (Demo.cloud (Demo.fails_at NetworkSecurityGroup Demo.boom))
     Demo.clock (init Demo.config [])).1 = Ok None.
Proof.
  destruct (failed_creation_ends_run
              (Demo.cloud (Demo.fails_at NetworkSecurityGroup Demo.boom))
              Demo.clock (init Demo.config [])) as (evs & Htrace & Hfail).
  change (init Demo.config []).(trace) with (@nil event) in Htrace.
  cbn [app] in Htrace. subst evs.
  set (t := trace _) in Hfail.
  refine (proj1 (proj2 (proj2 (Hfail (take 5 t)
                                 (default (Ev (RGGet None) (Raise Demo.boom)) (t !! 5))
                                 [] Demo.boom NetworkSecurityGroup _ _ _)))).
  - vm_compute. reflexivity.
  - vm_compute. reflexivity.
  - vm_compute. reflexivity.
Defined.

(** C2 fails as stated: the value returned when the security-group
    creation fails is the value returned when the virtual-network
    creation fails, so it tells neither the failed node nor the resources
    created before it, which differ in the two runs. *)
Lemma outcome_hides_failed_node :
  let run k :=
    create_complete_vm (Demo.cloud (Demo.fails_at k Demo.boom)) Demo.clock
      (init Demo.config []) in
  (run NetworkSecurityGroup).1 = Ok None
  /\ (run VirtualNetwork).1 = Ok None
  /\ attempted (trace (run NetworkSecurityGroup).2) =
       [ResourceGroup; VirtualNetwork; Subnet; PublicIP; NetworkSecurityGroup]
  /\ attempted (trace (run VirtualNetwork).2) = [ResourceGroup; VirtualNetwork]
  /\ ~ exists failed_node : result (option resource) -> node,
         forall k, failed_node (run k).1 = k.
Proof.
  cbv zeta.
  split; [vm_compute; reflexivity|]. split; [vm_compute; reflexivity|].
  split; [vm_compute; reflexivity|]. split; [vm_compute; reflexivity|].
  intros [failed_node H].
  pose proof (H NetworkSecurityGroup) as H1. pose proof (H VirtualNetwork) as H2.
  vm_compute in H1, H2. congruence.
Qed.

Lemma read_back_never_escalates_witness :
  exists vm_info,
    (get_vm_info (Demo.cloud (Demo.lookup_fails Demo.boom)) (Some "rg-web") (Some "web01")
       (init Demo.config [])).1 = Ok vm_info
    /\ vm_info !! "public_ip" = Some (PyStr "No asignada").
Proof.
  exact (proj1 (proj2 (read_back_never_escalates
                         (Demo.cloud (Demo.lookup_fails Demo.boom)) Demo.clock
                         (init Demo.config [])))
           (Some "rg-web") (Some "web01") _ _ "ip-azure-vm" _ _
           eq_refl eq_refl ltac:(discriminate) eq_refl).
Defined.

(** C6 fails as stated: the placeholder is never ["unassigned"]. When
    the lookup raises the summary says ["No asignada"], and when the
    address is not allocated yet it says ["Pendiente"]. *)
Lemma placeholder_is_not_unassigned :
  let public_ip_of broken :=
    match (get_vm_info (Demo.cloud broken) (Some "rg-web") (Some "web01")
             (init Demo.config [])).1 with
    | Ok vm_info => vm_info !! "public_ip"
    | Raise _ => None
    end in
  public_ip_of (Demo.lookup_fails Demo.boom) = Some (PyStr "No asignada")
  /\ public_ip_of Demo.healthy = Some (PyStr "Pendiente")
  /\ PyStr "No asignada" <> PyStr "unassigned"
  /\ PyStr "Pendiente" <> PyStr "unassigned".
Proof.
  cbv zeta. split; [|split; [|split]].
  - vm_compute. reflexivity.
  - vm_compute. reflexivity.
  - discriminate.
  - discriminate.
Qed.

(** C4, at an input where it fails. The group exists; the probe is
    refused for a reason other than absence. Each run of the step then
    creates the group: one creation after the first run, two after the
    second. *)
Theorem probe_error_creates_again :
  let remote := Demo.cloud (Demo.probe_fails Demo.forbidden) in
  let step := create_resource_group remote Demo.clock (Some "rg-web") (Some "East US") in
  let s0 := init Demo.config [Some "rg-web"] in
  let s1 := (step s0).2 in
  let s2 := (step s1).2 in
  Some "rg-web" ∈ cloud s0
  /\ creations ResourceGroup (trace s1) = 1
  /\ creations ResourceGroup (trace s2) = 2.
Proof. cbv zeta. split; [|split]; [apply list_elem_of_here|reflexivity..]. Qed.

(** With a cloud whose probe finds a group exactly when it exists, the
    second run of the step reuses the group the first one created. *)
Example faithful_probe_creates_once :
  let remote := Demo.cloud Demo.healthy in
  let step := create_resource_group remote Demo.clock (Some "rg-web") (Some "East US") in
  let s0 := init Demo.config [] in
  let s2 := (step (step s0).2).2 in
  creations ResourceGroup (trace s2) = 1
  /\ (ev_call <$> trace s2) !! 0 = Some (RGGet (Some "rg-web"))
  /\ (ev_call <$> trace s2) !! 2 = Some (RGGet (Some "rg-web"))
  /\ length (trace s2) = 3.
Proof. cbv zeta. repeat split; vm_compute; reflexivity. Qed.

(** C7, at an input where it fails. The configuration has a ['tags']
    dictionary without [CreatedAt]; after one [_add_tags] the stored
    dictionary holds the time stamp of that call, and after a whole run
    the one of the last creation call. *)
Theorem add_tags_writes_stored_tags :
  let s0 := init Demo.config ([] : list (option string)) in
  let body := Params {| rg_location := Some "East US" |} None in
  let out := create_complete_vm (Demo.cloud Demo.healthy) Demo.clock s0 in
  tags (cfg s0) = Some Demo.project_tags
  /\ Demo.project_tags !! "CreatedAt" = None
  /\ tags (cfg (_add_tags Demo.clock body s0).2) =
       Some (<["CreatedAt" := Demo.clock 0]> Demo.project_tags)
  /\ tags (cfg out.2) = Some (<["CreatedAt" := Demo.clock 5]> Demo.project_tags).
Proof. cbv zeta. repeat split; vm_compute; reflexivity. Qed.

(** On the same run the requests are tagged as the claim says: each
    creation call but the subnet's carries the configured tags and its
    own clock reading. *)
Example demo_run_tags :
  let out := create_complete_vm (Demo.cloud Demo.healthy) Demo.clock
               (init Demo.config []) in
  (fun c => (created_node c, call_tags c ≫= (fun t => t !! "CreatedAt")))
    <$> (ev_call <$> trace out.2) =
  [ (None, None);
    (Some ResourceGroup, Some (Demo.clock 0));
    (Some VirtualNetwork, Some (Demo.clock 1));
    (Some Subnet, None);
    (Some PublicIP, Some (Demo.clock 2));
    (Some NetworkSecurityGroup, Some (Demo.clock 3));
    (Some NetworkInterface, Some (Demo.clock 4));
    (Some VirtualMachine, Some (Demo.clock 5));
    (None, None);
    (None, None) ].
Proof. vm_compute. reflexivity. Qed.

(** * More on the security rules *)

Lemma rule_names_eq sources port :
  rule_name <$> imap (fun i source => ssh_rule i source port) sources =
    (fun i => "SSH_" +:+ pretty (i + 1)%nat) <$> seq 0 (length sources).
Proof.
  rewrite fmap_imap, <- (imap_seq_0 sources). by apply imap_ext.
Qed.

Lemma rule_priorities_eq sources port :
  priority <$> imap (fun i source => ssh_rule i source port) sources =
    (fun i => (1000 + Z.of_nat i)%Z) <$> seq 0 (length sources).
Proof.
  rewrite fmap_imap, <- (imap_seq_0 sources). by apply imap_ext.
Qed.

(** The names of the rules sent are pairwise distinct, whatever the
    sources. Their priorities are pairwise distinct exactly when there
    are at most 3096 sources: the SSH rule of index 3096 has priority
    4096, the priority of the deny rule. *)
Theorem rule_names_and_priorities c :
  NoDup (rule_name <$> build_security_rules c)
  /\ (NoDup (priority <$> build_security_rules c) <->
      length (default ["*"] (security c ≫= allowed_ssh_sources)) <= 3096)
  /\ (forall source,
        default ["*"] (security c ≫= allowed_ssh_sources) !! 3096 = Some source ->
        exists r, build_security_rules c !! 3096 = Some r
                  /\ access r = "Allow" /\ priority r = priority deny_all_inbound).
Proof.
  rewrite build_security_rules_eq.
  set (sources := default ["*"] (security c ≫= allowed_ssh_sources)).
  set (port := default 22%Z (security c ≫= ssh_port)).
  rewrite !fmap_app, rule_names_eq, rule_priorities_eq. cbn [fmap list_fmap].
  split; [|split].
  - apply NoDup_app. split; [|split].
    + apply NoDup_fmap_2_strong; [|apply NoDup_seq].
      intros i j _ _ [= H]. cbn in H. apply pretty_nat_inj in H. lia.
    + intros name Hname Hdeny. apply list_elem_of_fmap in Hname as (i & -> & _).
      apply list_elem_of_singleton in Hdeny. discriminate Hdeny.
    + apply NoDup_singleton.
  - rewrite NoDup_app. split.
    + intros (_ & Hnotin & _).
      destruct (decide (length sources <= 3096)) as [|Hlong]; [done|].
      exfalso. apply (Hnotin 4096%Z); [|apply list_elem_of_here].
      apply list_elem_of_fmap. exists 3096. split; [done|].
      apply elem_of_seq. lia.
    + intros Hshort. split; [|split].
      * apply NoDup_fmap_2_strong; [|apply NoDup_seq]. intros i j _ _ H. lia.
      * intros x Hx Hdeny. apply list_elem_of_fmap in Hx as (i & -> & Hi).
        apply elem_of_seq in Hi. apply list_elem_of_singleton in Hdeny.
        change (priority deny_all_inbound) with 4096%Z in Hdeny. lia.
      * apply NoDup_singleton.
  - intros source Hsource. exists (ssh_rule 3096 source port).
    split; [|done].
    rewrite lookup_app_l by (rewrite length_imap; by eapply lookup_lt_Some).
    by rewrite list_lookup_imap, Hsource.
Qed.

(** * The dialogue with the user *)

Section ConsoleFacts.

Variable h : host.

Lemma dialogue_name_ok_eq name : dialogue_name_ok name = vm_name_ok name.
Proof.
  unfold dialogue_name_ok, vm_name_ok. f_equal. f_equal.
  by destruct name.
Qed.

(** The name loop of the dialogue and [validate] test a name with two
    conditions written apart; they accept the same names. *)
Theorem dialogue_name_check_agrees name : dialogue_name_ok name = vm_name_ok name.
Proof. exact (dialogue_name_ok_eq name). Qed.

Lemma show_menu_loop_spec lines : forall seen files,
  match show_menu_loop h lines seen files with
  | (Done choice, con') =>
      (1 <= choice <= 7)%Z
      /\ written con' = files
      /\ exists rejected line,
           lines = rejected ++ line :: typed con'
           /\ int_of h line = Some choice
           /\ Forall (fun l => forall n, int_of h l = Some n -> (n < 1 \/ 7 < n)%Z) rejected
           /\ length (screen con') = length seen + length rejected
  | (Exit _, _) => False
  | (Uncaught f, con') =>
      f = EOFError /\ typed con' = [] /\ written con' = files
      /\ Forall (fun l => forall n, int_of h l = Some n -> (n < 1 \/ 7 < n)%Z) lines
  end.
Proof.
  induction lines as [|line rest IH]; intros seen files; cbn [show_menu_loop].
  - repeat split; constructor.
  - destruct (int_of h line) as [choice|] eqn:Hline.
    + destruct ((1 <=? choice) && (choice <=? 7))%Z eqn:Hrange.
      * apply andb_true_iff in Hrange as [H1 H7].
        apply Z.leb_le in H1, H7. split; [lia|]. split; [done|].
        exists [], line. cbn. repeat split; try done; lia.
      * assert (forall n, int_of h line = Some n -> (n < 1 \/ 7 < n)%Z) as Hrej.
        { intros n Hn. rewrite Hline in Hn. injection Hn as <-.
          apply andb_false_iff in Hrange as [H|H]; apply Z.leb_gt in H; lia. }
        specialize (IH (seen ++ [ShowOutOfRange]) files).
        destruct (show_menu_loop h rest _ files) as [[choice'|status|f] con'].
        -- destruct IH as (Hc & Hw & rejected & line' & -> & Hl & Hrejs & Hlen).
           split; [done|]. split; [done|]. exists (line :: rejected), line'.
           repeat split; try done; [by constructor|].
           rewrite Hlen, length_app. cbn. lia.
        -- done.
        -- destruct IH as (-> & Ht & Hw & Hrejs). repeat split; try done. by constructor.
    + assert (forall n, int_of h line = Some n -> (n < 1 \/ 7 < n)%Z) as Hrej.
      { intros n Hn. by rewrite Hline in Hn. }
      specialize (IH (seen ++ [ShowNotANumber]) files).
      destruct (show_menu_loop h rest _ files) as [[choice'|status|f] con'].
      * destruct IH as (Hc & Hw & rejected & line' & -> & Hl & Hrejs & Hlen).
        split; [done|]. split; [done|]. exists (line :: rejected), line'.
        repeat split; try done; [by constructor|].
        rewrite Hlen, length_app. cbn. lia.
      * done.
      * destruct IH as (-> & Ht & Hw & Hrejs). repeat split; try done. by constructor.
Qed.

(** [show_menu] returns the first line typed that reads as a number
    between 1 and 7, having answered each line before it with one
    message; it never leaves the program, and it fails only when the
    input ends before such a line comes. *)
Theorem show_menu_returns_first_valid con :
  match show_menu h con with
  | (Done choice, con') =>
      (1 <= choice <= 7)%Z
      /\ exists rejected line,
           typed con = rejected ++ line :: typed con'
           /\ int_of h line = Some choice
           /\ Forall (fun l => forall n, int_of h l = Some n -> (n < 1 \/ 7 < n)%Z) rejected
           /\ length (screen con') = length (screen con) + 1 + length rejected
  | (Exit _, _) => False
  | (Uncaught f, con') =>
      f = EOFError /\ typed con' = []
      /\ Forall (fun l => forall n, int_of h l = Some n -> (n < 1 \/ 7 < n)%Z) (typed con)
  end.
Proof.
  unfold show_menu, io_bind, show, say. cbn [typed screen written].
  pose proof (show_menu_loop_spec (typed con) (screen con ++ [ShowMenu]) (written con)) as H.
  destruct (show_menu_loop h (typed con) _ (written con)) as [[choice|status|f] con'].
  - destruct H as (Hc & _ & rejected & line & Ht & Hl & Hrej & Hlen).
    split; [done|]. exists rejected, line. repeat split; try done.
    rewrite Hlen, length_app. cbn. lia.
  - done.
  - tauto.
Qed.

Lemma name_loop_spec lines : forall seen files,
  match name_loop lines seen files with
  | (Done name, con') =>
      dialogue_name_ok name = true /\ written con' = files
      /\ exists n, typed con' = drop (S n) lines /\ n < length lines
  | (Exit _, _) => False
  | (Uncaught f, con') => f = EOFError /\ written con' = files /\ typed con' = []
  end.
Proof.
  induction lines as [|line rest IH]; intros seen files; cbn [name_loop]; [done|].
  destruct (dialogue_name_ok (PyStr.strip line)) eqn:Hok.
  - split; [done|]. split; [done|]. exists 0. cbn. split; [done|lia].
  - specialize (IH (seen ++ [ShowInvalidName]) files).
    destruct (name_loop rest _ files) as [[name|status|f] con']; [|done..].
    destruct IH as (Hn & Hw & n & Ht & Hlt). split; [done|]. split; [done|].
    exists (S n). cbn. split; [done|lia].
Qed.

Lemma selection_loop_spec fallback bound lines : forall seen files,
  match selection_loop h fallback bound lines seen files with
  | (Done choice, con') =>
      (1 <= choice <= bound)%Z /\ written con' = files
      /\ exists n, typed con' = drop (S n) lines /\ n < length lines
  | (Exit _, _) => False
  | (Uncaught f, con') => f = EOFError /\ written con' = files /\ typed con' = []
  end.
Proof.
  induction lines as [|line rest IH]; intros seen files; cbn [selection_loop]; [done|].
  assert (match selection_loop h fallback bound rest (seen ++ [ShowInvalidSelection]) files with
          | (Done choice, con') =>
              (1 <= choice <= bound)%Z /\ written con' = files
              /\ exists n, typed con' = drop (S n) (line :: rest)
                           /\ n < length (line :: rest)
          | (Exit _, _) => False
          | (Uncaught f, con') => f = EOFError /\ written con' = files /\ typed con' = []
          end) as Hnext.
  { specialize (IH (seen ++ [ShowInvalidSelection]) files).
    destruct (selection_loop h fallback bound rest _ files) as [[c|status|f] con']; [|done..].
    destruct IH as (Hc & Hw & n & Ht & Hlt). split; [done|]. split; [done|].
    exists (S n). cbn. split; [done|lia]. }
  destruct (int_of h _) as [choice|]; [|exact Hnext].
  destruct ((1 <=? choice) && (choice <=? bound))%Z eqn:Hrange; [|exact Hnext].
  apply andb_true_iff in Hrange as [H1 H7]. apply Z.leb_le in H1, H7.
  split; [lia|]. split; [done|]. exists 0. cbn. split; [done|lia].
Qed.

Lemma password_loop_spec lines : forall seen files,
  match password_loop lines seen files with
  | (Done password, con') =>
      8 <= PyStr.len password /\ written con' = files
      /\ exists n, typed con' = drop (S n) lines /\ n < length lines
  | (Exit _, _) => False
  | (Uncaught f, con') => f = EOFError /\ written con' = files /\ typed con' = []
  end.
Proof.
  induction lines as [|line rest IH]; intros seen files; cbn [password_loop]; [done|].
  destruct (8 <=? PyStr.len line)%nat eqn:Hlen.
  - apply Nat.leb_le in Hlen. split; [done|]. split; [done|].
    exists 0. cbn. split; [done|lia].
  - specialize (IH (seen ++ [ShowShortPassword]) files).
    destruct (password_loop rest _ files) as [[p|status|f] con']; [|done..].
    destruct IH as (Hp & Hw & n & Ht & Hlt). split; [done|]. split; [done|].
    exists (S n). cbn. split; [done|lia].
Qed.

Lemma item_in_range {A} (xs : list A) i con :
  (1 <= i <= Z.of_nat (length xs))%Z ->
  exists x, item xs i con = (Done x, con) /\ x ∈ xs.
Proof.
  intros Hi. unfold item. cbn zeta.
  assert ((i - 1 <? 0)%Z = false) as -> by lia.
  assert ((i - 1 <? 0)%Z = false) as -> by lia.
  destruct (xs !! Z.to_nat (i - 1)) as [x|] eqn:Hx.
  - exists x. split; [done|]. by eapply list_elem_of_lookup_2.
  - apply lookup_ge_None in Hx. lia.
Qed.

Lemma truthy_nonempty s : s <> EmptyString -> truthy (Some s) = true.
Proof. intros Hs. cbn. by apply negb_true_iff, String.eqb_neq. Qed.

Lemma vm_name_ok_nonempty name : vm_name_ok name = true -> name <> EmptyString.
Proof. intros H ->. discriminate H. Qed.

Lemma validate_ok c name :
  vm_name c = Some name ->
  vm_name_ok name = true ->
  truthy (resource_group c) = true ->
  truthy (location c) = true ->
  truthy (admin_username c) = true ->
  validate c = (Ok true, [InfoValidated]).
Proof.
  intros Hname Hok Hg Hl Hu. unfold validate.
  rewrite first_missing_required, Hname, Hg, Hl, Hu.
  rewrite (truthy_nonempty name (vm_name_ok_nonempty name Hok)).
  by rewrite Hok.
Qed.

Lemma location_nonempty loc : loc ∈ locations -> loc <> EmptyString.
Proof.
  unfold locations. intros Hin ->.
  repeat (apply elem_of_cons in Hin as [Hin|Hin]; [discriminate Hin|]).
  by apply elem_of_nil in Hin.
Qed.

(** One step of a dialogue: the next bind, then the loop or the read
    it runs. *)
Ltac dialogue_step :=
  unfold io_bind at 1; cbn [typed screen written];
  first
    [ match goal with
      | |- context [name_loop ?l ?s ?f] =>
          let H := fresh "Hname" in
          pose proof (name_loop_spec l s f) as H;
          destruct (name_loop l s f) as [[?name|?|?] ?con]; [|done|tauto];
          destruct H as (? & ? & _)
      | |- context [selection_loop h ?d ?b ?l ?s ?f] =>
          let H := fresh "Hchoice" in
          pose proof (selection_loop_spec d b l s f) as H;
          destruct (selection_loop h d b l s f) as [[?choice|?|?] ?con]; [|done|tauto];
          destruct H as (? & ? & _)
      | |- context [password_loop ?l ?s ?f] =>
          let H := fresh "Hpassword" in
          pose proof (password_loop_spec l s f) as H;
          destruct (password_loop l s f) as [[?password|?|?] ?con]; [|done|tauto];
          destruct H as (? & ? & _)
      | |- context [input ?c] =>
          unfold input at 1; destruct (typed c) as [|?line ?rest]; [done|]
      | |- context [item ?xs ?i ?c] =>
          let H := fresh "Hitem" in
          destruct (item_in_range xs i c) as (?x & H & ?); [done|]; rewrite H
      end
    | idtac ].

Lemma dialogue_spec con :
  match interactive_vm_creation h con with
  | (Done custom, con') => dialogue_made custom /\ written con' = written con
  | (Exit _, _) => False
  | (Uncaught f, _) => f = EOFError
  end.
Proof.
  unfold interactive_vm_creation, show, say.
  do 11 dialogue_step.
  unfold io_ret, dialogue_made.
  match goal with
  | |- (exists n g l s u p, only_keys (Some ?n') (Some ?g') (Some ?l') (Some ?s')
                              (Some ?u') (Some ?p') = _ /\ _) /\ _ =>
      assert (vm_name_ok n' = true) as Hn by (by rewrite <- dialogue_name_ok_eq);
      assert (g' <> EmptyString) as Hg;
      [ | assert (u' <> EmptyString) as Hu;
          [ | split; [exists n', g', l', s', u', p'|] ] ]
  end.
  - destruct (String.eqb (PyStr.strip line) EmptyString) eqn:E; [done|].
    by apply String.eqb_neq in E.
  - destruct (String.eqb (PyStr.strip line0) EmptyString) eqn:E; [done|].
    by apply String.eqb_neq in E.
  - repeat split; try done.
    apply list_elem_of_fmap. by eexists.
  - cbn. congruence.
Qed.

Lemma dialogue_made_validates custom base :
  dialogue_made custom -> validate (update base custom) = (Ok true, [InfoValidated]).
Proof.
  intros (name & group & loc & size & user & password & -> & Hn & Hg & Hl & _ & Hu & _).
  apply (validate_ok _ name); cbn; try done.
  - by apply truthy_nonempty.
  - by apply truthy_nonempty, location_nonempty.
  - by apply truthy_nonempty.
Qed.

(** Whatever is typed, a configuration that [interactive_vm_creation]
    returns has its six keys set to values that pass: a name that the
    name check accepts, a non-empty resource group and administrator, a
    location and a size taken from the two lists, and a password of at
    least eight characters. Merged into any configuration it is accepted
    by [validate]. The dialogue writes no file, never leaves the program,
    and fails only when the input ends. *)
Theorem dialogue_result_is_valid con :
  match interactive_vm_creation h con with
  | (Done custom, con') =>
      (exists name group loc size user password,
         custom = only_keys (Some name) (Some group) (Some loc) (Some size)
                    (Some user) (Some password)
         /\ vm_name_ok name = true
         /\ group <> EmptyString
         /\ loc ∈ locations
         /\ size ∈ (fst <$> vm_sizes)
         /\ user <> EmptyString
         /\ 8 <= PyStr.len password)
      /\ (forall base, validate (update base custom) = (Ok true, [InfoValidated]))
      /\ written con' = written con
  | (Exit _, _) => False
  | (Uncaught f, _) => f = EOFError
  end.
Proof.
  pose proof (dialogue_spec con) as H.
  destruct (interactive_vm_creation h con) as [[custom|status|f] con']; [|done..].
  destruct H as [Hmade Hwritten]. split; [exact Hmade|]. split; [|exact Hwritten].
  intros base. by apply dialogue_made_validates.
Qed.

Lemma name_loop_hit line rest seen files :
  dialogue_name_ok (PyStr.strip line) = true ->
  name_loop (line :: rest) seen files = (Done (PyStr.strip line), Console rest seen files).
Proof. intros H. cbn [name_loop]. by rewrite H. Qed.

Lemma selection_loop_hit fallback bound line rest seen files choice :
  int_of h (if String.eqb line EmptyString then fallback else line) = Some choice ->
  (1 <= choice <= bound)%Z ->
  selection_loop h fallback bound (line :: rest) seen files =
    (Done choice, Console rest seen files).
Proof.
  intros Hline [H1 Hb]. cbn [selection_loop]. rewrite Hline.
  apply Z.leb_le in H1, Hb. by rewrite H1, Hb.
Qed.

Lemma password_loop_hit password rest seen files :
  8 <= PyStr.len password ->
  password_loop (password :: rest) seen files = (Done password, Console rest seen files).
Proof. intros H. cbn [password_loop]. apply Nat.leb_le in H. by rewrite H. Qed.

Lemma item_at {A} (xs : list A) i x con :
  (1 <= i)%Z -> xs !! Z.to_nat (i - 1) = Some x -> item xs i con = (Done x, con).
Proof.
  intros Hi H. unfold item. cbn zeta.
  assert ((i - 1 <? 0)%Z = false) as -> by lia.
  assert ((i - 1 <? 0)%Z = false) as -> by lia.
  by rewrite H.
Qed.

(** The defaults of the dialogue: after a name, four empty lines and a
    password, the resource group is [rg-] followed by the name, the
    location is East US, the size is Standard_B2s and the administrator
    is azureuser. *)
Theorem dialogue_defaults name password rest seen files :
  dialogue_name_ok (PyStr.strip name) = true ->
  8 <= PyStr.len password ->
  int_of h "1" = Some 1%Z ->
  int_of h "2" = Some 2%Z ->
  interactive_vm_creation h
    (Console (name :: EmptyString :: EmptyString :: EmptyString :: EmptyString
              :: password :: rest) seen files) =
    (Done (only_keys (Some (PyStr.strip name)) (Some ("rg-" +:+ PyStr.strip name))
             (Some "East US") (Some "Standard_B2s") (Some "azureuser")
             (Some password)),
     Console rest (seen ++ [ShowDialogueHeader; ShowLocations; ShowSizes]) files).
Proof.
  intros Hname Hpassword H1 H2.
  unfold interactive_vm_creation, io_bind, show, say, input.
  cbn [typed screen written]. rewrite (name_loop_hit _ _ _ _ Hname).
  cbn [typed screen written].
  rewrite (selection_loop_hit "1" _ EmptyString _ _ _ 1%Z H1) by (cbn; lia).
  rewrite (item_at locations 1 "East US") by (lia || reflexivity).
  cbn [typed screen written].
  rewrite (selection_loop_hit "2" _ EmptyString _ _ _ 2%Z H2) by (cbn; lia).
  rewrite (item_at vm_sizes 2 (default (EmptyString, EmptyString) (vm_sizes !! 1)))
    by (lia || reflexivity).
  cbn [typed screen written].
  rewrite (password_loop_hit _ _ _ _ Hpassword).
  unfold io_ret. cbn. by rewrite <- !app_assoc.
Qed.

Lemma dialogue_writes_nothing con :
  written (interactive_vm_creation h con).2 = written con.
Proof.
  unfold interactive_vm_creation, show, say.
  do 11 (unfold io_bind at 1; cbn [typed screen written];
    first
      [ match goal with
        | |- context [name_loop ?l ?s ?f] =>
            let H := fresh "H" in
            pose proof (name_loop_spec l s f) as H;
            destruct (name_loop l s f) as [[?|?|?] ?]; [|done|cbn; intuition congruence];
            destruct H as (_ & ? & _)
        | |- context [selection_loop h ?d ?b ?l ?s ?f] =>
            let H := fresh "H" in
            pose proof (selection_loop_spec d b l s f) as H;
            destruct (selection_loop h d b l s f) as [[?|?|?] ?];
              [|done|cbn; intuition congruence];
            destruct H as (_ & ? & _)
        | |- context [password_loop ?l ?s ?f] =>
            let H := fresh "H" in
            pose proof (password_loop_spec l s f) as H;
            destruct (password_loop l s f) as [[?|?|?] ?]; [|done|cbn; intuition congruence];
            destruct H as (_ & ? & _)
        | |- context [input ?c] =>
            unfold input at 1; destruct (typed c) as [|? ?]; [cbn; congruence|]
        | |- context [@item ?A ?xs ?i ?c] =>
            let H := fresh "H" in
            assert (exists r, @item A xs i c = (r, c)) as [? H]
              by (unfold item, io_ret, raise; cbn zeta;
                  repeat match goal with |- context [if ?b then _ else _] => destruct b end;
                  try match goal with |- context [xs !! ?n] => destruct (xs !! n) end;
                  by eexists);
            rewrite H;
            match goal with |- context [match ?r with _ => _ end] => destruct r end;
            [|cbn; congruence..]
        end
      | idtac ]).
  cbn. congruence.
Qed.

Ltac lines_left :=
  cbn;
  repeat match goal with
         | H : _ = drop _ _ |- _ =>
             apply (f_equal length) in H; rewrite length_drop in H
         | H : typed _ = _ |- _ => apply (f_equal length) in H
         end;
  cbn in *; lia.

Lemma dialogue_reads_on con :
  length (typed (interactive_vm_creation h con).2) <= length (typed con).
Proof.
  unfold interactive_vm_creation, show, say.
  do 11 (unfold io_bind at 1; cbn [typed screen written];
    first
      [ match goal with
        | |- context [name_loop ?l ?s ?f] =>
            let H := fresh "H" in
            pose proof (name_loop_spec l s f) as H;
            destruct (name_loop l s f) as [[?|?|?] ?];
              [|done|destruct H as (_ & _ & H); lines_left];
            destruct H as (_ & _ & ? & H & ?)
        | |- context [selection_loop h ?d ?b ?l ?s ?f] =>
            let H := fresh "H" in
            pose proof (selection_loop_spec d b l s f) as H;
            destruct (selection_loop h d b l s f) as [[?|?|?] ?];
              [|done|destruct H as (_ & _ & H); lines_left];
            destruct H as (_ & _ & ? & H & ?)
        | |- context [password_loop ?l ?s ?f] =>
            let H := fresh "H" in
            pose proof (password_loop_spec l s f) as H;
            destruct (password_loop l s f) as [[?|?|?] ?];
              [|done|destruct H as (_ & _ & H); lines_left];
            destruct H as (_ & _ & ? & H & ?)
        | |- context [input ?c] =>
            let E := fresh "E" in
            unfold input at 1; destruct (typed c) as [|? ?] eqn:E;
            [lines_left|]
        | |- context [@item ?A ?xs ?i ?c] =>
            let H := fresh "H" in
            assert (exists r, @item A xs i c = (r, c)) as [? H]
              by (unfold item, io_ret, raise; cbn zeta;
                  repeat match goal with |- context [if ?b then _ else _] => destruct b end;
                  try match goal with |- context [xs !! ?n] => destruct (xs !! n) end;
                  by eexists);
            rewrite H;
            match goal with |- context [match ?r with _ => _ end] => destruct r end;
            [|lines_left..]
        end
      | idtac ]).
  lines_left.
Qed.

Lemma show_menu_full con :
  match show_menu h con with
  | (Done choice, con') =>
      (1 <= choice <= 7)%Z
      /\ length (typed con') < length (typed con)
      /\ written con' = written con
  | (Exit _, _) => False
  | (Uncaught f, con') =>
      f = EOFError /\ written con' = written con
      /\ length (typed con') <= length (typed con)
  end.
Proof.
  unfold show_menu, io_bind, show, say. cbn [typed screen written].
  pose proof (show_menu_loop_spec (typed con) (screen con ++ [ShowMenu]) (written con)) as H.
  destruct (show_menu_loop h (typed con) _ (written con)) as [[choice|status|f] con'].
  - destruct H as (Hc & Hw & rejected & line & -> & _).
    split; [done|]. split; [|done]. rewrite length_app. cbn. lia.
  - done.
  - destruct H as (-> & -> & -> & _). repeat split. cbn. lia.
Qed.

Lemma dialogue_made_password custom base :
  dialogue_made custom -> truthy (admin_password (update base custom)) = true.
Proof.
  intros (name & group & loc & size & user & password & -> & _ & _ & _ & _ & _ & Hp).
  cbn. apply negb_true_iff, String.eqb_neq. intros ->. cbn in Hp. lia.
Qed.

(** What a run of the menu can end with. *)
Lemma menu_loop_spec fuel : forall con,
  length (typed con) < fuel ->
  exists r con',
    menu_loop h fuel con = Some (r, con')
    /\ (forall status, r = Exit status -> status = 0%Z)
    /\ (forall f, r = Uncaught f ->
         f = EOFError \/ exists name, write_error h name = Some f)
    /\ (forall custom, r = Done (CreateCustom custom) -> dialogue_made custom)
    /\ length (typed con') <= length (typed con)
    /\ exists names,
         written con' = written con ++ ((fun name => (name, _default_config)) <$> names)
         /\ Forall (fun name => name <> EmptyString /\ write_error h name = None) names.
Proof.
  induction fuel as [|fuel IH]; intros con Hfuel; [lia|].
  cbn [menu_loop].
  pose proof (show_menu_full con) as Hmenu.
  destruct (show_menu h con) as [[choice|status|f] con1]; [|done|].
  2:{ destruct Hmenu as (-> & Hw & Hlen). eexists _, _. split; [done|].
      split; [by intros ? [=]|]. split; [intros ? [= <-]; by left|].
      split; [by intros ? [=]|]. split; [done|].
      exists []. cbn. by rewrite app_nil_r. }
  destruct Hmenu as (_ & Hlen & Hw).
  assert (forall con2 names0,
            length (typed con2) <= length (typed con1) ->
            written con2 = written con1 ++ ((fun name => (name, _default_config)) <$> names0) ->
            Forall (fun name => name <> EmptyString /\ write_error h name = None) names0 ->
            exists r con',
              menu_loop h fuel con2 = Some (r, con')
              /\ (forall status, r = Exit status -> status = 0%Z)
              /\ (forall f, r = Uncaught f ->
                   f = EOFError \/ exists name, write_error h name = Some f)
              /\ (forall custom, r = Done (CreateCustom custom) -> dialogue_made custom)
              /\ length (typed con') <= length (typed con)
              /\ exists names,
                   written con' =
                     written con ++ ((fun name => (name, _default_config)) <$> names)
                   /\ Forall (fun name => name <> EmptyString /\ write_error h name = None)
                        names)
    as Hagain.
  { intros con2 names0 Hlen2 Hw2 Hnames0.
    destruct (IH con2) as (r & con' & Hr & He & Hf & Hc & Hl & names & Hn & Hnames); [lia|].
    exists r, con'. repeat (split; [done|]). split; [lia|]. exists (names0 ++ names).
    split; [|by apply Forall_app].
    by rewrite Hn, Hw2, Hw, fmap_app, app_assoc. }
  assert (forall r con' names0,
            (forall status, r = Exit status -> status = 0%Z) ->
            (forall f, r = Uncaught f ->
             f = EOFError \/ exists name, write_error h name = Some f) ->
            (forall custom, r = Done (CreateCustom custom) -> dialogue_made custom) ->
            length (typed con') <= length (typed con1) ->
            written con' = written con1 ++ ((fun name => (name, _default_config)) <$> names0) ->
            Forall (fun name => name <> EmptyString /\ write_error h name = None) names0 ->
            exists r0 con0,
              Some (r, con') = Some (r0, con0)
              /\ (forall status, r0 = Exit status -> status = 0%Z)
              /\ (forall f, r0 = Uncaught f ->
                   f = EOFError \/ exists name, write_error h name = Some f)
              /\ (forall custom, r0 = Done (CreateCustom custom) -> dialogue_made custom)
              /\ length (typed con0) <= length (typed con)
              /\ exists names,
                   written con0 =
                     written con ++ ((fun name => (name, _default_config)) <$> names)
                   /\ Forall (fun name => name <> EmptyString /\ write_error h name = None)
                        names)
    as Hstop.
  { intros r con' names0 He Hf Hc Hl Hw' Hnames0. exists r, con'. repeat (split; [done|]).
    split; [lia|]. exists names0. split; [congruence|done]. }
  assert (forall con2,
            length (typed con2) <= length (typed con1) ->
            written con2 = written con1 ->
            exists r0 con0,
              match input con2 with
              | (Done _, con) => menu_loop h fuel con
              | (Exit status, con) => Some (Exit status, con)
              | (Uncaught f, con) => Some (Uncaught f, con)
              end = Some (r0, con0)
              /\ (forall status, r0 = Exit status -> status = 0%Z)
              /\ (forall f, r0 = Uncaught f ->
                   f = EOFError \/ exists name, write_error h name = Some f)
              /\ (forall custom, r0 = Done (CreateCustom custom) -> dialogue_made custom)
              /\ length (typed con0) <= length (typed con)
              /\ exists names,
                   written con0 =
                     written con ++ ((fun name => (name, _default_config)) <$> names)
                   /\ Forall (fun name => name <> EmptyString /\ write_error h name = None)
                        names)
    as Hpause.
  { intros con2 Hl2 Hw2. unfold input.
    destruct (typed con2) as [|enter rest] eqn:Ht.
    - apply (Hstop _ _ []);
        [by intros ? [=]|intros ? [= <-]; by left|by intros ? [=]
        |rewrite ?Ht; cbn in *; lia| |done].
      cbn. by rewrite app_nil_r.
    - apply (Hagain _ []); cbn in *; [lia| |done]. by rewrite app_nil_r. }
  destruct (choice =? 1)%Z.
  { apply (Hstop _ _ []); [by intros ? [=]..|done| |done]. cbn. by rewrite app_nil_r. }
  destruct (choice =? 2)%Z.
  { unfold io_bind at 1, show, say. cbn [typed screen written]. unfold io_bind at 1.
    match goal with |- context [interactive_vm_creation h ?c] =>
      pose proof (dialogue_spec c) as Hd;
      pose proof (dialogue_writes_nothing c) as Hdw;
      pose proof (dialogue_reads_on c) as Hdl;
      destruct (interactive_vm_creation h c) as [[custom|status|f] con2] end.
    - destruct Hd as (Hmade & _).
      apply (Hstop _ _ []);
        [by intros ? [=]|by intros ? [=]|by intros ? [= <-]|done| |done].
      cbn in *. by rewrite app_nil_r.
    - done.
    - subst f. apply (Hstop _ _ []);
        [by intros ? [=]|intros ? [= <-]; by left|by intros ? [=]|done| |done].
      cbn in *. by rewrite app_nil_r. }
  destruct (choice =? 3)%Z.
  { unfold io_bind at 1, input at 1.
    destruct (typed con1) as [|filename rest] eqn:Ht.
    - apply (Hstop _ _ []);
        [by intros ? [=]|intros ? [= <-]; by left|by intros ? [=]|by rewrite Ht| |done].
      cbn. by rewrite app_nil_r.
    - cbn zeta. unfold io_bind at 1, generate_config_file. cbn [typed screen written].
      set (name := if String.eqb (PyStr.strip filename) EmptyString
                   then "config.json" else PyStr.strip filename).
      assert (name <> EmptyString) as Hname.
      { subst name. destruct (String.eqb (PyStr.strip filename) EmptyString) eqn:E; [done|].
        by apply String.eqb_neq in E. }
      destruct (write_error h name) as [f|] eqn:Hwrite.
      + apply (Hstop _ _ []);
          [by intros ? [=]|intros ? [= <-]; right; by exists name|by intros ? [=]
          |cbn; lia| |done].
        cbn. by rewrite app_nil_r.
      + unfold input. cbn [typed screen written].
        destruct rest as [|enter rest].
        * apply (Hstop _ _ [name]);
            [by intros ? [=]|intros ? [= <-]; by left|by intros ? [=]|cbn; lia|done|].
          by constructor.
        * apply (Hagain _ [name]); [cbn; lia|done|by constructor]. }
  destruct (choice =? 4)%Z.
  { apply (Hstop _ _ []); [by intros ? [=]..|done| |done]. cbn. by rewrite app_nil_r. }
  destruct (choice =? 5)%Z.
  { unfold io_bind at 1, show, say. by apply Hpause. }
  destruct (choice =? 6)%Z.
  { unfold io_bind at 1, show, say. by apply Hpause. }
  destruct (choice =? 7)%Z.
  { apply (Hstop _ _ []);
      [by intros ? [= <-]|by intros ? [=]|by intros ? [=]|done| |done].
    cbn. by rewrite app_nil_r. }
  apply (Hagain _ []); [done| |done]. cbn. by rewrite app_nil_r.
Qed.

(** [interactive_menu_mode] always ends, whatever is typed: the loop
    reads at least one line a turn. It leaves the program only with
    status 0 (choice 7); the only exceptions that escape it are the end
    of the input and a failure to write a file that choice 3 asked for.
    The configuration it returns with choice 2 passes [validate] on top
    of any configuration, and the files it writes all hold the default
    configuration, under names that are not empty. *)
Theorem interactive_menu_mode_ends con :
  exists r con',
    interactive_menu_mode h con = Some (r, con')
    /\ (forall status, r = Exit status -> status = 0%Z)
    /\ (forall f, r = Uncaught f ->
         f = EOFError \/ exists name, write_error h name = Some f)
    /\ (forall custom, r = Done (CreateCustom custom) ->
         forall base, validate (update base custom) = (Ok true, [InfoValidated]))
    /\ exists names,
         written con' = written con ++ ((fun name => (name, _default_config)) <$> names)
         /\ Forall (fun name => name <> EmptyString /\ write_error h name = None) names.
Proof.
  unfold interactive_menu_mode.
  destruct (menu_loop_spec (S (length (typed con)))
              (say ShowBanner con))
    as (r & con' & Hr & He & Hf & Hc & _ & Hn); [cbn; lia|].
  exists r, con'. repeat (split; [done|]). split; [|done].
  intros custom Hcustom base. by apply dialogue_made_validates, Hc.
Qed.

End ConsoleFacts.

(** * The program *)

Section Program.

Context {W : Type}.
Variable remote : call -> W -> result resource * W.
Variable clock : nat -> string.
Variable h : host.

Lemma returned_nil k vm : ~ returned k vm [].
Proof. intros (c & _ & Hin). by apply elem_of_nil in Hin. Qed.

Lemma validate_true c records : validate c = (Ok true, records) -> records = [InfoValidated].
Proof. unfold validate. repeat case_match; congruence. Qed.

Lemma given_some v id : given v = Some id -> v = Some id /\ id <> EmptyString.
Proof.
  unfold given. destruct v as [s|]; cbn; [|done].
  destruct (String.eqb s EmptyString) eqn:E; cbn; [done|].
  intros [= ->]. split; [done|]. by apply String.eqb_neq.
Qed.

(** The run that [main] starts, from a creator that made no call yet. *)
Lemma run_in_main config w records :
  exists r st,
    create_complete_vm remote clock (State config w [] records 0) = (Ok r, st)
    /\ trace st <> []
    /\ (forall vm, r = Some vm <-> returned VirtualMachine vm (trace st))
    /\ same_but_tags config (cfg st).
Proof.
  set (s := State config w [] records 0).
  destruct (walk remote clock s) as (evs & Htrace & Hres & _).
  destruct (walk_state remote clock s)
    as (evs' & Htrace' & [r0 Hhead] & _ & Hnodup & _ & Hcfg & _).
  rewrite Htrace in Htrace'. apply app_inv_head in Htrace'. subst evs'.
  destruct (create_complete_vm remote clock s) as [r st] eqn:Hrun.
  cbn [fst snd] in *. subst r. exists (vm_created evs), st.
  cbn in Htrace. rewrite Htrace.
  split; [done|]. split; [by destruct evs|].
  split.
  - intros vm. split; [apply vm_created_returned|by apply returned_vm_created].
  - rewrite Hcfg. destruct (tagged_creations evs); cbn.
    + by repeat split.
    + apply same_but_tags_stamped.
Qed.

Lemma main_create_spec id config w records con :
  let idle := State config w [] records 0 in
  let end_ := main_create remote clock h id idle con in
  typed end_.1.2 = typed con
  /\ written end_.1.2 = written con
  /\ same_but_tags config (cfg end_.2)
  /\ (end_.1.1 = Done tt \/ end_.1.1 = Exit 1%Z)
  /\ (end_.1.1 = Done tt <-> exists vm, returned VirtualMachine vm (trace end_.2))
  /\ (trace end_.2 <> [] <-> connect h id = None).
Proof.
  cbn zeta. unfold main_create, unexpected.
  destruct (connect h id) as [e|] eqn:Hconnect.
  - cbn. split_and!; try done.
    + by right.
    + split; [done|]. intros [vm Hvm]. by apply returned_nil in Hvm.
  - destruct (run_in_main config w records) as (r & st & -> & Htrace & Hr & Hcfg).
    destruct r as [vm|]; cbn.
    + split_and!; try done; [by left|]. split; [|done].
      intros _. exists vm. by apply Hr.
    + split_and!; try done; [by right|]. split; [done|].
      intros [vm Hvm]. by apply Hr in Hvm.
Qed.

(** How the [try] block of [main] ends. *)
Lemma main_provision_spec args config w con :
  let end_ := main_provision remote clock h args config w con in
  same_but_tags config (cfg end_.2)
  /\ written end_.1.2 = written con
  /\ length (typed end_.1.2) <= length (typed con)
  /\ (end_.1.1 = Done tt \/ end_.1.1 = Exit 1%Z
      \/ (end_.1.1 = Exit 0%Z /\ trace end_.2 = [] /\ no_arguments h = true
          /\ exists confirm rest,
               typed con = confirm :: rest
               /\ PyStr.lower (PyStr.strip confirm) ∉ confirmations))
  /\ (end_.1.1 = Done tt <-> exists vm, returned VirtualMachine vm (trace end_.2))
  /\ (trace end_.2 <> [] <->
        validate config = (Ok true, [InfoValidated])
        /\ (exists id, subscription_id h args = Some id /\ id <> EmptyString
                       /\ connect h id = None)
        /\ (no_arguments h = true ->
            exists confirm rest,
              typed con = confirm :: rest
              /\ PyStr.lower (PyStr.strip confirm) ∈ confirmations)).
Proof.
  cbn zeta. unfold main_provision.
  assert (forall (st : state (W:=W)) r con',
            same_but_tags config (cfg st) -> trace st = [] ->
            written con' = written con -> length (typed con') <= length (typed con) ->
            (r = Exit 1%Z
             \/ (r = Exit 0%Z /\ no_arguments h = true
                 /\ exists confirm rest,
                      typed con = confirm :: rest
                      /\ PyStr.lower (PyStr.strip confirm) ∉ confirmations)) ->
            ~ (validate config = (Ok true, [InfoValidated])
               /\ (exists id, subscription_id h args = Some id /\ id <> EmptyString
                              /\ connect h id = None)
               /\ (no_arguments h = true ->
                   exists confirm rest,
                     typed con = confirm :: rest
                     /\ PyStr.lower (PyStr.strip confirm) ∈ confirmations)) ->
            let end_ : outcome unit * console * state := (r, con', st) in
            same_but_tags config (cfg end_.2)
            /\ written end_.1.2 = written con
            /\ length (typed end_.1.2) <= length (typed con)
            /\ (end_.1.1 = Done tt \/ end_.1.1 = Exit 1%Z
                \/ (end_.1.1 = Exit 0%Z /\ trace end_.2 = [] /\ no_arguments h = true
                    /\ exists confirm rest,
                         typed con = confirm :: rest
                         /\ PyStr.lower (PyStr.strip confirm) ∉ confirmations))
            /\ (end_.1.1 = Done tt <-> exists vm, returned VirtualMachine vm (trace end_.2))
            /\ (trace end_.2 <> [] <->
                  validate config = (Ok true, [InfoValidated])
                  /\ (exists id, subscription_id h args = Some id /\ id <> EmptyString
                                 /\ connect h id = None)
                  /\ (no_arguments h = true ->
                      exists confirm rest,
                        typed con = confirm :: rest
                        /\ PyStr.lower (PyStr.strip confirm) ∈ confirmations))) as Hidle.
  { intros st r con' Hcfg Htrace Hw Hl Hr Hno. cbn.
    split; [done|]. split; [done|]. split; [done|].
    split; [destruct Hr as [->|(-> & ? & ?)]; [by right; left|by right; right]|].
    split.
    - split.
      + destruct Hr as [->|(-> & _)]; discriminate.
      + rewrite Htrace. intros [vm Hvm]. by apply returned_nil in Hvm.
    - rewrite Htrace. split; [done|]. intros Hgo. by destruct Hno. }
  assert (same_but_tags config config) as Hsame by (by repeat split).
  destruct (validate config) as [[[|]|e] records] eqn:Hvalid.
  2, 3: unfold unexpected; apply Hidle; cbn; try done; try (by left);
        by intros [[=] _].
  apply validate_true in Hvalid as Hrecords. subst records.
  destruct (given (subscription_id h args)) as [id|] eqn:Hid.
  2:{ apply Hidle; cbn; try done; [by left|].
      intros (_ & (id & Hid' & Hne & _) & _). unfold given in Hid.
      rewrite Hid' in Hid. by rewrite (truthy_nonempty _ Hne) in Hid. }
  apply given_some in Hid as [Hid Hne].
  destruct (no_arguments h) eqn:Hmode.
  - unfold input. cbn [typed screen written say].
    destruct (typed con) as [|confirm rest] eqn:Htyped.
    { unfold unexpected. apply Hidle; cbn; rewrite ?Htyped; try done; [by left|].
      intros (_ & _ & Hc). by destruct Hc as (? & ? & ? & _). }
    destruct (bool_decide (PyStr.lower (PyStr.strip confirm) ∈ confirmations)) eqn:Hconfirm.
    + apply bool_decide_eq_true in Hconfirm.
      match goal with |- context [main_create _ _ _ _ ?i ?c] =>
        pose proof (main_create_spec id config w [InfoValidated] c) as Hc end.
      cbn zeta in Hc.
      destruct (main_create _ _ _ _ _ _) as [[r con'] st].
      cbn [fst snd typed written] in *.
      destruct Hc as (Ht & Hw & Hcfg & Hr & Hdone & Htrace).
      split; [done|]. split; [done|]. split; [rewrite Ht; cbn; lia|].
      split; [tauto|]. split; [done|].
      rewrite Htrace. split.
      * intros Hconn. split; [done|]. split; [by exists id|]. intros _. by eexists _, _.
      * intros (_ & (id' & Hid' & _ & Hconn) & _). congruence.
    + apply bool_decide_eq_false in Hconfirm.
      apply Hidle; cbn; rewrite ?Htyped; cbn; try done; try lia.
      * right. split; [done|]. split; [done|]. by eexists _, _.
      * intros (_ & _ & Hc). destruct (Hc eq_refl) as (c' & r' & [= <- <-] & Hin). done.
  - match goal with |- context [main_create _ _ _ _ ?i ?c] =>
      pose proof (main_create_spec id config w [InfoValidated] c) as Hc end.
    cbn zeta in Hc.
    destruct (main_create _ _ _ _ _ _) as [[r con'] st].
    cbn [fst snd typed written say] in *.
    destruct Hc as (Ht & Hw & Hcfg & Hr & Hdone & Htrace).
    split; [done|]. split; [done|]. split; [rewrite Ht; cbn; lia|].
    split; [tauto|]. split; [done|].
    rewrite Htrace. split.
    + intros Hconn. split; [done|]. split; [by exists id|]. done.
    + intros (_ & (id' & Hid' & _ & Hconn) & _). congruence.
Qed.

(** The [try] block of [main] calls a client of Azure exactly when
    [validate] accepted the configuration, a subscription identifier
    that is not empty was given (the option, else the environment), the
    clients could be built and, when the program was started without
    arguments, the user answered the confirmation with one of the five
    accepted words, in any case and with any blanks around it. *)
Theorem calls_need_go_ahead args config w con :
  trace (main_provision remote clock h args config w con).2 <> [] <->
    validate config = (Ok true, [InfoValidated])
    /\ (exists id, subscription_id h args = Some id /\ id <> EmptyString
                   /\ connect h id = None)
    /\ (no_arguments h = true ->
        exists confirm rest,
          typed con = confirm :: rest
          /\ PyStr.lower (PyStr.strip confirm) ∈ confirmations).
Proof.
  destruct (main_provision_spec args config w con) as (_ & _ & _ & _ & _ & Hcalls).
  exact Hcalls.
Qed.

(** The [try] block of [main] ends normally exactly when the creation
    call of the virtual machine returned a machine, and with status 1
    otherwise, whatever went wrong; the only other end is status 0, when
    the user did not confirm, and then no client was called. No
    exception escapes the block. *)
Theorem provision_status args config w con :
  let end_ := main_provision remote clock h args config w con in
  (end_.1.1 = Done tt <-> exists vm, returned VirtualMachine vm (trace end_.2))
  /\ (end_.1.1 = Done tt \/ end_.1.1 = Exit 1%Z
      \/ (end_.1.1 = Exit 0%Z /\ trace end_.2 = [] /\ no_arguments h = true
          /\ exists confirm rest,
               typed con = confirm :: rest
               /\ PyStr.lower (PyStr.strip confirm) ∉ confirmations)).
Proof.
  destruct (main_provision_spec args config w con) as (_ & _ & _ & Hend & Hdone & _).
  by split.
Qed.

Lemma ask_password_spec con :
  match ask_password con with
  | (Done password, con') => password <> EmptyString /\ written con' = written con
  | (Exit status, _) => status = 1%Z
  | (Uncaught f, _) => f = EOFError
  end.
Proof.
  unfold ask_password, io_bind, input.
  destruct (typed con) as [|password rest]; [done|].
  destruct (String.eqb password EmptyString) eqn:E; [done|].
  apply String.eqb_neq in E. by cbn.
Qed.

(** What may escape [main]: the end of the input, a file that cannot be
    written, a configuration file that cannot be read or that holds no
    object. *)
Lemma main_configure_spec args con :
  exists r con',
    main_configure h args con = Some (r, con')
    /\ (forall status, r = Exit status -> status = 0%Z \/ status = 1%Z)
    /\ (forall f, r = Uncaught f ->
         f = EOFError
         \/ (exists name, write_error h name = Some f)
         \/ (no_arguments h = false
             /\ exists name, arg_config args = Some name
                  /\ (read_json h name = LoadFails f
                      \/ (read_json h name = BadJson /\ f = JSONDecodeError)
                      \/ (read_json h name = Loaded NotObject
                          /\ (f = TypeError \/ f = AttributeError)))))
    /\ (forall config, r = Done (Some config) ->
         truthy (admin_password config) = true
         /\ (no_arguments h = true ->
             validate config = (Ok true, [InfoValidated])
             /\ os_type config = os_type _default_config
             /\ image config = image _default_config
             /\ network config = network _default_config
             /\ disk config = disk _default_config
             /\ security config = security _default_config)
         /\ (no_arguments h = false ->
             arg_dry_run args = false /\ truthy (arg_generate_config args) = false)).
Proof.
  unfold main_configure. destruct (no_arguments h) eqn:Hmode.
  - unfold interactive_menu_mode.
    destruct (menu_loop_spec h (S (length (typed con))) (say ShowBanner con))
      as (r & con' & -> & He & Hf & Hc & _); [cbn; lia|].
    destruct r as [[|custom|]|status|f].
    + unfold VMConfig. cbn [truthy]. unfold io_bind at 1, io_ret at 1.
      unfold io_bind at 1. pose proof (ask_password_spec con') as Hp.
      destruct (ask_password con') as [[password|status|f] con2].
      * unfold io_bind, as_dict, io_ret.
        eexists _, _. split; [done|]. split; [by intros ? [=]|]. split; [by intros ? [=]|].
        intros config [= <-]. destruct Hp as [Hp _]. split; [by apply truthy_nonempty|].
        split; [|done]. intros _. split; [by apply (validate_ok _ "azure-vm-prod")|].
        by repeat split.
      * eexists _, _. split; [done|]. split; [intros ? [= <-]; by right|].
        split; [by intros ? [=]|by intros ? [=]].
      * eexists _, _. split; [done|]. split; [by intros ? [=]|].
        split; [intros ? [= <-]; by left|by intros ? [=]].
    + unfold VMConfig. cbn [truthy]. unfold io_bind, as_dict, io_ret.
      eexists _, _. split; [done|]. split; [by intros ? [=]|]. split; [by intros ? [=]|].
      intros config [= <-]. specialize (Hc custom eq_refl).
      split; [by apply dialogue_made_password|]. split; [|done].
      intros _. split; [by apply dialogue_made_validates|].
      destruct Hc as (? & ? & ? & ? & ? & ? & -> & _). by repeat split.
    + unfold VMConfig. cbn [truthy]. unfold io_bind, io_ret, show.
      eexists _, _. split; [done|]. split; [by intros ? [=]|].
      split; [by intros ? [=]|by intros ? [=]].
    + eexists _, _. split; [done|]. split; [intros ? [= <-]; left; by apply He|].
      split; [by intros ? [=]|by intros ? [=]].
    + eexists _, _. split; [done|]. split; [by intros ? [=]|].
      split; [|by intros ? [=]]. intros ? [= <-].
      destruct (Hf f eq_refl) as [->|Hw]; [by left|by right; left].
  - destruct (truthy (arg_generate_config args)) eqn:Hgen.
    { unfold io_bind, generate_config_file, io_ret.
      destruct (write_error h _) as [f|] eqn:Hwrite.
      - eexists _, _. split; [done|]. split; [by intros ? [=]|].
        split; [|by intros ? [=]]. intros ? [= <-]. right. left. by eexists.
      - eexists _, _. split; [done|]. split; [by intros ? [=]|].
        split; [by intros ? [=]|by intros ? [=]]. }
    unfold io_bind at 1.
    assert (exists r con1,
              VMConfig h (arg_config args) con = (r, con1)
              /\ (forall status, r <> Exit status)
              /\ (forall f, r = Uncaught f ->
                   exists name, arg_config args = Some name
                     /\ (read_json h name = LoadFails f
                         \/ (read_json h name = BadJson /\ f = JSONDecodeError)))
              /\ (r = Done NotObject ->
                   exists name, arg_config args = Some name
                     /\ read_json h name = Loaded NotObject))
      as (r & con1 & -> & Hne & Hload & Hnot).
    { unfold VMConfig. destruct (arg_config args) as [name|]; cbn [truthy default].
      - destruct (negb (String.eqb name EmptyString)).
        + unfold _load_config. unfold id.
          destruct (read_json h name) as [doc| | |f] eqn:Hread;
            unfold io_bind, show, io_ret, raise; eexists _, _;
            (split; [done|]); (split; [by intros ? [=]|]).
          * split; [by intros ? [=]|]. intros [= ->]. by exists name.
          * split; [by intros ? [=]|by intros [=]].
          * split; [|by intros [=]]. intros ? [= <-]. exists name. split; [done|]. by right.
          * split; [|by intros [=]]. intros ? [= <-]. exists name. split; [done|]. by left.
        + unfold io_ret. eexists _, _. split; [done|]. split; [by intros ? [=]|].
          split; [by intros ? [=]|by intros [=]].
      - unfold io_ret. eexists _, _. split; [done|]. split; [by intros ? [=]|].
        split; [by intros ? [=]|by intros [=]]. }
    destruct r as [doc|status|f].
    2:{ by destruct (Hne status). }
    2:{ eexists _, _. split; [done|]. split; [by intros ? [=]|].
        split; [|by intros ? [=]]. intros ? [= <-]. right. right. split; [done|].
        destruct (Hload f eq_refl) as (name & Hname & [Hl|Hl]);
          exists name; (split; [done|]); [by left|by right; left]. }
    destruct doc as [loaded|].
    2:{ destruct (Hnot eq_refl) as (name & Hname & Hread).
        assert (forall f, f = TypeError \/ f = AttributeError ->
                f = EOFError
                \/ (exists name, write_error h name = Some f)
                \/ (false = false
                    /\ exists name, arg_config args = Some name
                         /\ (read_json h name = LoadFails f
                             \/ (read_json h name = BadJson /\ f = JSONDecodeError)
                             \/ (read_json h name = Loaded NotObject
                                 /\ (f = TypeError \/ f = AttributeError))))) as Hraise.
        { intros f Hf. right. right. split; [done|]. exists name. split; [done|].
          right. right. by split. }
        unfold io_bind at 1.
        destruct (existsb truthy _).
        - unfold io_bind, as_dict, raise.
          eexists _, _. split; [done|]. split; [by intros ? [=]|].
          split; [|by intros ? [=]]. intros ? [= <-]. apply Hraise. by left.
        - unfold io_ret at 1. unfold io_bind at 1.
          destruct (truthy (arg_admin_password args)).
          + unfold io_bind, as_dict, raise.
            eexists _, _. split; [done|]. split; [by intros ? [=]|].
            split; [|by intros ? [=]]. intros ? [= <-]. apply Hraise. by left.
          + unfold io_bind, as_dict, raise.
            eexists _, _. split; [done|]. split; [by intros ? [=]|].
            split; [|by intros ? [=]]. intros ? [= <-]. apply Hraise. by right. }
    unfold io_bind at 1.
    assert (exists config,
              (if existsb truthy
                    [arg_vm_name args; arg_resource_group args; arg_location args;
                     arg_vm_size args; arg_admin_user args]
               then
                 io_bind (as_dict (Object loaded) TypeError)
                   (fun config =>
                      io_ret (Object
                        (update config
                           (only_keys (given (arg_vm_name args))
                              (given (arg_resource_group args))
                              (given (arg_location args)) (given (arg_vm_size args))
                              (given (arg_admin_user args)) None))))
               else io_ret (Object loaded)) con1 = (Done (Object config), con1))
      as [config ->].
    { destruct (existsb truthy _); by eexists. }
    unfold io_bind at 1.
    assert (exists r con2,
              (if truthy (arg_admin_password args) then
                 io_bind (as_dict (Object config) TypeError)
                   (fun config =>
                      io_ret (update config
                                (only_keys None None None None None
                                   (arg_admin_password args))))
               else
                 io_bind (as_dict (Object config) AttributeError)
                   (fun config =>
                      if negb (truthy (admin_password config)) then
                        io_bind (ask_password)
                          (fun password =>
                             io_ret (update config
                                       (only_keys None None None None None
                                          (Some password))))
                      else io_ret config)) con1 = (r, con2)
              /\ (forall status, r = Exit status -> status = 1%Z)
              /\ (forall f, r = Uncaught f -> f = EOFError)
              /\ (forall c, r = Done c -> truthy (admin_password c) = true))
      as (r & con2 & -> & He & Hf & Hp).
    { destruct (truthy (arg_admin_password args)) eqn:Harg.
      - unfold io_bind, as_dict, io_ret.
        eexists _, _. split; [done|]. split; [by intros ? [=]|].
        split; [by intros ? [=]|]. intros c [= <-].
        destruct (arg_admin_password args); [|done]. exact Harg.
      - unfold io_bind at 1, as_dict, io_ret at 1.
        destruct (truthy (admin_password config)) eqn:Hfile; cbn [negb].
        + unfold io_ret. eexists _, _. split; [done|]. split; [by intros ? [=]|].
          split; [by intros ? [=]|]. by intros c [= <-].
        + unfold io_bind, io_ret. pose proof (ask_password_spec con1) as Hask.
          destruct (ask_password con1) as [[password|status|f] con2];
            eexists _, _; (split; [done|]).
          * split; [by intros ? [=]|]. split; [by intros ? [=]|]. intros c [= <-].
            destruct Hask as [Hask _]. by apply truthy_nonempty.
          * split; [by intros ? [= <-]|]. split; by intros ? [=].
          * split; [by intros ? [=]|]. split; [by intros ? [= <-]|by intros ? [=]]. }
    destruct r as [c|status|f].
    + destruct (arg_dry_run args) eqn:Hdry.
      * unfold io_bind, show, io_ret. eexists _, _. split; [done|].
        split; [by intros ? [=]|]. split; by intros ? [=].
      * unfold io_ret. eexists _, _. split; [done|].
        split; [by intros ? [=]|]. split; [by intros ? [=]|].
        intros ? [= <-]. split; [by apply Hp|]. split; done.
    + eexists _, _. split; [done|]. split; [intros ? [= <-]; right; by apply He|].
      split; by intros ? [=].
    + eexists _, _. split; [done|]. split; [by intros ? [=]|].
      split; [|by intros ? [=]]. intros ? [= <-]. left. by apply Hf.
Qed.

Lemma same_but_tags_validate c c' : same_but_tags c c' -> validate c' = validate c.
Proof.
  intros (Hn & Hg & Hl & _ & Hu & _). apply validate_fields.
  unfold validated_fields. by rewrite Hn, Hg, Hl, Hu.
Qed.

(** [main] once the command line is parsed. *)
Lemma main_with_spec args w con :
  exists r con' st,
    main_with remote clock h args w con = Some (r, con', st)
    /\ (forall status, r = Exit status -> status = 0%Z \/ status = 1%Z)
    /\ (forall f, r = Uncaught f ->
         st = None
         /\ (f = EOFError
             \/ (exists name, write_error h name = Some f)
             \/ (no_arguments h = false
                 /\ exists name, arg_config args = Some name
                      /\ (read_json h name = LoadFails f
                          \/ (read_json h name = BadJson /\ f = JSONDecodeError)
                          \/ (read_json h name = Loaded NotObject
                              /\ (f = TypeError \/ f = AttributeError)))))).
Proof.
  unfold main_with.
  destruct (main_configure_spec args con) as (r & con1 & -> & He & Hf & _).
  destruct r as [[config|]|status|f].
  - destruct (main_provision_spec args config w con1) as (_ & _ & _ & Hend & _).
    cbn zeta in Hend.
    destruct (main_provision remote clock h args config w con1) as [[r con'] st].
    cbn [fst snd] in Hend. exists r, con', (Some st). split; [done|]. split.
    + intros status ->. destruct Hend as [[=]|[[= <-]|([= <-] & _)]]; [by right|by left].
    + intros f ->. by destruct Hend as [[=]|[[=]|([=] & _)]].
  - eexists _, _, _. split; [done|]. split; by intros ? [=].
  - eexists _, _, _. split; [done|]. split; [intros ? [= <-]; by apply He|by intros ? [=]].
  - eexists _, _, _. split; [done|]. split; [by intros ? [=]|].
    intros ? [= <-]. split; [done|]. by apply Hf.
Qed.

(** [main] always ends, whatever is typed and whatever the cloud
    answers (no signal arrives, and printing does not fail). It leaves
    the program with status 0, 1 or 2 only, and with status 2 only when
    argparse refuses the command line. An exception escapes it only
    before the [try] block: the end of the input, a file that could not
    be written, or (with arguments) a configuration file that could not
    be read or parsed, or that holds a value that is no object, which
    the first use of it as a dictionary refuses. *)
Theorem main_ends w con :
  exists r con' st,
    main remote clock h w con = Some (r, con', st)
    /\ (forall status, r = Exit status ->
         status = 0%Z \/ status = 1%Z
         \/ (status = 2%Z /\ parse_arguments h = UsageError))
    /\ (forall f, r = Uncaught f ->
         st = None
         /\ (f = EOFError
             \/ (exists name, write_error h name = Some f)
             \/ (no_arguments h = false
                 /\ exists args name,
                      parse_arguments h = Parsed args
                      /\ arg_config args = Some name
                      /\ (read_json h name = LoadFails f
                          \/ (read_json h name = BadJson /\ f = JSONDecodeError)
                          \/ (read_json h name = Loaded NotObject
                              /\ (f = TypeError \/ f = AttributeError)))))).
Proof.
  unfold main. destruct (parse_arguments h) as [args| |] eqn:Hparse.
  - destruct (main_with_spec args w con) as (r & con' & st & -> & He & Hf).
    exists r, con', st. split; [done|]. split.
    + intros status Hr. destruct (He status Hr); [by left|by right; left].
    + intros f Hr. destruct (Hf f Hr) as [Hst [Heof|[Hwrite|(Hmode & name & Hname & Hread)]]].
      * split; [done|]. by left.
      * split; [done|]. by right; left.
      * split; [done|]. right. right. split; [done|]. by exists args, name.
  - eexists _, _, _. split; [done|]. split; [|by intros ? [=]].
    intros ? [= <-]. by right; right.
  - eexists _, _, _. split; [done|]. split; [|by intros ? [=]].
    intros ? [= <-]. by left.
Qed.

Lemma main_reaches_try w con r con' st :
  main remote clock h w con = Some (r, con', Some st) ->
  exists args config con1,
    parse_arguments h = Parsed args
    /\ main_configure h args con = Some (Done (Some config), con1)
    /\ main_provision remote clock h args config w con1 = (r, con', st).
Proof.
  unfold main, main_with. intros Hmain.
  destruct (parse_arguments h) as [args| |]; [|done..].
  destruct (main_configure h args con) as [[[[config|]|status|f] con1]|] eqn:Hconf;
    try done.
  exists args, config, con1. split; [done|]. split; [done|].
  destruct (main_provision remote clock h args config w con1) as [[r0 con0] st0].
  by injection Hmain as -> -> ->.
Qed.

(** [validate] does not look at the password, yet [main] never reaches
    its [try] block, and so never builds a creator, with a configuration
    whose administrator password is missing or empty: every way to the
    block sets one or stops. *)
Theorem main_provisions_with_password w con r con' st :
  main remote clock h w con = Some (r, con', Some st) ->
  truthy (admin_password (cfg st)) = true.
Proof.
  intros Hmain.
  destruct (main_reaches_try _ _ _ _ _ Hmain) as (args & config & con1 & _ & Hconf & Hprov).
  destruct (main_configure_spec args con) as (r0 & con0 & Hconf' & _ & _ & Hc).
  rewrite Hconf in Hconf'. injection Hconf' as <- <-.
  destruct (Hc config eq_refl) as (Hp & _).
  destruct (main_provision_spec args config w con1) as ((_ & _ & _ & _ & _ & Hpw & _) & _).
  rewrite Hprov in Hpw. cbn in Hpw. by rewrite <- Hpw.
Qed.

(** Started without arguments, [main] only hands [validate] a
    configuration that passes: the default configuration, or the default
    configuration updated with what the dialogue returned. *)
Theorem interactive_config_passes_validate w con r con' st :
  no_arguments h = true ->
  main remote clock h w con = Some (r, con', Some st) ->
  validate (cfg st) = (Ok true, [InfoValidated]).
Proof.
  intros Hmode Hmain.
  destruct (main_reaches_try _ _ _ _ _ Hmain) as (args & config & con1 & _ & Hconf & Hprov).
  destruct (main_configure_spec args con) as (r0 & con0 & Hconf' & _ & _ & Hc).
  rewrite Hconf in Hconf'. injection Hconf' as <- <-.
  destruct (Hc config eq_refl) as (_ & Hv & _).
  destruct (main_provision_spec args config w con1) as (Hsame & _).
  rewrite Hprov in Hsame. cbn in Hsame.
  rewrite (same_but_tags_validate _ _ Hsame). by apply Hv.
Qed.

(** Started without arguments, [main] changes nothing but the six keys
    of the dialogue: the creator works with the operating system, image,
    network, disk and security sections of the default configuration,
    whatever was typed. So the security group it asks for lets SSH in
    from any address on port 22. *)
Theorem interactive_run_keeps_default_sections w con r con' st :
  no_arguments h = true ->
  main remote clock h w con = Some (r, con', Some st) ->
  os_type (cfg st) = os_type _default_config
  /\ image (cfg st) = image _default_config
  /\ network (cfg st) = network _default_config
  /\ disk (cfg st) = disk _default_config
  /\ security (cfg st) = security _default_config
  /\ build_security_rules (cfg st) = [ssh_rule 0 "*" 22; deny_all_inbound].
Proof.
  intros Hmode Hmain.
  destruct (main_reaches_try _ _ _ _ _ Hmain) as (args & config & con1 & _ & Hconf & Hprov).
  destruct (main_configure_spec args con) as (r0 & con0 & Hconf' & _ & _ & Hc).
  rewrite Hconf in Hconf'. injection Hconf' as <- <-.
  destruct (Hc config eq_refl) as (_ & Hv & _).
  destruct (Hv Hmode) as (_ & Ho & Hi & Hn & Hd & Hs).
  destruct (main_provision_spec args config w con1) as (Hsame & _).
  rewrite Hprov in Hsame. cbn in Hsame.
  destruct Hsame as (_ & _ & _ & _ & _ & _ & Ho' & Hi' & Hn' & Hd' & Hs').
  rewrite <- Ho', <- Hi', <- Hn', <- Hd', <- Hs'.
  split_and!; try done.
  unfold build_security_rules. by rewrite <- Hs', Hs.
Qed.

(** With [--generate-config] (and a file name that is not empty) or
    with [--dry-run], [main] ends before the [try] block: nothing is
    validated and no creator is built, so no client is called. *)
Theorem preview_stops_before_try args w con r con' st :
  no_arguments h = false ->
  parse_arguments h = Parsed args ->
  truthy (arg_generate_config args) = true \/ arg_dry_run args = true ->
  main remote clock h w con = Some (r, con', st) ->
  st = None.
Proof.
  intros Hmode Hparse Hpreview Hmain.
  destruct (main_configure_spec args con) as (r0 & con0 & Hconf & He & _ & Hc).
  unfold main in Hmain. rewrite Hparse in Hmain.
  unfold main_with in Hmain. rewrite Hconf in Hmain.
  destruct r0 as [[config|]|status|f]; [|by injection Hmain as <- <- <-..].
  destruct (Hc config eq_refl) as (_ & _ & Hno).
  destruct (Hno Hmode) as [Hdry Hgen]. destruct Hpreview; congruence.
Qed.

End Program.

(** * The theorems at work *)

Lemma existing_group_reused_witness :
  (create_resource_group (Demo.cloud Demo.healthy) Demo.clock
     (Some "rg-web") (Some "East US")
     (init Demo.config [Some "rg-web"])).1 =
    Ok (Demo.handle "resourceGroups" (Some "rg-web")).
Proof.
  refine (proj1 (existing_group_reused (Demo.cloud Demo.healthy) Demo.clock
                   (Some "rg-web") (Some "East US") (init Demo.config [Some "rg-web"])
                   (Demo.handle "resourceGroups" (Some "rg-web")) [Some "rg-web"] _)).
  vm_compute. reflexivity.
Defined.

Lemma dialogue_defaults_witness :
  (interactive_vm_creation DemoHost.interactive
     (DemoHost.keyboard ["web01"; EmptyString; EmptyString; EmptyString; EmptyString;
                         "Str0ngPass!"])).1 =
    Done (only_keys (Some "web01") (Some "rg-web01") (Some "East US")
            (Some "Standard_B2s") (Some "azureuser") (Some "Str0ngPass!")).
Proof.
  refine (f_equal fst (dialogue_defaults DemoHost.interactive "web01" "Str0ngPass!"
                         [] [] [] _ _ _ _)).
  - vm_compute. reflexivity.
  - vm_compute. lia.
  - reflexivity.
  - reflexivity.
Defined.

Lemma main_provisions_with_password_witness :
  match main (Demo.cloud Demo.healthy) Demo.clock DemoHost.interactive []
          DemoHost.default_session with
  | Some (_, _, Some st) => truthy (admin_password (cfg st)) = true
  | _ => False
  end.
Proof.
  destruct (main _ _ _ _ _) as [[[r con'] [st|]]|] eqn:Hmain.
  - exact (main_provisions_with_password _ _ _ _ _ _ _ _ Hmain).
  - apply (f_equal (fun o => bool_decide (is_Some (o ≫= snd)))) in Hmain.
    vm_compute in Hmain. discriminate Hmain.
  - apply (f_equal (fun o => bool_decide (is_Some (o ≫= snd)))) in Hmain.
    vm_compute in Hmain. discriminate Hmain.
Defined.

Lemma interactive_config_passes_validate_witness :
  match main (Demo.cloud Demo.healthy) Demo.clock DemoHost.interactive []
          DemoHost.custom_session with
  | Some (_, _, Some st) => validate (cfg st) = (Ok true, [InfoValidated])
  | _ => False
  end.
Proof.
  destruct (main _ _ _ _ _) as [[[r con'] [st|]]|] eqn:Hmain.
  - exact (interactive_config_passes_validate _ _ DemoHost.interactive _ _ _ _ _
           eq_refl Hmain).
  - apply (f_equal (fun o => bool_decide (is_Some (o ≫= snd)))) in Hmain.
    vm_compute in Hmain. discriminate Hmain.
  - apply (f_equal (fun o => bool_decide (is_Some (o ≫= snd)))) in Hmain.
    vm_compute in Hmain. discriminate Hmain.
Defined.

Lemma interactive_run_keeps_default_sections_witness :
  match main (Demo.cloud Demo.healthy) Demo.clock DemoHost.interactive []
          DemoHost.custom_session with
  | Some (_, _, Some st) =>
      build_security_rules (cfg st) = [ssh_rule 0 "*" 22; deny_all_inbound]
  | _ => False
  end.
Proof.
  destruct (main _ _ _ _ _) as [[[r con'] [st|]]|] eqn:Hmain.
  - exact (proj2 (proj2 (proj2 (proj2 (proj2
             (interactive_run_keeps_default_sections _ _ DemoHost.interactive _ _ _ _ _
                eq_refl Hmain)))))).
  - apply (f_equal (fun o => bool_decide (is_Some (o ≫= snd)))) in Hmain.
    vm_compute in Hmain. discriminate Hmain.
  - apply (f_equal (fun o => bool_decide (is_Some (o ≫= snd)))) in Hmain.
    vm_compute in Hmain. discriminate Hmain.
Defined.

Lemma preview_stops_before_try_witness :
  (main (Demo.cloud Demo.healthy) Demo.clock DemoHost.preview []
     (DemoHost.keyboard [])) ≫= snd = None.
Proof.
  destruct (main _ _ _ _ _) as [[[r con'] st]|] eqn:Hmain; [|reflexivity].
  exact (preview_stops_before_try _ _ DemoHost.preview DemoHost.preview_args
           _ _ _ _ _ eq_refl eq_refl (or_intror eq_refl) Hmain).
Defined.

Lemma failure_logging_witness :
  exists l name,
    log (create_complete_vm (Demo.cloud (Demo.fails_at NetworkSecurityGroup Demo.boom))
           Demo.clock (init Demo.config [])).2 =
      l ++ [InfoCreating NetworkSecurityGroup name]
        ++ (if is_azure_error Demo.boom
            then [ErrCreate NetworkSecurityGroup Demo.boom] else [])
        ++ [ErrRun (exn_msg Demo.boom)].
Proof.
  destruct (failure_logging
              (Demo.cloud (Demo.fails_at NetworkSecurityGroup Demo.boom))
              Demo.clock (init Demo.config [])) as (evs & Htrace & Hlog).
  change (init Demo.config []).(trace) with (@nil event) in Htrace.
  cbn [app] in Htrace. subst evs.
  set (t := trace _) in Hlog.
  refine (Hlog (take 5 t) (default (Ev (RGGet None) (Raise Demo.boom)) (t !! 5))
            Demo.boom NetworkSecurityGroup _ _ _).
  - vm_compute. reflexivity.
  - vm_compute. reflexivity.
  - vm_compute. reflexivity.
Defined.

Lemma run_requests_tagged_witness :
  let t :=
    trace (create_complete_vm (Demo.cloud Demo.healthy) Demo.clock
             (init Demo.config [])).2 in
  exists tags,
    call_tags (ev_call (default (Ev (RGGet None) (Raise Demo.boom)) (t !! 5))) = Some tags
    /\ tags !! "CreatedAt" = Some (Demo.clock (tagged_creations (take 5 t) + 0)).
Proof.
  intros t.
  destruct (run_requests_tagged (Demo.cloud Demo.healthy) Demo.clock (init Demo.config []))
    as (evs & Htrace & Htags).
  change (init Demo.config []).(trace) with (@nil event) in Htrace.
  cbn [app] in Htrace. subst evs. fold t in Htags.
  specialize (Htags (take 5 t) (default (Ev (RGGet None) (Raise Demo.boom)) (t !! 5))
                (drop 6 t) NetworkSecurityGroup).
  cbv beta iota in Htags.
  destruct Htags as (tags & Hcall & Hstamp & _).
  - vm_compute. reflexivity.
  - vm_compute. reflexivity.
  - exists tags. split; [exact Hcall|exact Hstamp].
Defined.
